(** * HydroSnap QR pipeline: payload codec, cipher glue, validator, geofence

    A shallow embedding of [QR_generation/generate_qr_codes.py] and
    [QR_generation/qr_validator.py].

    Conventions of the embedding.
    - A Python [str] is modelled by the Rocq [string] of its UTF-8 bytes, so
      [s.encode()] and [b.decode()] are the identity on the model and a
      Python [bytes] value is a [string] as well.
    - A Python [float] is a binary64 value, Rocq's primitive [float]. Only
      the geofence arithmetic, which calls the C mathematics library, is
      idealised: it is carried out on the real numbers the floats denote.
    - A raised exception is a value of [result]; [try/except] is a match.
      [datetime.now()] reads a clock that is passed along as state.
      Printing is left out.
    - Functions of third-party packages (Fernet, zlib, the JSON text codec,
      [repr], [float] and [int] of text, [datetime.fromisoformat]) are the
      fields of the class [PyLib], and the general theorems hold for every
      instance of it; what a theorem needs of them is a hypothesis of that
      theorem. SHA-256, hexadecimal digests, URL-safe base64 and
      [datetime.isoformat] are small enough to be written out.
    - [Reference] implements the class from the published formats, and
      [Sample] holds concrete inputs to run the program on. *)

From Stdlib Require Import ZArith List String Ascii Bool Lia Reals Lra.
From Stdlib Require Import Floats DecimalString.
Import ListNotations.

Local Open Scope string_scope.
Local Open Scope list_scope.
Local Open Scope Z_scope.

(* ------------------------------------------------------------------ *)
(** ** Bytes *)

Definition byte_val (c : ascii) : Z := Z.of_N (N_of_ascii c).

Definition byte_chr (z : Z) : ascii := ascii_of_N (Z.to_N (z mod 256)).

Definition bytes_of (s : string) : list Z := map byte_val (list_ascii_of_string s).

Definition string_of_bytes (l : list Z) : string :=
  string_of_list_ascii (map byte_chr l).

(* ------------------------------------------------------------------ *)
(** ** hashlib.sha256 (FIPS 180-4) *)

Module SHA256.

Definition w32 : Z := 2 ^ 32.

Definition add32 (x y : Z) : Z := (x + y) mod w32.

Definition rotr (n x : Z) : Z :=
  Z.lor (Z.shiftr x n) ((Z.shiftl x (32 - n)) mod w32).

Definition Ch (x y z : Z) : Z :=
  Z.lxor (Z.land x y) (Z.land (Z.lxor x (w32 - 1)) z).

Definition Maj (x y z : Z) : Z :=
  Z.lxor (Z.lxor (Z.land x y) (Z.land x z)) (Z.land y z).

Definition bsig0 (x : Z) : Z := Z.lxor (Z.lxor (rotr 2 x) (rotr 13 x)) (rotr 22 x).
Definition bsig1 (x : Z) : Z := Z.lxor (Z.lxor (rotr 6 x) (rotr 11 x)) (rotr 25 x).
Definition ssig0 (x : Z) : Z := Z.lxor (Z.lxor (rotr 7 x) (rotr 18 x)) (Z.shiftr x 3).
Definition ssig1 (x : Z) : Z := Z.lxor (Z.lxor (rotr 17 x) (rotr 19 x)) (Z.shiftr x 10).

(** The round constants are the first 32 fractional bits of the cube roots
    of the first 64 primes, the initial state those of the square roots of
    the first 8; both are computed rather than tabulated. *)

Definition is_prime (n : nat) : bool :=
  forallb (fun d => negb (Nat.eqb (Nat.modulo n d) 0)) (seq 2 (n - 2)).

Definition primes64 : list Z :=
  Eval vm_compute in map Z.of_nat (filter is_prime (seq 2 310)).

Fixpoint icbrt_bits (bits : nat) (n r : Z) : Z :=
  match bits with
  | O => r
  | S b =>
      let r' := r + 2 ^ Z.of_nat b in
      icbrt_bits b n (if r' * r' * r' <=? n then r' else r)
  end.

(** Largest [r] below [2^35] with [r^3 <= n]. *)
Definition icbrt (n : Z) : Z := icbrt_bits 35 n 0.

Definition frac_cbrt32 (p : Z) : Z := icbrt (p * 2 ^ 96) mod w32.
Definition frac_sqrt32 (p : Z) : Z := Z.sqrt (p * 2 ^ 64) mod w32.

Definition K : list Z := Eval vm_compute in map frac_cbrt32 primes64.
Definition H0 : list Z := Eval vm_compute in map frac_sqrt32 (firstn 8 primes64).

Record state := St { ha : Z; hb : Z; hc : Z; hd : Z; he : Z; hf : Z; hg : Z; hh : Z }.

Definition init : state :=
  match H0 with
  | [a; b; c; d; e; f; g; h] => St a b c d e f g h
  | _ => St 0 0 0 0 0 0 0 0
  end.

(** Padding: a 1 bit, zeros up to 56 mod 64, the bit length on 8 bytes. *)
Definition be_bytes (width : nat) (v : Z) : list Z :=
  map (fun i => (Z.shiftr v (8 * Z.of_nat i)) mod 256) (rev (seq 0 width)).

Definition pad (msg : list Z) : list Z :=
  let n := Z.of_nat (List.length msg) in
  let zeros := Z.to_nat ((55 - n) mod 64) in
  msg ++ [128] ++ repeat 0 zeros ++ be_bytes 8 (8 * n).

Fixpoint be_word (l : list Z) : Z :=
  match l with
  | [] => 0
  | b :: r => b * 256 ^ Z.of_nat (List.length r) + be_word r
  end.

Fixpoint words (n : nat) (l : list Z) : list Z :=
  match n with
  | O => []
  | S k => be_word (firstn 4 l) :: words k (skipn 4 l)
  end.

Fixpoint schedule (n : nat) (w : list Z) : list Z :=
  match n with
  | O => w
  | S k =>
      let t := List.length w in
      let at_ (back : nat) := nth (t - back) w 0 in
      schedule k (w ++ [add32 (add32 (ssig1 (at_ 2%nat)) (at_ 7%nat))
                              (add32 (ssig0 (at_ 15%nat)) (at_ 16%nat))])
  end.

Definition round (s : state) (kw : Z * Z) : state :=
  let (k, w) := kw in
  let t1 := add32 (add32 (add32 (hh s) (bsig1 (he s))) (Ch (he s) (hf s) (hg s)))
                  (add32 k w) in
  let t2 := add32 (bsig0 (ha s)) (Maj (ha s) (hb s) (hc s)) in
  St (add32 t1 t2) (ha s) (hb s) (hc s) (add32 (hd s) t1) (he s) (hf s) (hg s).

Definition compress (s : state) (block : list Z) : state :=
  let w := schedule 48 (words 16 block) in
  let r := fold_left round (combine K w) s in
  St (add32 (ha s) (ha r)) (add32 (hb s) (hb r)) (add32 (hc s) (hc r))
     (add32 (hd s) (hd r)) (add32 (he s) (he r)) (add32 (hf s) (hf r))
     (add32 (hg s) (hg r)) (add32 (hh s) (hh r)).

Fixpoint blocks (n : nat) (s : state) (l : list Z) : state :=
  match n with
  | O => s
  | S k => blocks k (compress s (firstn 64 l)) (skipn 64 l)
  end.

Definition state_bytes (s : state) : list Z :=
  be_bytes 4 (ha s) ++ be_bytes 4 (hb s) ++ be_bytes 4 (hc s) ++ be_bytes 4 (hd s) ++
  be_bytes 4 (he s) ++ be_bytes 4 (hf s) ++ be_bytes 4 (hg s) ++ be_bytes 4 (hh s).

(** [hashlib.sha256(data).digest()] *)
Definition digest (data : string) : string :=
  let p := pad (bytes_of data) in
  string_of_bytes (state_bytes (blocks (Nat.div (List.length p) 64) init p)).

End SHA256.

(* ------------------------------------------------------------------ *)
(** ** Hexadecimal digests *)

Definition hex_digit (n : Z) : ascii :=
  if n <? 10 then byte_chr (48 + n) else byte_chr (87 + n).

Fixpoint hex_of (s : string) : string :=
  match s with
  | EmptyString => EmptyString
  | String c r =>
      String (hex_digit (byte_val c / 16)) (String (hex_digit (byte_val c mod 16)) (hex_of r))
  end.

(** [hashlib.sha256(data).hexdigest()] *)
Definition sha256_hexdigest (data : string) : string := hex_of (SHA256.digest data).

(** Python's slice [s[:n]]. *)
Fixpoint str_take (n : nat) (s : string) : string :=
  match n, s with
  | S k, String c r => String c (str_take k r)
  | _, _ => EmptyString
  end.

Fixpoint str_forall (p : ascii -> bool) (s : string) : bool :=
  match s with
  | EmptyString => true
  | String c r => p c && str_forall p r
  end.

(** One of [0-9a-f]. *)
Definition is_lower_hex (c : ascii) : bool :=
  let v := byte_val c in
  ((48 <=? v) && (v <=? 57)) || ((97 <=? v) && (v <=? 102)).

(* ------------------------------------------------------------------ *)
(** ** base64.urlsafe_b64encode / base64.urlsafe_b64decode *)

Module Base64.

(** Six bits, most significant first. *)
Inductive sextet := Six (b5 b4 b3 b2 b1 b0 : bool).

Definition sextet_val (s : sextet) : nat :=
  let 'Six b5 b4 b3 b2 b1 b0 := s in
  let bit (b : bool) (wgt : nat) := if b then wgt else O in
  (bit b5 32 + bit b4 16 + bit b3 8 + bit b2 4 + bit b1 2 + bit b0 1)%nat.

Definition sextet_of (n : nat) : sextet :=
  let tb (i : N) := N.testbit (N.of_nat n) i in
  Six (tb 5%N) (tb 4%N) (tb 3%N) (tb 2%N) (tb 1%N) (tb 0%N).

Definition alphabet : string :=
  "ABCDEFGHIJKLMNOPQRSTUVWXYZabcdefghijklmnopqrstuvwxyz0123456789-_".

Definition pad_char : ascii := "="%char.

Definition b64_char (s : sextet) : ascii :=
  match String.get (sextet_val s) alphabet with
  | Some c => c
  | None => pad_char
  end.

Fixpoint index_in (c : ascii) (s : string) (i : nat) : option nat :=
  match s with
  | EmptyString => None
  | String d r => if Ascii.eqb c d then Some i else index_in c r (S i)
  end.

(** The decoder first maps [-] to [+] and [_] to [/] and then reads the
    standard alphabet, so it takes either spelling of 62 and 63. *)
Definition b64_index (c : ascii) : option sextet :=
  if Ascii.eqb c "+"%char then Some (sextet_of 62)
  else if Ascii.eqb c "/"%char then Some (sextet_of 63)
  else option_map sextet_of (index_in c alphabet O).

Definition enc1 (a : ascii) : string :=
  let 'Ascii a0 a1 a2 a3 a4 a5 a6 a7 := a in
  String (b64_char (Six a7 a6 a5 a4 a3 a2))
    (String (b64_char (Six a1 a0 false false false false))
       (String pad_char (String pad_char EmptyString))).

Definition enc2 (a b : ascii) : string :=
  let 'Ascii a0 a1 a2 a3 a4 a5 a6 a7 := a in
  let 'Ascii b0 b1 b2 b3 b4 b5 b6 b7 := b in
  String (b64_char (Six a7 a6 a5 a4 a3 a2))
    (String (b64_char (Six a1 a0 b7 b6 b5 b4))
       (String (b64_char (Six b3 b2 b1 b0 false false))
          (String pad_char EmptyString))).

Definition enc3 (a b c : ascii) (rest : string) : string :=
  let 'Ascii a0 a1 a2 a3 a4 a5 a6 a7 := a in
  let 'Ascii b0 b1 b2 b3 b4 b5 b6 b7 := b in
  let 'Ascii c0 c1 c2 c3 c4 c5 c6 c7 := c in
  String (b64_char (Six a7 a6 a5 a4 a3 a2))
    (String (b64_char (Six a1 a0 b7 b6 b5 b4))
       (String (b64_char (Six b3 b2 b1 b0 c7 c6))
          (String (b64_char (Six c5 c4 c3 c2 c1 c0)) rest))).

Fixpoint urlsafe_b64encode (s : string) : string :=
  match s with
  | EmptyString => EmptyString
  | String a EmptyString => enc1 a
  | String a (String b EmptyString) => enc2 a b
  | String a (String b (String c r)) => enc3 a b c (urlsafe_b64encode r)
  end.

(** Position inside the current group of four characters, with the bits
    read so far that no output byte has taken yet. *)
Inductive quad :=
| Q0
| Q1 (b5 b4 b3 b2 b1 b0 : bool)
| Q2 (b3 b2 b1 b0 : bool)
| Q3 (b1 b0 : bool).

(** [binascii.a2b_base64] without [strict_mode]: characters outside the
    alphabet are skipped; padding ends the input once a group holding at
    least two characters has been filled up to four; input that ends inside
    a group is an error ([None]). *)
Fixpoint a2b_base64 (s : string) (q : quad) (pads : nat) : option string :=
  match s with
  | EmptyString => match q with Q0 => Some EmptyString | _ => None end
  | String c r =>
      if Ascii.eqb c pad_char then
        match q with
        | Q0 | Q1 _ _ _ _ _ _ => a2b_base64 r q pads
        | Q2 _ _ _ _ =>
            if (4 <=? 2 + S pads)%nat then Some EmptyString
            else a2b_base64 r q (S pads)
        | Q3 _ _ => Some EmptyString
        end
      else
        match b64_index c with
        | None => a2b_base64 r q pads
        | Some (Six s5 s4 s3 s2 s1 s0) =>
            match q with
            | Q0 => a2b_base64 r (Q1 s5 s4 s3 s2 s1 s0) O
            | Q1 b5 b4 b3 b2 b1 b0 =>
                option_map (String (Ascii s4 s5 b0 b1 b2 b3 b4 b5))
                           (a2b_base64 r (Q2 s3 s2 s1 s0) O)
            | Q2 b3 b2 b1 b0 =>
                option_map (String (Ascii s2 s3 s4 s5 b0 b1 b2 b3))
                           (a2b_base64 r (Q3 s1 s0) O)
            | Q3 b1 b0 =>
                option_map (String (Ascii s0 s1 s2 s3 s4 s5 b0 b1))
                           (a2b_base64 r Q0 O)
            end
        end
  end.

(** [base64.urlsafe_b64decode(s)]; [None] stands for [binascii.Error]. *)
Definition urlsafe_b64decode (s : string) : option string := a2b_base64 s Q0 O.

End Base64.

(* ------------------------------------------------------------------ *)
(** ** Exceptions and the clock *)

Inductive exn :=
| KeyError (key : string)
| TypeError
| ValueError
| AttributeError
| OverflowError.

Inductive result (A : Type) :=
| Ok (a : A)
| Raise (e : exn).

Arguments Ok {A} a.
Arguments Raise {A} e.

Definition bind {A B} (r : result A) (k : A -> result B) : result B :=
  match r with
  | Ok a => k a
  | Raise e => Raise e
  end.

(** [try: r except Exception: handler] *)
Definition try_except {A} (r : result A) (handler : A) : A :=
  match r with
  | Ok a => a
  | Raise _ => handler
  end.

Definition of_option {A} (o : option A) (e : exn) : result A :=
  match o with
  | Some a => Ok a
  | None => Raise e
  end.

(** A naive [datetime] is the number of microseconds since
    0001-01-01T00:00:00; naive arithmetic and comparison are those of that
    number. *)
Definition datetime := Z.

(** The wall clock: the reading the n-th call of [datetime.now()] returns,
    and how many calls were made. *)
Record world := World { time_at : nat -> datetime; reads : nat }.

(** Computations that read the clock and may raise. *)
Definition M (A : Type) : Type := world -> result A * world.

Definition ret {A} (a : A) : M A := fun w => (Ok a, w).

Definition raise {A} (e : exn) : M A := fun w => (Raise e, w).

Definition lift {A} (r : result A) : M A := fun w => (r, w).

Definition mbind {A B} (m : M A) (k : A -> M B) : M B :=
  fun w =>
    match m w with
    | (Ok a, w') => k a w'
    | (Raise e, w') => (Raise e, w')
    end.

Notation "x <- m ;; k" := (mbind m (fun x => k))
  (at level 61, m at next level, right associativity).

Notation "x <~ r ;; k" := (bind r (fun x => k))
  (at level 61, r at next level, right associativity).

(** [datetime.now()] *)
Definition now : M datetime :=
  fun w => (Ok (time_at w (reads w)), World (time_at w) (S (reads w))).

(* ------------------------------------------------------------------ *)
(** ** datetime arithmetic and [isoformat] *)

Module Datetime.

Definition us_per_second : Z := 1000000.
Definition us_per_day : Z := 86400 * us_per_second.

(** Days from 0001-01-01 to 9999-12-31, the last representable date. *)
Definition max_ordinal : Z := 3652059.

(** [timedelta(days=n)] *)
Definition timedelta_days (n : Z) : Z := n * us_per_day.

(** [dt + delta]; a result outside years 1..9999 raises OverflowError. *)
Definition add (t : datetime) (delta : Z) : result datetime :=
  let r := t + delta in
  if (0 <=? r) && (r <? max_ordinal * us_per_day) then Ok r else Raise OverflowError.

Definition days_in_month (m : Z) : Z :=
  if m =? 2 then 28
  else if (m =? 4) || (m =? 6) || (m =? 9) || (m =? 11) then 30
  else 31.

Fixpoint days_before (m : nat) : Z :=
  match m with
  | O => 0
  | S k => days_before k + days_in_month (Z.of_nat k)
  end.

(** Days before the first of month [m] in a common year (m = 1..12). *)
Definition days_before_month (m : Z) : Z := days_before (Z.to_nat m) - 31.

(** Year, month and day of the day numbered [n] from 0001-01-01 = 0. *)
Definition ord2ymd (n : Z) : Z * Z * Z :=
  let n400 := n / 146097 in
  let r400 := n mod 146097 in
  let n100 := r400 / 36524 in
  let r100 := r400 mod 36524 in
  let n4 := r100 / 1461 in
  let r4 := r100 mod 1461 in
  let n1 := r4 / 365 in
  let d := r4 mod 365 in
  let year := n400 * 400 + 1 + n100 * 100 + n4 * 4 + n1 in
  if (n1 =? 4) || (n100 =? 4) then (year - 1, 12, 31)
  else
    let leap := (n1 =? 3) && (negb (n4 =? 24) || (n100 =? 3)) in
    let extra (c : bool) := if c && leap then 1 else 0 in
    let month := (d + 50) / 32 in
    let preceding := days_before_month month + extra (2 <? month) in
    if d <? preceding then
      let month' := month - 1 in
      let preceding' := preceding - (days_in_month month' + extra (month' =? 2)) in
      (year, month', d - preceding' + 1)
    else (year, month, d - preceding + 1).

Definition digit_char (n : Z) : ascii := byte_chr (48 + n mod 10).

(** [n] in decimal on exactly [width] digits, zero padded. *)
Fixpoint zpad (width : nat) (n : Z) : string :=
  match width with
  | O => EmptyString
  | S k => String (digit_char (n / 10 ^ Z.of_nat k)) (zpad k n)
  end.

(** [dt.isoformat()] of a naive datetime *)
Definition isoformat (t : datetime) : string :=
  let '(y, m, d) := ord2ymd (t / us_per_day) in
  let r := t mod us_per_day in
  let secs := r / us_per_second in
  let us := r mod us_per_second in
  let frac := if us =? 0 then EmptyString else String "." (zpad 6 us) in
  (zpad 4 y ++ "-" ++ zpad 2 m ++ "-" ++ zpad 2 d ++ "T" ++
   zpad 2 (secs / 3600) ++ ":" ++ zpad 2 (secs / 60 mod 60) ++ ":" ++
   zpad 2 (secs mod 60) ++ frac)%string.

End Datetime.

(* ------------------------------------------------------------------ *)
(** ** Python values *)

(** The objects that [json.loads] returns and that a row of the site table
    holds. A [dict] keeps its insertion order, which [json.dumps] and
    [repr] show, so it is a list of pairs; its keys are strings. *)
#[local] Set Warnings "-register-all".
Inductive value :=
| VNone
| VBool (b : bool)
| VInt (n : Z)
| VFloat (f : float)
| VStr (s : string)
| VList (items : list value)
| VDict (items : list (string * value)).

Fixpoint dict_get (d : list (string * value)) (k : string) : option value :=
  match d with
  | [] => None
  | (k', v) :: r => if String.eqb k k' then Some v else dict_get r k
  end.

(** [d[k] = v]: an existing key keeps its place, a new one goes last. *)
Fixpoint dict_set (d : list (string * value)) (k : string) (v : value)
  : list (string * value) :=
  match d with
  | [] => [(k, v)]
  | (k', v') :: r => if String.eqb k k' then (k', v) :: r else (k', v') :: dict_set r k v
  end.

(** [bool(v)], the test of [if v] and [not v]. *)
Definition truthy (v : value) : bool :=
  match v with
  | VNone => false
  | VBool b => b
  | VInt n => negb (n =? 0)
  | VFloat f => negb (PrimFloat.eqb f 0%float)
  | VStr s => negb (String.eqb s "")
  | VList l => match l with [] => false | _ => true end
  | VDict d => match d with [] => false | _ => true end
  end.

(** [v.get(k, default)]: only a dict has the method. *)
Definition py_get (v : value) (k : string) (default : value) : result value :=
  match v with
  | VDict d => Ok (match dict_get d k with Some x => x | None => default end)
  | _ => Raise AttributeError
  end.

(** [v[k]] for a string [k]. *)
Definition py_getitem (v : value) (k : string) : result value :=
  match v with
  | VDict d => of_option (dict_get d k) (KeyError k)
  | _ => Raise TypeError
  end.

(** [v == s] for a string [s]: a value that is not a string is unequal. *)
Definition eq_str (v : value) (s : string) : bool :=
  match v with
  | VStr s' => String.eqb s' s
  | _ => false
  end.

(** [s[n:]] *)
Fixpoint str_drop (n : nat) (s : string) : string :=
  match n, s with
  | S k, String _ r => str_drop k r
  | _, _ => s
  end.

(* ------------------------------------------------------------------ *)
(** ** Floats and integers *)

(** [float(n)] of an integer: the nearest binary64, OverflowError beyond. *)
Definition float_of_Z (n : Z) : result float :=
  let f := SF2Prim (binary_normalize prec emax n 0 false) in
  if PrimFloat.is_infinity f then Raise OverflowError else Ok f.

(** [int(f)] of a float: truncation toward zero. *)
Definition Z_of_float (f : float) : result Z :=
  match Prim2SF f with
  | S754_zero _ => Ok 0
  | S754_finite s m e =>
      let a := if 0 <=? e then Z.pos m * 2 ^ e else Z.pos m / 2 ^ (- e) in
      Ok (if s then - a else a)
  | S754_infinity _ => Raise OverflowError
  | S754_nan => Raise ValueError
  end.

(** The real number a finite float denotes. *)
Definition float_to_R (f : float) : option R :=
  match Prim2SF f with
  | S754_zero _ => Some 0%R
  | S754_finite s m e =>
      Some ((if s then -1 else 1) * IZR (Z.pos m) * powerRZ 2 e)%R
  | _ => None
  end.

(* ------------------------------------------------------------------ *)
(** ** The third-party interface *)

(** [cryptography.fernet.Fernet]: the two halves of the 32-byte key. *)
Record Fernet := { signing_key : string; encryption_key : string }.

(** What one call of [Fernet.encrypt] draws from its environment: the
    initialisation vector of [os.urandom(16)] and [int(time.time())]. *)
Record entropy := { iv : string; timestamp : Z }.

(** What [datetime.fromisoformat] returns: a naive datetime, or an aware
    one with its offset from UTC. *)
Inductive parsed_datetime :=
| Naive (t : datetime)
| Aware (t : datetime) (utcoffset : Z).

Class PyLib := {
  (** [repr(f)] of a float *)
  float_repr : float -> string;
  (** [repr(s)] of a string *)
  str_repr : string -> string;
  (** [float(s)] of a string; [None] is ValueError *)
  float_of_str : string -> option float;
  (** [int(s)] of a string; [None] is ValueError *)
  int_of_str : string -> option Z;
  (** [json.dumps(v, separators=(",", ":")).encode()] *)
  json_dumps : value -> string;
  (** [json.loads(b.decode())]; [None] when either call raises *)
  json_loads : string -> option value;
  (** [zlib.compress(b, level=9)]; [None] when it raises *)
  zlib_compress : string -> option string;
  (** [cipher.encrypt(b)] *)
  fernet_encrypt : Fernet -> entropy -> string -> string;
  (** [cipher.decrypt(b)]; [None] is InvalidToken (or TypeError) *)
  fernet_decrypt : Fernet -> string -> option string;
  (** [datetime.fromisoformat(s)]; [None] is ValueError *)
  fromisoformat : string -> option parsed_datetime
}.

(** [Fernet(key)]: the key is URL-safe base64 of exactly 32 bytes. *)
Definition Fernet_new (key : string) : result Fernet :=
  match Base64.urlsafe_b64decode key with
  | None => Raise ValueError
  | Some k =>
      if (String.length k =? 32)%nat
      then Ok {| signing_key := str_take 16 k; encryption_key := str_drop 16 k |}
      else Raise ValueError
  end.

Section Builtins.

Context {L : PyLib}.

(** [repr(v)] *)
Fixpoint py_repr (v : value) : string :=
  match v with
  | VNone => "None"
  | VBool true => "True"
  | VBool false => "False"
  | VInt n => NilZero.string_of_int (Z.to_int n)
  | VFloat f => float_repr f
  | VStr s => str_repr s
  | VList l =>
      let fix items (l : list value) : string :=
        match l with
        | [] => ""
        | x :: r =>
            match r with
            | [] => py_repr x
            | _ :: _ => (py_repr x ++ ", " ++ items r)%string
            end
        end in
      ("[" ++ items l ++ "]")%string
  | VDict d =>
      let fix items (d : list (string * value)) : string :=
        match d with
        | [] => ""
        | (k, x) :: r =>
            match r with
            | [] => (str_repr k ++ ": " ++ py_repr x)%string
            | _ :: _ => (str_repr k ++ ": " ++ py_repr x ++ ", " ++ items r)%string
            end
        end in
      ("{" ++ items d ++ "}")%string
  end.

(** [str(v)], which is also how an f-string formats [{v}]. *)
Definition py_str (v : value) : string :=
  match v with
  | VStr s => s
  | _ => py_repr v
  end.

(** [float(v)] *)
Definition py_float (v : value) : result float :=
  match v with
  | VFloat f => Ok f
  | VInt n => float_of_Z n
  | VBool b => Ok (if b then 1%float else 0%float)
  | VStr s => of_option (float_of_str s) ValueError
  | _ => Raise TypeError
  end.

(** [int(v)] *)
Definition py_int (v : value) : result Z :=
  match v with
  | VInt n => Ok n
  | VFloat f => Z_of_float f
  | VBool b => Ok (if b then 1 else 0)
  | VStr s => of_option (int_of_str s) ValueError
  | _ => Raise TypeError
  end.

End Builtins.

(* ------------------------------------------------------------------ *)
(** ** generate_qr_codes.py *)

Module QRCodeGenerator.

Record t := { cipher : Fernet }.

(** [QRCodeGenerator.__init__]: the attribute [cipher] is all it sets. *)
Definition __init__ (secret_key : string) : result t :=
  let key := SHA256.digest secret_key in
  c <~ Fernet_new (Base64.urlsafe_b64encode key) ;;
  Ok {| cipher := c |}.

Section Methods.

Context {L : PyLib}.

(** [create_validation_hash]: a KeyError is reported and raised again, any
    other exception is not caught. *)
Definition create_validation_hash (site_data : value) : result string :=
  siteId <~ py_getitem site_data "siteId" ;;
  name <~ py_getitem site_data "name" ;;
  lat <~ (coordinates <~ py_getitem site_data "coordinates" ;; py_getitem coordinates "lat") ;;
  lng <~ (coordinates <~ py_getitem site_data "coordinates" ;; py_getitem coordinates "lng") ;;
  let hash_string := (py_str siteId ++ py_str name ++ py_str lat ++ py_str lng)%string in
  Ok (str_take 16 (sha256_hexdigest hash_string)).

(** [encrypt_site_data]; [e] is what this call of [Fernet.encrypt] draws. *)
Definition encrypt_site_data (self : t) (e : entropy) (site_data : value) : string :=
  let json_bytes := json_dumps site_data in
  let compressed :=
    match zlib_compress json_bytes with
    | Some c => c
    | None => json_bytes
    end in
  let token := fernet_encrypt (cipher self) e compressed in
  token.

(** [generate_qr_data]: the dict display evaluates its entries in order;
    KeyError, ValueError and TypeError are reported and raised again. *)
Definition generate_qr_data (site_info : value) : M value :=
  id <- lift (py_getitem site_info "id") ;;
  name <- lift (py_getitem site_info "name") ;;
  location <- lift (py_getitem site_info "location") ;;
  latitude <- lift (v <~ py_getitem site_info "latitude" ;; py_float v) ;;
  longitude <- lift (v <~ py_getitem site_info "longitude" ;; py_float v) ;;
  safe_level <- lift (v <~ py_getitem site_info "safe_level" ;; py_float v) ;;
  warning_level <- lift (v <~ py_getitem site_info "warning_level" ;; py_float v) ;;
  danger_level <- lift (v <~ py_getitem site_info "danger_level" ;; py_float v) ;;
  geofence_radius <- lift (v <~ py_getitem site_info "geofence_radius" ;; py_int v) ;;
  qr_code <- lift (py_getitem site_info "qr_code") ;;
  is_active <- lift (py_getitem site_info "is_active") ;;
  generated <- now ;;
  current <- now ;;
  expires <- lift (Datetime.add current (Datetime.timedelta_days 365)) ;;
  let qr_payload :=
    [ ("siteId", VStr (py_str id));
      ("name", VStr (py_str name));
      ("location", VStr (py_str location));
      ("coordinates", VDict [("lat", VFloat latitude); ("lng", VFloat longitude)]);
      ("levels", VDict [("safe", VFloat safe_level);
                        ("warning", VFloat warning_level);
                        ("danger", VFloat danger_level)]);
      ("geofenceRadius", VInt geofence_radius);
      ("qrCode", VStr (py_str qr_code));
      ("isActive", VBool (truthy is_active));
      ("generatedAt", VStr (Datetime.isoformat generated));
      ("expiresAt", VStr (Datetime.isoformat expires));
      ("validationHash", VStr "") ] in
  validation_hash <- lift (create_validation_hash (VDict qr_payload)) ;;
  ret (VDict (dict_set qr_payload "validationHash" (VStr validation_hash))).

End Methods.

End QRCodeGenerator.

(* ------------------------------------------------------------------ *)
(** ** qr_validator.py *)

Module QRCodeValidator.

Record t := { cipher : Fernet }.

(** [QRCodeValidator.__init__] *)
Definition __init__ (secret_key : string) : result t :=
  let key := SHA256.digest secret_key in
  c <~ Fernet_new (Base64.urlsafe_b64encode key) ;;
  Ok {| cipher := c |}.

Definition msg_decrypt_failed : string := "Invalid QR code format or decryption failed".
Definition msg_inactive : string := "This monitoring site is currently inactive".
Definition msg_tampered : string := "QR code data has been tampered with".
Definition msg_expired : string := "QR code has expired".
Definition msg_valid : string := "QR code is valid".

Section Methods.

Context {L : PyLib}.

(** [decrypt_qr_data]: the whole body is inside [try/except Exception], so
    every failure is the result [None]. *)
Definition decrypt_qr_data (self : t) (encrypted_data : string) : option value :=
  match Base64.urlsafe_b64decode encrypted_data with
  | None => None
  | Some encrypted_bytes =>
      match fernet_decrypt (cipher self) encrypted_bytes with
      | None => None
      | Some decrypted_bytes => json_loads decrypted_bytes
      end
  end.

(** [validate_site_hash]: any exception inside is the result [False]. *)
Definition validate_site_hash (site_data : value) : bool :=
  try_except
    (stored_hash <~ py_get site_data "validationHash" (VStr "") ;;
     siteId <~ py_getitem site_data "siteId" ;;
     name <~ py_getitem site_data "name" ;;
     lat <~ (coordinates <~ py_getitem site_data "coordinates" ;; py_getitem coordinates "lat") ;;
     lng <~ (coordinates <~ py_getitem site_data "coordinates" ;; py_getitem coordinates "lng") ;;
     let hash_string := (py_str siteId ++ py_str name ++ py_str lat ++ py_str lng)%string in
     let expected_hash := str_take 16 (sha256_hexdigest hash_string) in
     Ok (eq_str stored_hash expected_hash))
    false.

(** [check_expiry]: the clock is read once the stored text has parsed; a
    value that is not text, text that does not parse, and an aware
    datetime (not comparable with the naive [datetime.now()]) all raise
    inside the [try] and give [False]. *)
Definition check_expiry (site_data : value) : M bool :=
  match py_get site_data "expiresAt" (VStr "") with
  | Ok (VStr s) =>
      match fromisoformat s with
      | Some expires_at =>
          current <- now ;;
          match expires_at with
          | Naive e => ret (current <? e)
          | Aware _ _ => ret false
          end
      | None => ret false
      end
  | _ => ret false
  end.

(** [validate_qr_code]: [(is_valid, site_data, error_message)] *)
Definition validate_qr_code (self : t) (qr_content : string)
  : M (bool * option value * string) :=
  match decrypt_qr_data self qr_content with
  | None => ret (false, None, msg_decrypt_failed)
  | Some site_data =>
      if negb (truthy site_data) then ret (false, None, msg_decrypt_failed)
      else
        is_active <- lift (py_get site_data "isActive" VNone) ;;
        if negb (truthy is_active) then ret (false, Some site_data, msg_inactive)
        else if negb (validate_site_hash site_data)
        then ret (false, Some site_data, msg_tampered)
        else
          fresh <- check_expiry site_data ;;
          if negb fresh then ret (false, Some site_data, msg_expired)
          else ret (true, Some site_data, msg_valid)
  end.

(** [get_site_validation_response]: the dict display reads its entries in
    order, and reads the clock for [validatedAt] before it looks up
    [generatedAt]. *)
Definition get_site_validation_response (self : t) (site_data : value) : M value :=
  siteId <- lift (py_getitem site_data "siteId") ;;
  name <- lift (py_getitem site_data "name") ;;
  location <- lift (py_getitem site_data "location") ;;
  riverName <- lift (py_getitem site_data "riverName") ;;
  state <- lift (py_getitem site_data "state") ;;
  district <- lift (py_getitem site_data "district") ;;
  coordinates <- lift (py_getitem site_data "coordinates") ;;
  siteType <- lift (py_getitem site_data "siteType") ;;
  organization <- lift (py_getitem site_data "organization") ;;
  levels <- lift (py_getitem site_data "levels") ;;
  radius <- lift (py_getitem site_data "geofenceRadius") ;;
  center <- lift (py_getitem site_data "coordinates") ;;
  qrCode <- lift (py_getitem site_data "qrCode") ;;
  validated <- now ;;
  generatedAt <- lift (py_getitem site_data "generatedAt") ;;
  ret (VDict
         [ ("success", VBool true);
           ("message", VStr "Site validated successfully");
           ("siteInfo",
             VDict [ ("id", siteId); ("name", name); ("location", location);
                     ("river", riverName); ("state", state); ("district", district);
                     ("coordinates", coordinates); ("siteType", siteType);
                     ("organization", organization) ]);
           ("levels", levels);
           ("geofence", VDict [("radius", radius); ("center", center)]);
           ("validation",
             VDict [ ("qrCode", qrCode);
                     ("validatedAt", VStr (Datetime.isoformat validated));
                     ("generatedAt", generatedAt) ]) ]).

End Methods.

End QRCodeValidator.

(* ------------------------------------------------------------------ *)
(** ** The geofence check *)

(** A number as the real it denotes: what [math.radians] and the comparison
    with a float accept. NaN and the infinities have no real value; the
    idealised arithmetic below does not cover them (ValueError). *)
Definition as_real (v : value) : result R :=
  match v with
  | VFloat f => of_option (float_to_R f) ValueError
  | VInt n => Ok (IZR n)
  | VBool b => Ok (if b then 1%R else 0%R)
  | _ => Raise TypeError
  end.

(** [math.radians] *)
Definition radians (x : R) : R := (x * (PI / 180))%R.

(** The nested function [haversine_distance], on real numbers. *)
Definition haversine_distance (lat1 lon1 lat2 lon2 : R) : R :=
  let lat1 := radians lat1 in
  let lon1 := radians lon1 in
  let lat2 := radians lat2 in
  let lon2 := radians lon2 in
  let dlat := (lat2 - lat1)%R in
  let dlon := (lon2 - lon1)%R in
  let a := (sin (dlat / 2) ^ 2 + cos lat1 * cos lat2 * sin (dlon / 2) ^ 2)%R in
  let c := (2 * asin (R_sqrt.sqrt a))%R in
  let r := 6371000%R in
  (c * r)%R.

(** [validate_location_proximity]: [(is_within_geofence, distance)] *)
Definition validate_location_proximity (user_lat user_lng : float) (site_data : value)
  : result (bool * R) :=
  site_coords <~ py_getitem site_data "coordinates" ;;
  site_lat <~ py_getitem site_coords "lat" ;;
  site_lng <~ py_getitem site_coords "lng" ;;
  lat1 <~ as_real (VFloat user_lat) ;;
  lon1 <~ as_real (VFloat user_lng) ;;
  lat2 <~ as_real site_lat ;;
  lon2 <~ as_real site_lng ;;
  let distance := haversine_distance lat1 lon1 lat2 lon2 in
  geofence_radius <~ (v <~ py_getitem site_data "geofenceRadius" ;; as_real v) ;;
  let is_within := if Rle_dec distance geofence_radius then true else false in
  Ok (is_within, distance).

(* ------------------------------------------------------------------ *)
(** ** A reference implementation of the third-party interface

    The formats are the published ones: HMAC-SHA256 (RFC 2104), AES-128 in
    CBC mode with PKCS7 padding (FIPS 197), the Fernet token layout, a zlib
    stream (RFC 1950), compact JSON text. Where a package has freedom the
    reference takes the simplest choice, and says so. It gives the
    parametric theorems below concrete inhabitants to run on. *)

Module Reference.

(** *** HMAC-SHA256 *)

Definition xor_bytes (a b : list Z) : list Z :=
  map (fun p => Z.lxor (fst p) (snd p)) (combine a b).

Definition sha256_bytes (m : list Z) : list Z :=
  bytes_of (SHA256.digest (string_of_bytes m)).

Definition hmac_sha256 (key msg : list Z) : list Z :=
  let k := if (64 <? List.length key)%nat then sha256_bytes key else key in
  let k := k ++ repeat 0 (64 - List.length k) in
  let ipad := xor_bytes k (repeat 54 64) in
  let opad := xor_bytes k (repeat 92 64) in
  sha256_bytes (opad ++ sha256_bytes (ipad ++ msg)).

(** *** AES-128 *)

Module AES.

Definition xtime (a : Z) : Z :=
  let b := 2 * a in if 256 <=? b then Z.lxor b 283 else b.

Fixpoint gmul_bits (n : nat) (a b : Z) : Z :=
  match n with
  | O => 0
  | S k => Z.lxor (if Z.odd b then a else 0) (gmul_bits k (xtime a) (b / 2))
  end.

(** Product in GF(2^8) modulo x^8 + x^4 + x^3 + x + 1. *)
Definition gmul (a b : Z) : Z := gmul_bits 8 a b.

Definition ginv (a : Z) : Z :=
  match find (fun x => gmul a x =? 1) (map Z.of_nat (seq 1 255)) with
  | Some x => x
  | None => 0
  end.

Definition rotl8 (b n : Z) : Z := Z.lor (Z.shiftl b n mod 256) (Z.shiftr b (8 - n)).

Definition affine (b : Z) : Z :=
  Z.lxor (Z.lxor (Z.lxor (Z.lxor (Z.lxor b (rotl8 b 1)) (rotl8 b 2)) (rotl8 b 3)) (rotl8 b 4)) 99.

Definition all_bytes : list Z := map Z.of_nat (seq 0 256).

Definition sbox_table : list Z := Eval vm_compute in map (fun a => affine (ginv a)) all_bytes.

Definition sbox (a : Z) : Z := nth (Z.to_nat a) sbox_table 0.

Definition inv_sbox_table : list Z :=
  Eval vm_compute in
    map (fun y => match find (fun x => sbox x =? y) all_bytes with
                  | Some x => x
                  | None => 0
                  end) all_bytes.

Definition inv_sbox (a : Z) : Z := nth (Z.to_nat a) inv_sbox_table 0.

(** The next round key from the previous one and the round constant. *)
Definition next_key (rk : list Z) (rc : Z) : list Z :=
  let w0 := firstn 4 rk in
  let w1 := firstn 4 (skipn 4 rk) in
  let w2 := firstn 4 (skipn 8 rk) in
  let w3 := firstn 4 (skipn 12 rk) in
  let rot := skipn 1 w3 ++ firstn 1 w3 in
  let t := xor_bytes (map sbox rot) [rc; 0; 0; 0] in
  let v0 := xor_bytes w0 t in
  let v1 := xor_bytes w1 v0 in
  let v2 := xor_bytes w2 v1 in
  let v3 := xor_bytes w3 v2 in
  v0 ++ v1 ++ v2 ++ v3.

Fixpoint expand (n : nat) (rk : list Z) (rc : Z) : list (list Z) :=
  match n with
  | O => [rk]
  | S k => rk :: expand k (next_key rk rc) (xtime rc)
  end.

(** The eleven round keys. *)
Definition round_keys (key : list Z) : list (list Z) := expand 10 key 1.

(** The state is the block itself: byte [4 * c + r] is row [r] of column [c]. *)
Definition permute (src : nat -> nat) (st : list Z) : list Z :=
  map (fun i => nth (src i) st 0) (seq 0 16).

Definition shift_rows : list Z -> list Z :=
  permute (fun i => (4 * ((i / 4 + i mod 4) mod 4) + i mod 4)%nat).

Definition inv_shift_rows : list Z -> list Z :=
  permute (fun i => (4 * ((i / 4 + 4 - i mod 4) mod 4) + i mod 4)%nat).

Definition mix_column (c0 c1 c2 c3 : Z) (col : list Z) : list Z :=
  let a (i : nat) := nth i col 0 in
  let dot (k0 k1 k2 k3 : Z) :=
    Z.lxor (Z.lxor (gmul k0 (a 0%nat)) (gmul k1 (a 1%nat)))
           (Z.lxor (gmul k2 (a 2%nat)) (gmul k3 (a 3%nat))) in
  [dot c0 c1 c2 c3; dot c3 c0 c1 c2; dot c2 c3 c0 c1; dot c1 c2 c3 c0].

Definition mix (c0 c1 c2 c3 : Z) (st : list Z) : list Z :=
  flat_map (fun c => mix_column c0 c1 c2 c3 (firstn 4 (skipn (4 * c) st))) (seq 0 4).

Definition mix_columns : list Z -> list Z := mix 2 3 1 1.
Definition inv_mix_columns : list Z -> list Z := mix 14 11 13 9.

Definition encrypt_block (key block : list Z) : list Z :=
  match round_keys key with
  | rk0 :: rest =>
      let middle := firstn 9 rest in
      let last := nth 9 rest [] in
      let st := fold_left
                  (fun st rk => xor_bytes (mix_columns (shift_rows (map sbox st))) rk)
                  middle (xor_bytes block rk0) in
      xor_bytes (shift_rows (map sbox st)) last
  | [] => block
  end.

Definition decrypt_block (key block : list Z) : list Z :=
  match round_keys key with
  | rk0 :: rest =>
      let middle := rev (firstn 9 rest) in
      let last := nth 9 rest [] in
      let st := map inv_sbox (inv_shift_rows (xor_bytes block last)) in
      let st := fold_left
                  (fun st rk => map inv_sbox (inv_shift_rows (inv_mix_columns (xor_bytes st rk))))
                  middle st in
      xor_bytes st rk0
  | [] => block
  end.

(** PKCS7 to a multiple of 16 bytes. *)
Definition pkcs7_pad (m : list Z) : list Z :=
  let n := (16 - List.length m mod 16)%nat in
  m ++ repeat (Z.of_nat n) n.

Definition pkcs7_unpad (m : list Z) : option (list Z) :=
  let n := Z.to_nat (last m 0) in
  let body := (List.length m - n)%nat in
  if ((1 <=? n) && (n <=? 16) && (n <=? List.length m))%nat
     && forallb (fun b => b =? Z.of_nat n) (skipn body m)
  then Some (firstn body m)
  else None.

Fixpoint cbc_encrypt (blocks : nat) (key prev m : list Z) : list Z :=
  match blocks with
  | O => []
  | S k =>
      let c := encrypt_block key (xor_bytes (firstn 16 m) prev) in
      c ++ cbc_encrypt k key c (skipn 16 m)
  end.

Fixpoint cbc_decrypt (blocks : nat) (key prev c : list Z) : list Z :=
  match blocks with
  | O => []
  | S k =>
      let b := firstn 16 c in
      xor_bytes (decrypt_block key b) prev ++ cbc_decrypt k key b (skipn 16 c)
  end.

End AES.

Definition unhex (s : string) : list Z :=
  let fix go (l : list Z) : list Z :=
    match l with
    | hi :: lo :: r => (16 * hi + lo) :: go r
    | _ => []
    end in
  go (map (fun c => let v := byte_val c in if v <? 58 then v - 48 else v - 87)
          (list_ascii_of_string s)).

(** *** Fernet tokens

    [0x80 | timestamp (8 bytes) | IV (16) | AES-128-CBC ciphertext | HMAC],
    in URL-safe base64. *)

Definition list_eqb (a b : list Z) : bool :=
  (List.length a =? List.length b)%nat && forallb (fun p => fst p =? snd p) (combine a b).

Definition fernet_encrypt (c : Fernet) (e : entropy) (data : string) : string :=
  let padded := AES.pkcs7_pad (bytes_of data) in
  let ct := AES.cbc_encrypt (Nat.div (List.length padded) 16)
              (bytes_of (encryption_key c)) (bytes_of (iv e)) padded in
  let basic := [128] ++ SHA256.be_bytes 8 (timestamp e) ++ bytes_of (iv e) ++ ct in
  let tag := hmac_sha256 (bytes_of (signing_key c)) basic in
  Base64.urlsafe_b64encode (string_of_bytes (basic ++ tag)).

(** [decrypt] with no time-to-live: base64, version byte, signature, then
    the ciphertext and its padding. *)
Definition fernet_decrypt (c : Fernet) (token : string) : option string :=
  match Base64.urlsafe_b64decode token with
  | None => None
  | Some data =>
      let d := bytes_of data in
      let n := List.length d in
      match d with
      | [] => None
      | version :: _ =>
          if negb (version =? 128) || (n <? 9)%nat then None
          else
            let signed := firstn (n - 32) d in
            let tag := skipn (n - 32) d in
            if list_eqb (hmac_sha256 (bytes_of (signing_key c)) signed) tag then
              let ct := skipn 25 signed in
              if (List.length ct mod 16 =? 0)%nat then
                option_map string_of_bytes
                  (AES.pkcs7_unpad
                     (AES.cbc_decrypt (Nat.div (List.length ct) 16)
                        (bytes_of (encryption_key c)) (firstn 16 (skipn 9 d)) ct))
              else None
            else None
      end
  end.

(** *** zlib

    [zlib.compress] chooses how to deflate; the reference stores the data
    uncompressed, in blocks of at most 65535 bytes, inside the same
    container: the header 78 DA of level 9 and the Adler-32 trailer. *)

Definition adler32 (m : list Z) : Z :=
  let '(a, b) :=
    fold_left (fun ab x => let a := (fst ab + x) mod 65521 in (a, (snd ab + a) mod 65521))
              m (1, 0) in
  b * 65536 + a.

Definition le16 (n : Z) : list Z := [n mod 256; n / 256].

Fixpoint stored_blocks (fuel : nat) (m : list Z) : list Z :=
  match fuel with
  | O => []
  | S k =>
      let chunk := firstn (Z.to_nat 65535) m in
      let rest := skipn (Z.to_nat 65535) m in
      let len := Z.of_nat (List.length chunk) in
      let final := match rest with [] => 1 | _ => 0 end in
      [final] ++ le16 len ++ le16 (65535 - len) ++ chunk ++
      match rest with [] => [] | _ => stored_blocks k rest end
  end.

Definition zlib_compress (data : string) : option string :=
  let m := bytes_of data in
  Some (string_of_bytes
          ([120; 218] ++ stored_blocks (S (List.length m)) m ++ SHA256.be_bytes 4 (adler32 m))).

(** *** Numbers as text *)

Definition decimal (n : Z) : string := NilZero.string_of_int (Z.to_int n).

Definition is_digit (c : ascii) : bool := (48 <=? byte_val c) && (byte_val c <=? 57).

Fixpoint digits_val (s : string) (acc : Z) : option Z :=
  match s with
  | EmptyString => Some acc
  | String c r => if is_digit c then digits_val r (10 * acc + (byte_val c - 48)) else None
  end.

(** An optional sign, then one digit or more. *)
Definition int_of_str (s : string) : option Z :=
  match s with
  | EmptyString => None
  | String "-" (String c r) => option_map Z.opp (digits_val (String c r) 0)
  | String "+" (String c r) => digits_val (String c r) 0
  | _ => digits_val s 0
  end.

Definition float_of_int (n : Z) : float := SF2Prim (binary_normalize prec emax n 0 false).

Fixpoint split_at_dot (s : string) : string * option string :=
  match s with
  | EmptyString => (EmptyString, None)
  | String "." r => (EmptyString, Some r)
  | String c r => let '(a, b) := split_at_dot r in (String c a, b)
  end.

(** Plain decimal notation, [-12.5]: the quotient of two integers that
    binary64 holds exactly as long as there are at most 15 digits, so the
    one rounding is that of the division. *)
Definition float_of_str (s : string) : option float :=
  let '(neg, body) :=
    match s with
    | String "-" r => (true, r)
    | String "+" r => (false, r)
    | _ => (false, s)
    end in
  let '(whole, frac) := split_at_dot body in
  let frac := match frac with Some f => f | None => EmptyString end in
  match (whole ++ frac)%string with
  | EmptyString => None
  | String _ _ as ds =>
      match digits_val ds 0 with
      | Some n =>
          let q := PrimFloat.div (float_of_int n)
                     (float_of_int (10 ^ Z.of_nat (String.length frac))) in
          Some (if neg then PrimFloat.opp q else q)
      | None => None
      end
  end.

Fixpoint strip_zeros (rev_digits : list ascii) : list ascii :=
  match rev_digits with
  | "0"%char :: r => strip_zeros r
  | _ => rev_digits
  end.

(** The exact decimal expansion of the float, which is what [repr] prints
    for the floats whose expansion is at most 15 digits long. *)
Definition float_repr (f : float) : string :=
  match Prim2SF f with
  | S754_zero s => if s then "-0.0" else "0.0"
  | S754_infinity s => if s then "-inf" else "inf"
  | S754_nan => "nan"
  | S754_finite s m e =>
      let sign := if s then "-" else "" in
      if 0 <=? e then (sign ++ decimal (Z.pos m * 2 ^ e) ++ ".0")%string
      else
        let k := Z.to_nat (- e) in
        let whole := Z.pos m / 2 ^ (- e) in
        let part := (Z.pos m mod 2 ^ (- e)) * 5 ^ (- e) in
        let digits := rev (strip_zeros (rev (list_ascii_of_string (Datetime.zpad k part)))) in
        let digits := match digits with [] => ["0"%char] | _ => digits end in
        (sign ++ decimal whole ++ "." ++ string_of_list_ascii digits)%string
  end.

Definition str_repr (s : string) : string := ("'" ++ s ++ "'")%string.

(** *** JSON text

    [dumps] writes the compact form; a string is written with its quotes
    and backslashes escaped and everything else as it is. [loads] reads
    that form, with insignificant white space: objects, arrays, strings
    with those two escapes, integers, plain decimals, [true], [false] and
    [null]. *)

(** The quotation mark. *)
Definition dquote : ascii := Eval vm_compute in ascii_of_nat 34.

Fixpoint escape (s : string) : string :=
  match s with
  | EmptyString => EmptyString
  | String c r =>
      if Ascii.eqb c dquote || Ascii.eqb c "\"%char
      then String "\"%char (String c (escape r))
      else String c (escape r)
  end.

Definition quote (s : string) : string :=
  String dquote (escape s ++ String dquote EmptyString)%string.

Definition json_float (f : float) : string :=
  match Prim2SF f with
  | S754_nan => "NaN"
  | S754_infinity s => if s then "-Infinity" else "Infinity"
  | _ => float_repr f
  end.

Fixpoint json_dumps (v : value) : string :=
  match v with
  | VNone => "null"
  | VBool true => "true"
  | VBool false => "false"
  | VInt n => decimal n
  | VFloat f => json_float f
  | VStr s => quote s
  | VList l =>
      let fix items (l : list value) : string :=
        match l with
        | [] => ""
        | x :: r =>
            match r with
            | [] => json_dumps x
            | _ :: _ => (json_dumps x ++ "," ++ items r)%string
            end
        end in
      ("[" ++ items l ++ "]")%string
  | VDict d =>
      let fix items (d : list (string * value)) : string :=
        match d with
        | [] => ""
        | (k, x) :: r =>
            match r with
            | [] => (quote k ++ ":" ++ json_dumps x)%string
            | _ :: _ => (quote k ++ ":" ++ json_dumps x ++ "," ++ items r)%string
            end
        end in
      ("{" ++ items d ++ "}")%string
  end.

Definition is_ws (c : ascii) : bool :=
  let v := byte_val c in (v =? 32) || (v =? 10) || (v =? 13) || (v =? 9).

Fixpoint skip_ws (s : string) : string :=
  match s with
  | String c r => if is_ws c then skip_ws r else s
  | EmptyString => s
  end.

(** The text of a string up to its closing quote, and what follows. *)
Fixpoint read_string (s : string) : option (string * string) :=
  match s with
  | EmptyString => None
  | String c r =>
      if Ascii.eqb c dquote then Some (EmptyString, r)
      else if Ascii.eqb c "\"%char then
        match r with
        | String e r' =>
            if Ascii.eqb e dquote || Ascii.eqb e "\"%char
            then option_map (fun p => (String e (fst p), snd p)) (read_string r')
            else None
        | EmptyString => None
        end
      else option_map (fun p => (String c (fst p), snd p)) (read_string r)
  end.

Definition is_number_char (c : ascii) : bool :=
  is_digit c || Ascii.eqb c "-"%char || Ascii.eqb c "."%char.

Fixpoint read_number (s : string) : string * string :=
  match s with
  | String c r =>
      if is_number_char c then let '(a, b) := read_number r in (String c a, b)
      else (EmptyString, s)
  | EmptyString => (EmptyString, s)
  end.

Definition number_value (text : string) : option value :=
  match int_of_str text with
  | Some n => Some (VInt n)
  | None => option_map VFloat (float_of_str text)
  end.

Definition strip_prefix (p s : string) : option string :=
  if String.prefix p s then Some (str_drop (String.length p) s) else None.

Fixpoint read_value (fuel : nat) (s : string) : option (value * string) :=
  match fuel with
  | O => None
  | S k =>
      match skip_ws s with
      | EmptyString => None
      | String c r as s' =>
          if Ascii.eqb c dquote then
            option_map (fun p => (VStr (fst p), snd p)) (read_string r)
          else if Ascii.eqb c "["%char then
            match skip_ws r with
            | String "]" r' => Some (VList [], r')
            | _ => option_map (fun p => (VList (fst p), snd p)) (read_items k r)
            end
          else if Ascii.eqb c "{"%char then
            match skip_ws r with
            | String "}" r' => Some (VDict [], r')
            | _ => option_map (fun p => (VDict (fst p), snd p)) (read_members k r [])
            end
          else
            match strip_prefix "true" s', strip_prefix "false" s', strip_prefix "null" s' with
            | Some r', _, _ => Some (VBool true, r')
            | _, Some r', _ => Some (VBool false, r')
            | _, _, Some r' => Some (VNone, r')
            | _, _, _ =>
                let '(text, r') := read_number s' in
                option_map (fun v => (v, r')) (number_value text)
            end
      end
  end

with read_items (fuel : nat) (s : string) : option (list value * string) :=
  match fuel with
  | O => None
  | S k =>
      match read_value k s with
      | None => None
      | Some (v, r) =>
          match skip_ws r with
          | String "," r' => option_map (fun p => (v :: fst p, snd p)) (read_items k r')
          | String "]" r' => Some ([v], r')
          | _ => None
          end
      end
  end

with read_members (fuel : nat) (s : string) (acc : list (string * value))
  : option (list (string * value) * string) :=
  match fuel with
  | O => None
  | S k =>
      match skip_ws s with
      | String c r =>
          match (if Ascii.eqb c dquote then read_string r else None) with
          | None => None
          | Some (key, r1) =>
              match skip_ws r1 with
              | String ":" r2 =>
                  match read_value k r2 with
                  | None => None
                  | Some (v, r3) =>
                      let acc := dict_set acc key v in
                      match skip_ws r3 with
                      | String "," r4 => read_members k r4 acc
                      | String "}" r4 => Some (acc, r4)
                      | _ => None
                      end
                  end
              | _ => None
              end
          end
      | EmptyString => None
      end
  end.

Definition json_loads (text : string) : option value :=
  match read_value (S (String.length text)) text with
  | Some (v, r) => match skip_ws r with EmptyString => Some v | _ => None end
  | None => None
  end.

(** *** Timestamps as text

    [fromisoformat] reads what [isoformat] writes,
    [YYYY-MM-DDTHH:MM:SS] with an optional [.ffffff], and after it an
    optional offset [+HH:MM] or [-HH:MM]. *)

Definition is_leap (y : Z) : bool :=
  (y mod 4 =? 0) && (negb (y mod 100 =? 0) || (y mod 400 =? 0)).

Definition days_before_year (y : Z) : Z :=
  let p := y - 1 in p * 365 + p / 4 - p / 100 + p / 400.

Definition field (s : string) (from len : nat) : option Z :=
  let t := substring from len s in
  if (String.length t =? len)%nat then digits_val t 0 else None.

Definition sep (s : string) (at_ : nat) (c : ascii) : bool :=
  match String.get at_ s with
  | Some d => Ascii.eqb c d
  | None => false
  end.

Definition fromisoformat (s : string) : option parsed_datetime :=
  match field s 0 4, field s 5 2, field s 8 2, field s 11 2, field s 14 2, field s 17 2 with
  | Some y, Some mo, Some d, Some h, Some mi, Some sec =>
      let month_len := Datetime.days_in_month mo + (if (mo =? 2) && is_leap y then 1 else 0) in
      if sep s 4 "-" && sep s 7 "-" && sep s 10 "T" && sep s 13 ":" && sep s 16 ":"
         && (1 <=? y) && (1 <=? mo) && (mo <=? 12) && (1 <=? d) && (d <=? month_len)
         && (h <? 24) && (mi <? 60) && (sec <? 60)
      then
        let days := days_before_year y + Datetime.days_before_month mo
                    + (if (2 <? mo) && is_leap y then 1 else 0) + (d - 1) in
        let whole := days * Datetime.us_per_day
                     + ((h * 60 + mi) * 60 + sec) * Datetime.us_per_second in
        let '(t, tail) :=
          if sep s 19 "." then
            match field s 20 6 with
            | Some us => (Some (whole + us), str_drop 26 s)
            | None => (None, EmptyString)
            end
          else (Some whole, str_drop 19 s) in
        match t, tail with
        | Some t, EmptyString => Some (Naive t)
        | Some t, String sign _ =>
            match field tail 1 2, field tail 4 2 with
            | Some oh, Some om =>
                if (String.length tail =? 6)%nat && sep tail 3 ":"
                   && (Ascii.eqb sign "+" || Ascii.eqb sign "-") && (oh <? 24) && (om <? 60)
                then Some (Aware t ((if Ascii.eqb sign "-" then -1 else 1) * (oh * 60 + om)))
                else None
            | _, _ => None
            end
        | None, _ => None
        end
      else None
  | _, _, _, _, _, _ => None
  end.

(** *** The instance *)

Definition lib : PyLib :=
  Build_PyLib float_repr str_repr float_of_str int_of_str json_dumps json_loads
              zlib_compress fernet_encrypt fernet_decrypt fromisoformat.

End Reference.

(* ------------------------------------------------------------------ *)
(** ** Vocabulary of the statements *)

Section Vocabulary.

Context {L : PyLib}.

(** The payload [generate_qr_data] builds from the values it read. *)
Definition payload (id name location : value) (lat lng safe warning danger : float)
    (radius : Z) (qr_code is_active : value) (generated expires : datetime) : value :=
  let siteId := py_str id in
  let nm := py_str name in
  VDict
    [ ("siteId", VStr siteId);
      ("name", VStr nm);
      ("location", VStr (py_str location));
      ("coordinates", VDict [("lat", VFloat lat); ("lng", VFloat lng)]);
      ("levels", VDict [("safe", VFloat safe); ("warning", VFloat warning);
                        ("danger", VFloat danger)]);
      ("geofenceRadius", VInt radius);
      ("qrCode", VStr (py_str qr_code));
      ("isActive", VBool (truthy is_active));
      ("generatedAt", VStr (Datetime.isoformat generated));
      ("expiresAt", VStr (Datetime.isoformat expires));
      ("validationHash",
        VStr (str_take 16
                (sha256_hexdigest (siteId ++ nm ++ float_repr lat ++ float_repr lng)%string))) ].

(** A field of the nested [coordinates] object. *)
Definition coordinate (d : value) (k : string) : result value :=
  c <~ py_getitem d "coordinates" ;; py_getitem c k.

(** The text both sides hash: the four looked-up fields, formatted. *)
Definition hashed_text (d : value) : result string :=
  siteId <~ py_getitem d "siteId" ;;
  name <~ py_getitem d "name" ;;
  lat <~ coordinate d "lat" ;;
  lng <~ coordinate d "lng" ;;
  Ok (py_str siteId ++ py_str name ++ py_str lat ++ py_str lng)%string.

(** What is asked of the two timestamps of a payload: some instant is
    shown by [generatedAt] and that instant plus 365 days by [expiresAt]. *)
Definition expires_365_days_after_generated (p : value) : Prop :=
  exists t : datetime,
    py_getitem p "generatedAt" = Ok (VStr (Datetime.isoformat t)) /\
    py_getitem p "expiresAt" =
      Ok (VStr (Datetime.isoformat (t + Datetime.timedelta_days 365))).

End Vocabulary.

(* ------------------------------------------------------------------ *)
(** ** Concrete inputs *)

Module Sample.

(** The key in generate_qr_codes.py. *)
Definition SECRET_KEY : string := "HydroSnap_QR_graycode@070505".

Definition unwrap {A} (r : result A) (default : A) : A := try_except r default.

Definition generator : QRCodeGenerator.t :=
  Eval vm_compute in
    unwrap (QRCodeGenerator.__init__ SECRET_KEY)
           {| QRCodeGenerator.cipher := Build_Fernet "" "" |}.

Definition validator : QRCodeValidator.t :=
  Eval vm_compute in
    unwrap (QRCodeValidator.__init__ SECRET_KEY)
           {| QRCodeValidator.cipher := Build_Fernet "" "" |}.

(** A row of the site table. *)
Definition site : value :=
  VDict [ ("id", VStr "S1"); ("name", VStr "Alpha"); ("location", VStr "Ghat");
          ("river_name", VStr "Yamuna"); ("state", VStr "Delhi");
          ("latitude", VFloat 10%float); ("longitude", VStr "20.0");
          ("safe_level", VInt 1); ("warning_level", VInt 2); ("danger_level", VFloat 3%float);
          ("geofence_radius", VInt 100); ("qr_code", VStr "Q1"); ("is_active", VBool true) ].

(** A clock at 2026-11-04T17:47:03.000250 that advances one microsecond
    between two readings. *)
Definition clock : world := World (fun n => Z.of_nat n + 63929411223000250) 0.

(** What one call of [Fernet.encrypt] drew. *)
Definition draw : entropy :=
  {| iv := string_of_bytes (map Z.of_nat (seq 100 16)); timestamp := 1793814423 |}.

Definition payload : value :=
  Eval vm_compute in
    unwrap (fst (QRCodeGenerator.generate_qr_data (L := Reference.lib) site clock)) VNone.

(** The token the generator puts in the QR symbol. *)
Definition token : string :=
  Eval vm_compute in QRCodeGenerator.encrypt_site_data (L := Reference.lib) generator draw payload.

(** A token of the form the validator reads: JSON text, sealed, and the
    sealed token in base64 again. *)
Definition seal (v : value) : string :=
  Base64.urlsafe_b64encode
    (Reference.fernet_encrypt (QRCodeValidator.cipher validator) draw (Reference.json_dumps v)).

Definition with_entry (v : value) (k : string) (x : value) : value :=
  match v with
  | VDict d => VDict (dict_set d k x)
  | _ => v
  end.

Definition without_entry (v : value) (k : string) : value :=
  match v with
  | VDict d => VDict (filter (fun kv => negb (String.eqb (fst kv) k)) d)
  | _ => v
  end.

Definition inactive_payload : value := Eval vm_compute in with_entry payload "isActive" (VBool false).
Definition unflagged_payload : value := Eval vm_compute in without_entry payload "isActive".
Definition undated_payload : value := Eval vm_compute in without_entry payload "expiresAt".

Definition sealed_payload : string := Eval vm_compute in seal payload.
Definition sealed_inactive : string := Eval vm_compute in seal inactive_payload.
Definition sealed_unflagged : string := Eval vm_compute in seal unflagged_payload.
Definition sealed_undated : string := Eval vm_compute in seal undated_payload.
Definition sealed_empty_object : string := Eval vm_compute in seal (VDict []).
Definition sealed_list : string := Eval vm_compute in seal (VList [VInt 1]).

End Sample.

(* ------------------------------------------------------------------ *)
(** ** Vocabulary of the further statements *)

Section Reads.

Context {L : PyLib}.

(** The columns [generate_qr_data] reads, in the order it reads them. *)
Definition required_fields : list string :=
  [ "id"; "name"; "location"; "latitude"; "longitude"; "safe_level"; "warning_level";
    "danger_level"; "geofence_radius"; "qr_code"; "is_active" ].

Definition float_fields : list string :=
  [ "latitude"; "longitude"; "safe_level"; "warning_level"; "danger_level" ].

(** One read of [generate_qr_data]: the lookup of the column and, for a
    numeric column, its conversion. *)
Definition read_field (site_info : value) (k : string) : result value :=
  if existsb (String.eqb k) float_fields
  then x <~ (v <~ py_getitem site_info k ;; py_float v) ;; Ok (VFloat x)
  else if String.eqb k "geofence_radius"
  then x <~ (v <~ py_getitem site_info k ;; py_int v) ;; Ok (VInt x)
  else py_getitem site_info k.

(** The keys of a payload, in the order [generate_qr_data] writes them. *)
Definition payload_keys : list string :=
  [ "siteId"; "name"; "location"; "coordinates"; "levels"; "geofenceRadius"; "qrCode";
    "isActive"; "generatedAt"; "expiresAt"; "validationHash" ].

End Reads.

(** The keys [get_site_validation_response] looks up. *)
Definition response_fields : list string :=
  [ "siteId"; "name"; "location"; "riverName"; "state"; "district"; "coordinates";
    "siteType"; "organization"; "levels"; "geofenceRadius"; "qrCode"; "generatedAt" ].
(* ------------------------------------------------------------------ *)
(** ** Text helpers of the file-naming code *)

(** The character [\]. *)
Definition backslash : ascii := Eval vm_compute in ascii_of_nat 92.

(** [s.replace(old, new)] for one-character [old] and [new]. *)
Fixpoint str_replace_char (old new : ascii) (s : string) : string :=
  match s with
  | EmptyString => EmptyString
  | String c r => String (if Ascii.eqb c old then new else c) (str_replace_char old new r)
  end.

(** [s.replace("-", "_").replace("/", "_").replace("\\", "_")] *)
Definition safe_name (s : string) : string :=
  str_replace_char backslash "_" (str_replace_char "/" "_" (str_replace_char "-" "_" s)).

(** One of the three characters [safe_name] replaces. *)
Definition is_separator (c : ascii) : bool :=
  Ascii.eqb c "-" || Ascii.eqb c "/" || Ascii.eqb c backslash.

(** The same chain of calls on a value: only text has the method. *)
Definition py_safe_name (v : value) : result string :=
  match v with
  | VStr s => Ok (safe_name s)
  | _ => Raise AttributeError
  end.

(** A byte that continues a UTF-8 character. *)
Definition is_continuation (c : ascii) : bool :=
  (128 <=? byte_val c) && (byte_val c <? 192).

(** [len(s)]: the number of characters, not of bytes. *)
Fixpoint py_len (s : string) : nat :=
  match s with
  | EmptyString => O
  | String c r => if is_continuation c then py_len r else S (py_len r)
  end.

(** [s[:n]]: the first [n] characters. *)
Fixpoint py_slice_to (n : nat) (s : string) : string :=
  match s with
  | EmptyString => EmptyString
  | String c r =>
      if is_continuation c then String c (py_slice_to n r)
      else
        match n with
        | O => EmptyString
        | S k => String c (py_slice_to k r)
        end
  end.

(* ------------------------------------------------------------------ *)
(** ** The host: imaging and the file system *)

(** What an operation of the host may raise besides the exceptions of
    the program's own steps. *)
Inductive failure :=
| PyExn (e : exn)
| HostExn (name : string).

Inductive outcome (A : Type) :=
| Done (a : A)
| Failed (f : failure).

Arguments Done {A} a.
Arguments Failed {A} f.

(** The packages that draw and store: [qrcode], [PIL], [os], [open].
    Each operation acts on the host's state and may raise. *)
Class Host := {
  host : Type;
  (** the constant [QR_OUTPUT_DIR] *)
  QR_OUTPUT_DIR : string;
  (** [os.path.join] *)
  path_join : string -> string -> string;
  (** [qrcode.QRCode(...)], [add_data], [make], [make_image] *)
  render_qr : string -> host -> outcome unit * host;
  (** [Image.new], [paste], [ImageDraw.Draw] and the loading of fonts *)
  compose_label : host -> outcome unit * host;
  (** [draw.textbbox] (or [textsize]) and [draw.text] *)
  draw_text : string -> host -> outcome unit * host;
  (** [os.makedirs(path, exist_ok=True)] *)
  makedirs : string -> host -> outcome unit * host;
  (** [img.save(path)] *)
  save_image : string -> host -> outcome unit * host;
  (** [open(path, "w")] and [json.dump(v, f, indent=2)] *)
  dump_json : string -> value -> host -> outcome unit * host;
  (** the constant [CSV_FILE] *)
  CSV_FILE : string;
  (** [pd.read_csv(path)] and, for each row of the frame, [row.to_dict()] *)
  read_csv : string -> host -> outcome (list (list (string * value))) * host
}.

(** Computations on the clock and the host. *)
Definition IO {H : Host} (A : Type) : Type := world * host -> outcome A * (world * host).

Section HostMonad.

Context {H : Host}.

Definition io_ret {A} (a : A) : IO A := fun st => (Done a, st).

Definition io_bind {A B} (m : IO A) (k : A -> IO B) : IO B :=
  fun st =>
    match m st with
    | (Done a, st') => k a st'
    | (Failed f, st') => (Failed f, st')
    end.

(** A step of the program itself. *)
Definition io_py {A} (r : result A) : IO A :=
  fun st =>
    match r with
    | Ok a => (Done a, st)
    | Raise e => (Failed (PyExn e), st)
    end.

(** A computation that reads the clock only. *)
Definition io_clock {A} (m : M A) : IO A :=
  fun st =>
    match m (fst st) with
    | (Ok a, w') => (Done a, (w', snd st))
    | (Raise e, w') => (Failed (PyExn e), (w', snd st))
    end.

(** An operation of the host. *)
Definition io_host {A} (op : host -> outcome A * host) : IO A :=
  fun st => let '(r, h') := op (snd st) in (r, (fst st, h')).

(** [try: m except Exception: handler] *)
Definition io_try {A} (m : IO A) (handler : IO A) : IO A :=
  fun st =>
    match m st with
    | (Done a, st') => (Done a, st')
    | (Failed _, st') => handler st'
    end.

(** A computation that leaves the clock as it found it, whatever comes
    of it. *)
Definition clock_kept {A} (m : IO A) : Prop := forall st, fst (snd (m st)) = fst st.

End HostMonad.

Notation "x <<- m ;; k" := (io_bind m (fun x => k))
  (at level 61, m at next level, right associativity).

Module QRCodeGeneratorIO.

Section FileMethods.

Context {L : PyLib} {H : Host}.

(** The name of the image file, from the row's [qr_code] or, when that is
    empty, from the directory name. *)
Definition file_stem (site_info : value) (safe_site_id : string) : result string :=
  qr_code <~ (v <~ py_get site_info "qr_code" (VStr "") ;; py_safe_name v) ;;
  Ok (if String.eqb qr_code "" then ("QR_" ++ safe_site_id)%string else qr_code).

(** The second line of the label: name and location, cut to 40
    characters. *)
Definition label_text (name location : value) : string :=
  let location_text := (py_str name ++ ", " ++ py_str location)%string in
  let max_chars := 40%nat in
  if (max_chars <? py_len location_text)%nat
  then (py_slice_to (max_chars - 3) location_text ++ "...")%string
  else location_text.

(** [create_qr_code_with_label]; [e] is what its call of [Fernet.encrypt]
    draws. Its handler reports the exception and raises it again. *)
Definition create_qr_code_with_label (self : QRCodeGenerator.t) (e : entropy)
    (data site_info : value) : IO string :=
  let qr_data := QRCodeGenerator.encrypt_site_data self e data in
  _ <<- io_host (render_qr qr_data) ;;
  _ <<- io_host compose_label ;;
  id <<- io_py (py_getitem site_info "id") ;;
  let site_id_text := py_str id in
  _ <<- io_host (draw_text site_id_text) ;;
  name <<- io_py (py_getitem site_info "name") ;;
  location <<- io_py (py_getitem site_info "location") ;;
  let location_text := label_text name location in
  _ <<- io_host (draw_text location_text) ;;
  safe_site_id <<- io_py (v <~ py_getitem site_info "id" ;; py_safe_name v) ;;
  let output_dir := path_join QR_OUTPUT_DIR safe_site_id in
  _ <<- io_host (makedirs output_dir) ;;
  qr_code <<- io_py (file_stem site_info safe_site_id) ;;
  let filename := (qr_code ++ ".png")%string in
  let filepath := path_join output_dir filename in
  _ <<- io_host (save_image filepath) ;;
  io_ret filepath.

(** [create_simple_qr_code] *)
Definition create_simple_qr_code (self : QRCodeGenerator.t) (e : entropy)
    (data site_info : value) : IO string :=
  let qr_data := QRCodeGenerator.encrypt_site_data self e data in
  _ <<- io_host (render_qr qr_data) ;;
  safe_site_id <<- io_py (v <~ py_getitem site_info "id" ;; py_safe_name v) ;;
  let output_dir := path_join QR_OUTPUT_DIR safe_site_id in
  _ <<- io_host (makedirs output_dir) ;;
  qr_code <<- io_py (file_stem site_info safe_site_id) ;;
  let filename := (qr_code ++ "_simple.png")%string in
  let filepath := path_join output_dir filename in
  _ <<- io_host (save_image filepath) ;;
  io_ret filepath.

End FileMethods.

End QRCodeGeneratorIO.

Section Batch.

Context {L : PyLib} {H : Host}.

(** [generate_qr_for_site]: [(filepath, qr_data)], or [(None, None)];
    [e1] and [e2] are what the two calls of [Fernet.encrypt] draw. *)
Definition generate_qr_for_site (site_data : value) (generator : QRCodeGenerator.t)
    (e1 e2 : entropy) : IO (option string * option value) :=
  io_try
    (site_id <<- io_py (py_getitem site_data "id") ;;
     qr_data <<- io_clock (QRCodeGenerator.generate_qr_data site_data) ;;
     let export (filepath : string) : IO (option string * option value) :=
       safe_site_id <<- io_py (py_safe_name site_id) ;;
       let output_dir := path_join QR_OUTPUT_DIR safe_site_id in
       _ <<- io_host (makedirs output_dir) ;;
       let export_file :=
         path_join output_dir ("site_data_" ++ safe_site_id ++ ".json")%string in
       _ <<- io_host (dump_json export_file qr_data) ;;
       io_ret (Some filepath, Some qr_data) in
     fun st =>
       match QRCodeGeneratorIO.create_qr_code_with_label generator e1 qr_data site_data st with
       | (Done filepath, st1) => export filepath st1
       | (Failed _, st1) =>
           match QRCodeGeneratorIO.create_simple_qr_code generator e2 qr_data site_data st1 with
           | (Done filepath, st2) => export filepath st2
           | (Failed _, st2) => (Done (None, None), st2)
           end
       end)
    (io_ret (None, None)).

(** [pd.isna] of a cell: an empty cell is NaN. *)
Definition isna (v : value) : bool :=
  match v with
  | VNone => true
  | VFloat f => PrimFloat.is_nan f
  | _ => false
  end.

Definition numeric_columns : list string :=
  [ "safe_level"; "warning_level"; "danger_level"; "latitude"; "longitude";
    "geofence_radius" ].

(** What the loop of [generate_all_qr_codes] puts in place of a missing
    cell of the column [key]. *)
Definition missing_default (key : string) : value :=
  if existsb (String.eqb key) numeric_columns then VFloat 0%float
  else if String.eqb key "is_active" then VBool true
  else VStr "".

(** The loop over [site_data.items()] in [generate_all_qr_codes]: a
    missing cell is overwritten in place. *)
Definition replace_missing (site_data : list (string * value)) : list (string * value) :=
  fold_left
    (fun acc kv => if isna (snd kv) then dict_set acc (fst kv) (missing_default (fst kv)) else acc)
    site_data site_data.

(** What the loop makes of one cell. *)
Definition filled (kv : string * value) : string * value :=
  if isna (snd kv) then (fst kv, missing_default (fst kv)) else kv.

End Batch.
(* ------------------------------------------------------------------ *)
(** ** The run over the whole table *)

(** The counters of [generate_all_qr_codes]. *)
Record tally := { successful : nat; failed : nat; failed_sites : list value }.

(** [sep.join(items)]: every item has to be text. *)
Fixpoint py_join (sep : string) (items : list value) : result string :=
  match items with
  | [] => Ok ""%string
  | VStr s :: rest =>
      match rest with
      | [] => Ok s
      | _ :: _ => r <~ py_join sep rest ;; Ok (s ++ sep ++ r)%string
      end
  | _ :: _ => Raise TypeError
  end.

Section Table.

Context {L : PyLib} {H : Host}.

(** The body of the loop over the rows; [draws] is what the calls of
    [Fernet.encrypt] for this row draw. *)
Definition process_row (generator : QRCodeGenerator.t) (draws : entropy * entropy)
    (row : list (string * value)) (t : tally) : IO tally :=
  let site_data := VDict (replace_missing row) in
  site_id <<- io_py (py_getitem site_data "id") ;;
  _ <<- io_py (py_getitem site_data "name") ;;
  _ <<- io_py (py_getitem site_data "location") ;;
  _ <<- io_py (py_getitem site_data "river_name") ;;
  _ <<- io_py (py_getitem site_data "state") ;;
  r <<- generate_qr_for_site site_data generator (fst draws) (snd draws) ;;
  let ok :=
    match r with
    | (Some filepath, Some qr_data) => truthy (VStr filepath) && truthy qr_data
    | _ => false
    end in
  io_ret
    (if ok
     then {| successful := S (successful t); failed := failed t;
             failed_sites := failed_sites t |}
     else {| successful := successful t; failed := S (failed t);
             failed_sites := failed_sites t ++ [site_id] |}).

(** The loop, from the row of number [n] on. *)
Fixpoint process_rows (generator : QRCodeGenerator.t) (draws : nat -> entropy * entropy)
    (n : nat) (rows : list (list (string * value))) (t : tally) : IO tally :=
  match rows with
  | [] => io_ret t
  | row :: rest =>
      t' <<- process_row generator (draws n) row t ;;
      process_rows generator draws (S n) rest t'
  end.

(** The summary written at the end. *)
Definition summary_of (generated : datetime) (total_sites : nat) (t : tally) : value :=
  VDict [ ("generatedAt", VStr (Datetime.isoformat generated));
          ("totalSites", VInt (Z.of_nat total_sites));
          ("successful", VInt (Z.of_nat (successful t)));
          ("failed", VInt (Z.of_nat (failed t)));
          ("failedSites", VList (failed_sites t));
          ("encryptionKey", VStr Sample.SECRET_KEY);
          ("folderStructure", VStr "qr_codes/<SITE_ID>/<QR_CODE>.png") ].

(** What follows the loop: the list of the failed sites is joined for
    printing, the clock is read and the summary is written. *)
Definition write_summary (total_sites : nat) (t : tally) : IO unit :=
  _ <<- io_py (if truthy (VList (failed_sites t))
               then py_join ", " (failed_sites t) else Ok ""%string) ;;
  generated <<- io_clock now ;;
  let summary_file := path_join QR_OUTPUT_DIR "generation_summary.json" in
  _ <<- io_host (dump_json summary_file (summary_of generated total_sites t)) ;;
  io_ret tt.

(** [generate_all_qr_codes]: any exception ends the run and is reported. *)
Definition generate_all_qr_codes (draws : nat -> entropy * entropy) : IO unit :=
  io_try
    (_ <<- io_host (makedirs QR_OUTPUT_DIR) ;;
     df <<- io_host (read_csv CSV_FILE) ;;
     let total_sites := List.length df in
     generator <<- io_py (QRCodeGenerator.__init__ Sample.SECRET_KEY) ;;
     t <<- process_rows generator draws 0 df
             {| successful := 0; failed := 0; failed_sites := [] |} ;;
     write_summary total_sites t)
    (io_ret tt).

End Table.
(* ------------------------------------------------------------------ *)
(** ** Further sample inputs *)

Module Cases.

Import Sample.

Definition items (v : value) : list (string * value) :=
  match v with
  | VDict d => d
  | _ => []
  end.

(** A host that holds a table and on which every operation goes through;
    its state is the table and the list of what was done, the latest
    first. *)
Definition table := list (list (string * value)).

Definition done (what : string) (h : table * list string)
  : outcome unit * (table * list string) :=
  (Done tt, (fst h, what :: snd h)).

Definition disk : Host :=
  {| host := table * list string;
     QR_OUTPUT_DIR := "qr_codes";
     path_join := fun a b => (a ++ "/" ++ b)%string;
     render_qr := fun _ => done "render";
     compose_label := done "label";
     draw_text := fun s => done ("text " ++ s);
     makedirs := fun p => done ("makedirs " ++ p);
     save_image := fun p => done ("save " ++ p);
     dump_json := fun p _ => done ("dump " ++ p);
     CSV_FILE := "a.csv";
     read_csv := fun _ h => (Done (fst h), h) |}.

(** The host before anything was done, and after the output directory
    was made. *)
Definition untouched (rows : table) : @host disk := (rows, []).

Definition prepared (rows : table) : @host disk := (rows, ["makedirs qr_codes"%string]).

(** The sample clock and an untouched host. *)
Definition fresh (rows : table) : world * @host disk := (clock, untouched rows).

Definition start : world * @host disk := fresh [].

(** Every call of [Fernet.encrypt] draws the same. *)
Definition draws (n : nat) : entropy * entropy := (draw, draw).

(** The sample row with a number for its id. *)
Definition numbered_site : value := Eval vm_compute in with_entry site "id" (VInt 7).

(** The sample row, and after it the row with the number. *)
Definition numbered_table : table := [items site; items numbered_site].

(** The sample row of a table without the column of the river. *)
Definition riverless_table : table := [items (without_entry site "river_name")].

(** The sample row as it comes from a table with empty cells. *)
Definition sparse_row : list (string * value) :=
  [ ("id", VStr "S1"); ("name", VNone); ("location", VStr "Ghat");
    ("river_name", VNone); ("state", VStr "Delhi");
    ("latitude", VFloat nan); ("longitude", VNone);
    ("safe_level", VInt 1); ("warning_level", VInt 2); ("danger_level", VFloat 3%float);
    ("geofence_radius", VFloat nan); ("qr_code", VStr "Q1"); ("is_active", VFloat nan) ].

(** The clock on the last microsecond of the year 9999. *)
Definition last_day : world :=
  World (fun _ => Datetime.max_ordinal * Datetime.us_per_day - 1) 0.

(** The sample payload with an expiry that states its offset from UTC. *)
Definition aware_payload : value :=
  Eval vm_compute in with_entry payload "expiresAt" (VStr "2027-11-04T17:47:03+05:30").

Definition sealed_aware : string := Eval vm_compute in seal aware_payload.


(** Site data of the form [get_site_validation_response] reads. *)
Definition site_record : value :=
  VDict [ ("siteId", VStr "S1"); ("name", VStr "Alpha"); ("location", VStr "Ghat");
          ("riverName", VStr "Yamuna"); ("state", VStr "Delhi"); ("district", VStr "North");
          ("coordinates", VDict [("lat", VFloat 10%float); ("lng", VFloat 20%float)]);
          ("siteType", VStr "river"); ("organization", VStr "CWC");
          ("levels", VDict [("safe", VFloat 1%float); ("warning", VFloat 2%float);
                            ("danger", VFloat 3%float)]);
          ("geofenceRadius", VInt 100); ("qrCode", VStr "Q1");
          ("generatedAt", VStr "2026-11-04T17:47:03.000250") ].

End Cases.

(* ------------------------------------------------------------------ *)
(** * Properties *)

(** ** Test vectors *)

Example sha256_abc :
  sha256_hexdigest "abc" =
  "ba7816bf8f01cfea414140de5dae2223b00361a396177a9cb410ff61f20015ad".
Proof. vm_compute. reflexivity. Qed.

Example sha256_empty :
  sha256_hexdigest "" =
  "e3b0c44298fc1c149afbf4c8996fb92427ae41e4649b934ca495991b7852b855".
Proof. vm_compute. reflexivity. Qed.

(** FIPS 180-4, the two-block message. *)
Example sha256_two_blocks :
  sha256_hexdigest "abcdbcdecdefdefgefghfghighijhijkijkljklmklmnlmnomnopnopq" =
  "248d6a61d20638b8e5c026930c3e6039a33ce45964ff2167f6ecedd419db06c1".
Proof. vm_compute. reflexivity. Qed.

(** The key both constructors hand to [Fernet] for the repository's secret. *)
Example derived_key_of_repository_secret :
  Base64.urlsafe_b64encode (SHA256.digest Sample.SECRET_KEY) =
  "sXby_Ye5h4PMny3-uRjFbXAVtzh79_8IckfNkYaMdgg=".
Proof. vm_compute. reflexivity. Qed.

Example b64_encode_sample : Base64.urlsafe_b64encode "hello!?" = "aGVsbG8hPw==".
Proof. reflexivity. Qed.

Example b64_decode_skips_junk :
  Base64.urlsafe_b64decode (String (byte_chr 128) "aGVs bG8h") = Some "hello!".
Proof. reflexivity. Qed.

Example b64_decode_bad_padding : Base64.urlsafe_b64decode "aGVsbG8" = None.
Proof. reflexivity. Qed.

Example isoformat_epoch : Datetime.isoformat 0 = "0001-01-01T00:00:00".
Proof. reflexivity. Qed.

Example isoformat_samples :
  map Datetime.isoformat
      [63929411223000250; 63844847999000000; 63871200000000000; 63813225600000001;
       63113860800000000; 59931705600000000; 315537897599999999; 63873878400000000;
       63873964800000000; 63844848000000000; 12622694400000000; 66243052800000000;
       66243139200000000] =
  ["2026-11-04T17:47:03.000250"; "2024-02-29T23:59:59"; "2024-12-31T00:00:00";
   "2023-03-01T00:00:00.000001"; "2000-12-31T12:00:00"; "1900-03-01T00:00:00";
   "9999-12-31T23:59:59.999999"; "2025-01-31T00:00:00"; "2025-02-01T00:00:00";
   "2024-03-01T00:00:00"; "0400-12-31T00:00:00"; "2100-02-28T00:00:00";
   "2100-03-01T00:00:00"].
Proof. vm_compute. reflexivity. Qed.

(** FIPS 197, appendix C.1. *)
Example aes128_fips197 :
  let key := Reference.unhex "000102030405060708090a0b0c0d0e0f" in
  let pt := Reference.unhex "00112233445566778899aabbccddeeff" in
  let ct := Reference.unhex "69c4e0d86a7b0430d8cdb78070b4c55a" in
  Reference.AES.encrypt_block key pt = ct /\ Reference.AES.decrypt_block key ct = pt.
Proof. vm_compute. split; reflexivity. Qed.

(** RFC 4231, test case 2. *)
Example hmac_rfc4231 :
  Reference.hmac_sha256 (bytes_of "Jefe") (bytes_of "what do ya want for nothing?") =
  Reference.unhex "5bdcc146bf60754e6a042426089575c75a003f089d2739839dec58b964ec3843".
Proof. vm_compute. reflexivity. Qed.

(** The generation vector of the Fernet specification. *)
Example fernet_specification_vector :
  let token :=
    "gAAAAAAdwJ6wAAECAwQFBgcICQoLDA0ODy021cpGVWKZ_eEwCGM4BLLF_5CV9dOPmrhuVUPgJobwOz7JcbmrR64jVmpU4IwqDA==" in
  let drawn := {| iv := string_of_bytes (map Z.of_nat (seq 0 16)); timestamp := 499162800 |} in
  match Fernet_new "cw_0x689RpI-jtRR7oE8h_eQsKImvJapLeSbXpwF4e4=" with
  | Ok c =>
      Reference.fernet_encrypt c drawn "hello" = token /\
      Reference.fernet_decrypt c token = Some "hello"
  | Raise _ => False
  end.
Proof. vm_compute. split; reflexivity. Qed.

(** The reference zlib stream of a short text, which [zlib.decompress]
    reads back. *)
Example zlib_stored_stream :
  option_map hex_of (Reference.zlib_compress "hello hello hello") =
  Some "78da011100eeff68656c6c6f2068656c6c6f2068656c6c6f3a2e067d".
Proof. vm_compute. reflexivity. Qed.

Example json_sample_round_trip :
  Reference.json_loads (Reference.json_dumps Sample.payload) = Some Sample.payload.
Proof. vm_compute. reflexivity. Qed.

Example fromisoformat_samples :
  map Reference.fromisoformat
      ["2026-11-04T17:47:03.000250"; "2026-11-04T17:47:03+05:30"; ""; "2026-02-30T00:00:00";
       "next year"] =
  [Some (Naive 63929411223000250); Some (Aware 63929411223000000 330); None; None; None].
Proof. vm_compute. reflexivity. Qed.

(** Falsy and truthy values. *)
Example truthy_samples :
  map truthy [VNone; VBool false; VInt 0; VFloat 0%float; VStr ""; VList []; VDict [];
              VInt 7; VStr "False"; VList [VInt 0]] =
  [false; false; false; false; false; false; false; true; true; true].
Proof. reflexivity. Qed.

(** ** Base64 round trip *)

Section Base64Facts.

Import Base64.

Lemma b64_index_char (s : sextet) : b64_index (b64_char s) = Some s.
Proof. destruct s as [[] [] [] [] [] []]; reflexivity. Qed.

Lemma b64_char_not_pad (s : sextet) : Ascii.eqb (b64_char s) pad_char = false.
Proof. destruct s as [[] [] [] [] [] []]; reflexivity. Qed.

Lemma a2b_step_char (s : sextet) (r : string) (q : quad) (pads : nat) :
  a2b_base64 (String (b64_char s) r) q pads =
  let 'Six s5 s4 s3 s2 s1 s0 := s in
  match q with
  | Q0 => a2b_base64 r (Q1 s5 s4 s3 s2 s1 s0) O
  | Q1 b5 b4 b3 b2 b1 b0 =>
      option_map (String (Ascii s4 s5 b0 b1 b2 b3 b4 b5)) (a2b_base64 r (Q2 s3 s2 s1 s0) O)
  | Q2 b3 b2 b1 b0 =>
      option_map (String (Ascii s2 s3 s4 s5 b0 b1 b2 b3)) (a2b_base64 r (Q3 s1 s0) O)
  | Q3 b1 b0 =>
      option_map (String (Ascii s0 s1 s2 s3 s4 s5 b0 b1)) (a2b_base64 r Q0 O)
  end.
Proof.
  cbn [a2b_base64]. rewrite b64_char_not_pad, b64_index_char.
  destruct s; reflexivity.
Qed.

(** Induction three bytes at a time. *)
Lemma string_ind_by3 (P : string -> Prop) :
  P EmptyString ->
  (forall a, P (String a EmptyString)) ->
  (forall a b, P (String a (String b EmptyString))) ->
  (forall a b c r, P r -> P (String a (String b (String c r)))) ->
  forall s, P s.
Proof.
  intros H0 H1 H2 H3.
  assert (G : forall s, P s /\ (forall a, P (String a s)) /\
                        (forall a b, P (String a (String b s)))).
  { induction s as [|c r [IH0 [IH1 IH2]]].
    - repeat split; auto.
    - repeat split; auto. }
  intro s; apply G.
Qed.

Theorem urlsafe_b64decode_encode (s : string) :
  urlsafe_b64decode (urlsafe_b64encode s) = Some s.
Proof.
  unfold urlsafe_b64decode.
  induction s as [|a|a b|a b c r IH] using string_ind_by3.
  - reflexivity.
  - destruct a as [a0 a1 a2 a3 a4 a5 a6 a7].
    cbn [urlsafe_b64encode enc1].
    rewrite !a2b_step_char. reflexivity.
  - destruct a as [a0 a1 a2 a3 a4 a5 a6 a7], b as [b0 b1 b2 b3 b4 b5 b6 b7].
    cbn [urlsafe_b64encode enc2].
    rewrite !a2b_step_char. reflexivity.
  - destruct a as [a0 a1 a2 a3 a4 a5 a6 a7], b as [b0 b1 b2 b3 b4 b5 b6 b7],
             c as [c0 c1 c2 c3 c4 c5 c6 c7].
    cbn [urlsafe_b64encode enc3].
    rewrite !a2b_step_char. cbn [option_map]. rewrite IH. reflexivity.
Qed.

End Base64Facts.

(** ** Strings, digests, dictionaries *)

Arguments SHA256.digest : simpl never.
Arguments sha256_hexdigest : simpl never.

Lemma length_string_of_list_ascii (l : list ascii) :
  String.length (string_of_list_ascii l) = List.length l.
Proof. induction l as [|c l IH]; cbn; [reflexivity | now rewrite IH]. Qed.

Lemma digest_length (data : string) : String.length (SHA256.digest data) = 32%nat.
Proof.
  unfold SHA256.digest, string_of_bytes.
  rewrite length_string_of_list_ascii, length_map.
  reflexivity.
Qed.

Lemma hex_of_length (s : string) : String.length (hex_of s) = (2 * String.length s)%nat.
Proof. induction s as [|c r IH]; cbn [hex_of String.length]; [reflexivity | lia]. Qed.

Lemma hex_digits_lower (c : ascii) :
  is_lower_hex (hex_digit (byte_val c / 16)) && is_lower_hex (hex_digit (byte_val c mod 16)) = true.
Proof. destruct c as [[] [] [] [] [] [] [] []]; reflexivity. Qed.

Lemma hex_of_lower (s : string) : str_forall is_lower_hex (hex_of s) = true.
Proof.
  induction s as [|c r IH]; cbn [hex_of str_forall]; [reflexivity|].
  rewrite IH, andb_true_r. apply hex_digits_lower.
Qed.

Lemma str_take_length (n : nat) (s : string) :
  (n <= String.length s)%nat -> String.length (str_take n s) = n.
Proof.
  revert s; induction n as [|n IH]; intros s Hn; [reflexivity|].
  destruct s as [|c r]; cbn in *; [lia|]. rewrite IH; lia.
Qed.

Lemma str_take_forall (p : ascii -> bool) (n : nat) (s : string) :
  str_forall p s = true -> str_forall p (str_take n s) = true.
Proof.
  revert s; induction n as [|n IH]; intros s H; [reflexivity|].
  destruct s as [|c r]; [reflexivity|]. cbn in *.
  apply andb_true_iff in H as [Hc Hr]. now rewrite Hc, IH.
Qed.

Lemma str_take_drop (n : nat) (s : string) : (str_take n s ++ str_drop n s)%string = s.
Proof.
  revert s; induction n as [|n IH]; intros s; [reflexivity|].
  destruct s as [|c r]; [reflexivity|]. cbn. now rewrite IH.
Qed.

(** The stored digest is sixteen characters of [0-9a-f]. *)
Lemma short_digest_shape (data : string) :
  let h := str_take 16 (sha256_hexdigest data) in
  String.length h = 16%nat /\ str_forall is_lower_hex h = true.
Proof.
  unfold sha256_hexdigest. split.
  - apply str_take_length. rewrite hex_of_length, digest_length. lia.
  - apply str_take_forall, hex_of_lower.
Qed.

Lemma dict_get_set_other (d : list (string * value)) (k k' : string) (v : value) :
  k <> k' -> dict_get (dict_set d k v) k' = dict_get d k'.
Proof.
  intros Hk. induction d as [|[k0 v0] r IH]; cbn.
  - destruct (String.eqb_spec k' k); [congruence | reflexivity].
  - destruct (String.eqb_spec k k0) as [->|Hne]; cbn.
    + destruct (String.eqb_spec k' k0); [congruence | reflexivity].
    + now rewrite IH.
Qed.

(** ** The constructors *)

Lemma Fernet_new_digest (secret_key : string) :
  exists c,
    Fernet_new (Base64.urlsafe_b64encode (SHA256.digest secret_key)) = Ok c /\
    (signing_key c ++ encryption_key c)%string = SHA256.digest secret_key.
Proof.
  unfold Fernet_new. rewrite urlsafe_b64decode_encode, digest_length.
  cbn [Nat.eqb]. eexists; split; [reflexivity|]. cbn [signing_key encryption_key].
  apply str_take_drop.
Qed.

(** C8. For every secret, the generator's and the validator's constructor
    succeed and hold the same cipher, whose key (signing half followed by
    encryption half) is the 32-byte SHA-256 digest of the secret; the
    cipher is the only thing either object holds, and it depends on the
    secret through that digest alone. *)
Theorem key_derivation_agrees (secret_key : string) :
  exists c,
    QRCodeGenerator.__init__ secret_key = Ok {| QRCodeGenerator.cipher := c |} /\
    QRCodeValidator.__init__ secret_key = Ok {| QRCodeValidator.cipher := c |} /\
    (signing_key c ++ encryption_key c)%string = SHA256.digest secret_key /\
    String.length (signing_key c ++ encryption_key c) = 32%nat /\
    (forall other : string,
        SHA256.digest other = SHA256.digest secret_key ->
        QRCodeGenerator.__init__ other = QRCodeGenerator.__init__ secret_key /\
        QRCodeValidator.__init__ other = QRCodeValidator.__init__ secret_key).
Proof.
  destruct (Fernet_new_digest secret_key) as [c [Hc Hkey]].
  exists c. unfold QRCodeGenerator.__init__, QRCodeValidator.__init__.
  rewrite Hc. cbn [bind].
  split; [reflexivity|]. split; [reflexivity|]. split; [exact Hkey|]. split.
  - rewrite Hkey. apply digest_length.
  - intros other Hother. rewrite Hother, Hc. split; reflexivity.
Qed.

(** ** The payload codec *)

Arguments Datetime.isoformat : simpl never.
Arguments Datetime.add : simpl never.
Arguments Datetime.timedelta_days : simpl never.

Lemma bind_Ok {A B} (r : result A) (k : A -> result B) (b : B) :
  bind r k = Ok b -> exists a, r = Ok a /\ k a = Ok b.
Proof. destruct r as [a|e]; cbn; [eauto | discriminate]. Qed.

(** Splits a hypothesis on a chain of binds into its successful steps. *)
Ltac bind_inv H :=
  repeat match type of H with
    | context [match ?r with Ok _ => _ | Raise _ => _ end] =>
        let E := fresh "E" in
        destruct r eqn:E; cbn -[dict_set] in H; try discriminate H
    end.

Section Codec.

Context {L : PyLib}.

Lemma generate_qr_data_inv (site_info : value) (w w' : world) (p : value) :
  QRCodeGenerator.generate_qr_data site_info w = (Ok p, w') ->
  exists id name location lat lng safe warning danger radius qr_code is_active expires,
    py_getitem site_info "id" = Ok id /\
    py_getitem site_info "name" = Ok name /\
    py_getitem site_info "location" = Ok location /\
    (v <~ py_getitem site_info "latitude" ;; py_float v) = Ok lat /\
    (v <~ py_getitem site_info "longitude" ;; py_float v) = Ok lng /\
    (v <~ py_getitem site_info "safe_level" ;; py_float v) = Ok safe /\
    (v <~ py_getitem site_info "warning_level" ;; py_float v) = Ok warning /\
    (v <~ py_getitem site_info "danger_level" ;; py_float v) = Ok danger /\
    (v <~ py_getitem site_info "geofence_radius" ;; py_int v) = Ok radius /\
    py_getitem site_info "qr_code" = Ok qr_code /\
    py_getitem site_info "is_active" = Ok is_active /\
    Datetime.add (time_at w (S (reads w))) (Datetime.timedelta_days 365) = Ok expires /\
    p = payload id name location lat lng safe warning danger radius qr_code is_active
          (time_at w (reads w)) expires /\
    w' = World (time_at w) (S (S (reads w))).
Proof.
  unfold QRCodeGenerator.generate_qr_data, mbind, lift, now, ret.
  intros H. cbn -[dict_set] in H. bind_inv H.
  injection H as <- <-.
  repeat eexists; eauto.
Qed.

Lemma create_validation_hash_text (d : value) :
  QRCodeGenerator.create_validation_hash d =
  (s <~ hashed_text d ;; Ok (str_take 16 (sha256_hexdigest s))).
Proof.
  unfold QRCodeGenerator.create_validation_hash, hashed_text, coordinate.
  repeat match goal with
         | |- context [bind ?r _] => destruct r; cbn [bind]; try reflexivity
         end.
Qed.

Lemma validate_site_hash_text (d : value) :
  QRCodeValidator.validate_site_hash d =
  try_except
    (stored <~ py_get d "validationHash" (VStr "") ;;
     s <~ hashed_text d ;;
     Ok (eq_str stored (str_take 16 (sha256_hexdigest s))))
    false.
Proof.
  unfold QRCodeValidator.validate_site_hash, hashed_text, coordinate.
  destruct (py_get d "validationHash" (VStr "")); cbn [bind]; [|reflexivity].
  repeat match goal with
         | |- context [bind ?r _] => destruct r; cbn [bind]; try reflexivity
         end.
Qed.

Lemma hashed_text_agree (d1 d2 : value) :
  py_getitem d1 "siteId" = py_getitem d2 "siteId" ->
  py_getitem d1 "name" = py_getitem d2 "name" ->
  coordinate d1 "lat" = coordinate d2 "lat" ->
  coordinate d1 "lng" = coordinate d2 "lng" ->
  hashed_text d1 = hashed_text d2.
Proof.
  unfold hashed_text. now intros -> -> -> ->.
Qed.

(** C3. (1) In every payload [generate_qr_data] returns, [validationHash]
    is the first 16 characters of the SHA-256 hex digest of siteId, name,
    lat and lng written one after the other, it is 16 characters of
    [0-9a-f], and the validator's recomputation accepts it. (2) Two
    payloads that give the same siteId, name, lat and lng get the same
    hash from [create_validation_hash], and the same verdict from
    [validate_site_hash] when they store the same hash. (3) Setting any
    other key (levels, isActive, geofenceRadius, the timestamps) leaves
    the computed hash as it was. (4) On every payload that holds the four
    fields, [create_validation_hash] returns the first 16 characters of
    the SHA-256 hex digest of the four written one after the other, 16
    characters of [0-9a-f]. (5) [validate_site_hash] recomputes the same:
    it says true exactly when the payload holds the four fields and
    stores, as text, the first 16 characters of the SHA-256 hex digest of
    the four written one after the other. *)
Theorem validation_hash_covers_identity_and_location :
  (forall site_info w w' p,
      QRCodeGenerator.generate_qr_data site_info w = (Ok p, w') ->
      exists siteId name lat lng h,
        py_getitem p "siteId" = Ok (VStr siteId) /\
        py_getitem p "name" = Ok (VStr name) /\
        coordinate p "lat" = Ok (VFloat lat) /\
        coordinate p "lng" = Ok (VFloat lng) /\
        py_getitem p "validationHash" = Ok (VStr h) /\
        h = str_take 16
              (sha256_hexdigest (siteId ++ name ++ float_repr lat ++ float_repr lng)%string) /\
        String.length h = 16%nat /\
        str_forall is_lower_hex h = true /\
        QRCodeGenerator.create_validation_hash p = Ok h /\
        QRCodeValidator.validate_site_hash p = true) /\
  (forall d1 d2,
      py_getitem d1 "siteId" = py_getitem d2 "siteId" ->
      py_getitem d1 "name" = py_getitem d2 "name" ->
      coordinate d1 "lat" = coordinate d2 "lat" ->
      coordinate d1 "lng" = coordinate d2 "lng" ->
      QRCodeGenerator.create_validation_hash d1 = QRCodeGenerator.create_validation_hash d2 /\
      (py_get d1 "validationHash" (VStr "") = py_get d2 "validationHash" (VStr "") ->
       QRCodeValidator.validate_site_hash d1 = QRCodeValidator.validate_site_hash d2)) /\
  (forall items k v,
      k <> "siteId" -> k <> "name" -> k <> "coordinates" ->
      QRCodeGenerator.create_validation_hash (VDict (dict_set items k v)) =
      QRCodeGenerator.create_validation_hash (VDict items)) /\
  (forall d siteId name lat lng,
      py_getitem d "siteId" = Ok siteId ->
      py_getitem d "name" = Ok name ->
      coordinate d "lat" = Ok lat ->
      coordinate d "lng" = Ok lng ->
      let h := str_take 16
                 (sha256_hexdigest
                    (py_str siteId ++ py_str name ++ py_str lat ++ py_str lng)%string) in
      QRCodeGenerator.create_validation_hash d = Ok h /\
      String.length h = 16%nat /\
      str_forall is_lower_hex h = true) /\
  (forall d,
      QRCodeValidator.validate_site_hash d = true <->
      exists siteId name lat lng,
        py_getitem d "siteId" = Ok siteId /\
        py_getitem d "name" = Ok name /\
        coordinate d "lat" = Ok lat /\
        coordinate d "lng" = Ok lng /\
        py_get d "validationHash" (VStr "") =
          Ok (VStr (str_take 16
                      (sha256_hexdigest
                         (py_str siteId ++ py_str name ++ py_str lat ++ py_str lng)%string)))).
Proof.
  split; [|split; [|split; [|split]]].
  - intros site_info w w' p H.
    apply generate_qr_data_inv in H
      as (id & name & location & lat & lng & safe & warning & danger & radius & qr_code &
          is_active & expires & _ & _ & _ & _ & _ & _ & _ & _ & _ & _ & _ & _ & -> & _).
    exists (py_str id), (py_str name), lat, lng.
    eexists. do 6 (split; [reflexivity|]).
    pose proof (short_digest_shape
                  (py_str id ++ py_str name ++ float_repr lat ++ float_repr lng)%string)
      as [Hlen Hhex].
    split; [exact Hlen|]. split; [exact Hhex|]. split; [reflexivity|].
    unfold QRCodeValidator.validate_site_hash, payload. cbn.
    apply String.eqb_refl.
  - intros d1 d2 H1 H2 H3 H4.
    pose proof (hashed_text_agree d1 d2 H1 H2 H3 H4) as Ht. split.
    + now rewrite !create_validation_hash_text, Ht.
    + intros Hs. now rewrite !validate_site_hash_text, Hs, Ht.
  - intros items k v H1 H2 H3.
    rewrite !create_validation_hash_text. f_equal.
    apply hashed_text_agree; unfold coordinate; cbn [py_getitem];
      rewrite dict_get_set_other by assumption; reflexivity.
  - intros d siteId name lat lng H1 H2 H3 H4 h.
    rewrite create_validation_hash_text. unfold hashed_text.
    rewrite H1, H2, H3, H4. cbn [bind].
    split; [reflexivity | apply short_digest_shape].
  - intros d. rewrite validate_site_hash_text. unfold hashed_text. split.
    + destruct (py_get d "validationHash" (VStr "")) as [stored|e];
        cbn [bind try_except]; [|discriminate].
      destruct (py_getitem d "siteId") as [siteId|e]; cbn [bind try_except]; [|discriminate].
      destruct (py_getitem d "name") as [name|e]; cbn [bind try_except]; [|discriminate].
      destruct (coordinate d "lat") as [lat|e]; cbn [bind try_except]; [|discriminate].
      destruct (coordinate d "lng") as [lng|e]; cbn [bind try_except]; [|discriminate].
      destruct stored; cbn [eq_str]; try discriminate.
      intros H. apply String.eqb_eq in H. subst s.
      exists siteId, name, lat, lng. repeat split; reflexivity.
    + intros (siteId & name & lat & lng & -> & -> & -> & -> & ->).
      cbn [bind try_except eq_str]. apply String.eqb_refl.
Qed.

(** *** The two clock readings *)

Lemma add_Ok (t delta r : Z) : Datetime.add t delta = Ok r -> r = t + delta.
Proof.
  unfold Datetime.add.
  destruct ((0 <=? t + delta) && (t + delta <? Datetime.max_ordinal * Datetime.us_per_day));
    [now intros [= <-] | discriminate].
Qed.

(** C4, amended. [generatedAt] shows the first clock reading and
    [expiresAt] the second one plus exactly 365 days; the payload has
    the two exactly 365 days apart when the two readings are equal. *)
Theorem expiry_is_365_days_after_second_reading (site_info : value) (w w' : world) (p : value) :
  QRCodeGenerator.generate_qr_data site_info w = (Ok p, w') ->
  let generated := time_at w (reads w) in
  let current := time_at w (S (reads w)) in
  py_getitem p "generatedAt" = Ok (VStr (Datetime.isoformat generated)) /\
  py_getitem p "expiresAt" =
    Ok (VStr (Datetime.isoformat (current + Datetime.timedelta_days 365))) /\
  reads w' = S (S (reads w)) /\
  (current = generated -> expires_365_days_after_generated p).
Proof.
  intros H generated current.
  apply generate_qr_data_inv in H
    as (id & name & location & lat & lng & safe & warning & danger & radius & qr_code &
        is_active & expires & _ & _ & _ & _ & _ & _ & _ & _ & _ & _ & _ & Hadd & -> & ->).
  apply add_Ok in Hadd. subst expires. fold current.
  repeat (split; [reflexivity|]).
  intros Heq. exists generated. rewrite Heq. split; reflexivity.
Qed.

End Codec.

(** ** The validator pipeline *)

Section Pipeline.

Context {L : PyLib}.

Import QRCodeValidator.

Lemma check_expiry_returns (site_data : value) (w : world) :
  exists b w', check_expiry site_data w = (Ok b, w').
Proof.
  unfold check_expiry, mbind, now, ret.
  destruct (py_get site_data "expiresAt" (VStr "")) as [[]|]; eauto.
  destruct (fromisoformat s) as [[]|]; eauto.
Qed.

(** C2, where the code departs from it. [validate_qr_code] checks in a
    fixed order and stops at the first check that fails: (1) no payload
    was decrypted (or an empty one); (2) the [isActive] entry is false;
    (3) the hash does not match; (4) the payload has expired; each with
    its own message, and the first three without reading the clock. It
    says valid exactly when all four pass, and then carries the payload.
    So it is for a payload that is a JSON object. A payload that is not
    an object and is not empty passes the first check and ends the
    second with AttributeError: no reason is returned, and neither the
    hash nor the clock is consulted. Every token is of one of these
    kinds. *)
Theorem validate_checks_in_order (self : t) (qr_content : string) (w : world) :
  ((decrypt_qr_data self qr_content = None \/
    exists d, decrypt_qr_data self qr_content = Some d /\ truthy d = false) ->
   validate_qr_code self qr_content w = (Ok (false, None, msg_decrypt_failed), w)) /\
  (forall d a,
      decrypt_qr_data self qr_content = Some d ->
      truthy d = true ->
      py_get d "isActive" VNone = Ok a ->
      (truthy a = false ->
       validate_qr_code self qr_content w = (Ok (false, Some d, msg_inactive), w)) /\
      (truthy a = true -> validate_site_hash d = false ->
       validate_qr_code self qr_content w = (Ok (false, Some d, msg_tampered), w)) /\
      (truthy a = true -> validate_site_hash d = true ->
       fst (check_expiry d w) = Ok false ->
       fst (validate_qr_code self qr_content w) = Ok (false, Some d, msg_expired)) /\
      (truthy a = true -> validate_site_hash d = true ->
       fst (check_expiry d w) = Ok true ->
       fst (validate_qr_code self qr_content w) = Ok (true, Some d, msg_valid))) /\
  (forall x m,
      fst (validate_qr_code self qr_content w) = Ok (true, x, m) ->
      exists d a,
        decrypt_qr_data self qr_content = Some d /\ x = Some d /\ m = msg_valid /\
        truthy d = true /\
        py_get d "isActive" VNone = Ok a /\ truthy a = true /\
        validate_site_hash d = true /\
        fst (check_expiry d w) = Ok true) /\
  NoDup [msg_decrypt_failed; msg_inactive; msg_tampered; msg_expired; msg_valid] /\
  (forall d,
      decrypt_qr_data self qr_content = Some d ->
      truthy d = true ->
      (forall items, d <> VDict items) ->
      validate_qr_code self qr_content w = (Raise AttributeError, w)) /\
  (decrypt_qr_data self qr_content = None \/
   exists d,
     decrypt_qr_data self qr_content = Some d /\
     (truthy d = false \/
      truthy d = true /\
      ((forall items, d <> VDict items) \/
       exists a b, py_get d "isActive" VNone = Ok a /\ fst (check_expiry d w) = Ok b))).
Proof.
  unfold validate_qr_code, mbind, lift, ret.
  split; [|split; [|split; [|split; [|split]]]].
  - intros [-> | (d & -> & ->)]; reflexivity.
  - intros d a -> -> ->. cbn [negb].
    repeat split.
    + now intros ->.
    + now intros -> ->.
    + intros -> -> H. cbn [negb].
      destruct (check_expiry d w) as [[b|e] w1]; cbn in H |- *; [|discriminate].
      now injection H as ->.
    + intros -> -> H. cbn [negb].
      destruct (check_expiry d w) as [[b|e] w1]; cbn in H |- *; [|discriminate].
      now injection H as ->.
  - intros x m H.
    destruct (decrypt_qr_data self qr_content) as [d|]; [|discriminate].
    destruct (truthy d) eqn:Hd; cbn [negb] in H; [|discriminate].
    destruct (py_get d "isActive" VNone) as [a|e] eqn:Ha; [|discriminate].
    destruct (truthy a) eqn:Hact; cbn [negb] in H; [|discriminate].
    destruct (validate_site_hash d) eqn:Hhash; cbn [negb] in H; [|discriminate].
    destruct (check_expiry d w) as [[b|e] w1] eqn:Hexp; cbn in H; [|discriminate].
    destruct b; cbn in H; [|discriminate].
    injection H as <- <-.
    exists d, a. repeat split; trivial. now rewrite Hexp.
  - unfold msg_decrypt_failed, msg_inactive, msg_tampered, msg_expired, msg_valid.
    repeat constructor; cbn; intuition discriminate.
  - intros d -> -> Hno. cbn [negb].
    destruct d as [| | | | | |items]; try reflexivity. now destruct (Hno items).
  - destruct (decrypt_qr_data self qr_content) as [d|]; [right | now left].
    exists d. split; [reflexivity|].
    destruct (truthy d); [right | now left]. split; [reflexivity|].
    destruct (check_expiry_returns d w) as (b & w1 & Hb).
    destruct d as [| | | | | |items]; try (left; discriminate).
    right. eexists. exists b. split; [reflexivity | now rewrite Hb].
Qed.

(** C5, where the code departs from it. A payload that decrypts to JSON
    that is not an object and is not empty (a list, a number, a string)
    passes the first test, and the lookup of [isActive] outside any [try]
    raises AttributeError to the caller. *)
Theorem validate_raises_on_non_object (self : t) (qr_content : string) (d : value) (w : world) :
  decrypt_qr_data self qr_content = Some d ->
  truthy d = true ->
  (forall items, d <> VDict items) ->
  validate_qr_code self qr_content w = (Raise AttributeError, w).
Proof.
  intros Hd Ht Hno. unfold validate_qr_code, mbind, lift. rewrite Hd, Ht. cbn [negb].
  destruct d as [| | | | | |items]; try reflexivity. now destruct (Hno items).
Qed.

(** On every other input a result comes back. *)
Lemma validate_returns_otherwise (self : t) (qr_content : string) (w : world) :
  (forall d, decrypt_qr_data self qr_content = Some d ->
             truthy d = false \/ exists items, d = VDict items) ->
  exists res w', validate_qr_code self qr_content w = (Ok res, w').
Proof.
  intros H. unfold validate_qr_code, mbind, lift, ret.
  destruct (decrypt_qr_data self qr_content) as [d|]; [|eauto].
  destruct (H d eq_refl) as [Hd | [items ->]]; [rewrite Hd; cbn [negb]; eauto|].
  destruct (truthy (VDict items)); cbn [negb]; [|eauto].
  cbn [py_get].
  destruct (truthy _); cbn [negb]; [|eauto].
  destruct (validate_site_hash _); cbn [negb]; [|eauto].
  destruct (check_expiry_returns (VDict items) w) as (b & w1 & ->).
  destruct b; cbn [negb]; eauto.
Qed.

(** C6. A decrypted payload whose [isActive] is [false] gets the inactive
    result, whatever its hash and its expiry are, and the clock is not
    read. *)
Theorem inactive_short_circuits (self : t) (qr_content : string)
    (items : list (string * value)) (w : world) :
  decrypt_qr_data self qr_content = Some (VDict items) ->
  dict_get items "isActive" = Some (VBool false) ->
  validate_qr_code self qr_content w = (Ok (false, Some (VDict items), msg_inactive), w).
Proof.
  intros Hd Ha. unfold validate_qr_code, mbind, lift, ret. rewrite Hd.
  destruct items as [|kv r]; [discriminate|].
  cbn [truthy negb py_get]. rewrite Ha. reflexivity.
Qed.

(** C9, amended. A decrypted payload that is an object with at least one
    entry, and that has no [isActive] key or a falsy value under it, gets
    the inactive result. *)
Theorem missing_or_falsy_active_is_inactive (self : t) (qr_content : string)
    (items : list (string * value)) (w : world) :
  decrypt_qr_data self qr_content = Some (VDict items) ->
  items <> [] ->
  (dict_get items "isActive" = None \/
   exists a, dict_get items "isActive" = Some a /\ truthy a = false) ->
  validate_qr_code self qr_content w = (Ok (false, Some (VDict items), msg_inactive), w).
Proof.
  intros Hd Hne Ha. unfold validate_qr_code, mbind, lift, ret. rewrite Hd.
  destruct items as [|kv r]; [congruence|].
  cbn [truthy negb py_get].
  destruct Ha as [-> | (a & -> & ->)]; reflexivity.
Qed.

(** C10. When the payload has passed the decryption, active and hash
    checks and its [expiresAt] is absent, is not text, or is text that
    [fromisoformat] rejects, [check_expiry] returns false and the result
    is the expired one. An absent key stands for the empty text, which
    Python's [fromisoformat] rejects. *)
Theorem unusable_expiry_is_expired (self : t) (qr_content : string)
    (items : list (string * value)) (a : value) (w : world) :
  decrypt_qr_data self qr_content = Some (VDict items) ->
  dict_get items "isActive" = Some a ->
  truthy a = true ->
  validate_site_hash (VDict items) = true ->
  match dict_get items "expiresAt" with
  | None => fromisoformat "" = None
  | Some (VStr s) => fromisoformat s = None
  | Some _ => True
  end ->
  check_expiry (VDict items) w = (Ok false, w) /\
  validate_qr_code self qr_content w = (Ok (false, Some (VDict items), msg_expired), w).
Proof.
  intros Hd Ha Ht Hh He.
  assert (Hc : check_expiry (VDict items) w = (Ok false, w)).
  { unfold check_expiry. cbn [py_get].
    destruct (dict_get items "expiresAt") as [[]|]; try reflexivity; now rewrite He. }
  split; [exact Hc|].
  unfold validate_qr_code, mbind, lift, ret. rewrite Hd.
  destruct items as [|kv r]; [discriminate|].
  cbn [truthy negb py_get]. rewrite Ha, Ht, Hh. cbn [negb]. now rewrite Hc.
Qed.

(** What [decrypt_qr_data] reads back: JSON text, sealed by Fernet, and
    the token written once more in base64. *)
Lemma decrypt_qr_data_reads_sealed_json (self : t) (e : entropy) (v : value) :
  (forall m, fernet_decrypt (cipher self) (fernet_encrypt (cipher self) e m) = Some m) ->
  json_loads (json_dumps v) = Some v ->
  decrypt_qr_data self
    (Base64.urlsafe_b64encode (fernet_encrypt (cipher self) e (json_dumps v))) = Some v.
Proof.
  intros Hf Hj. unfold decrypt_qr_data.
  now rewrite urlsafe_b64decode_encode, Hf.
Qed.

End Pipeline.

(** ** The geofence *)

Local Open Scope R_scope.






Local Close Scope R_scope.

(** ** Runs on the concrete inputs *)

Section Runs.

Import Sample.

#[local] Existing Instance Reference.lib.

Ltac run := vm_compute; reflexivity.

(** C1, where the code departs from it. The generator and the validator
    are built from the same secret, the payload is encoded from a site row
    and encrypted, and [decrypt_qr_data] returns nothing for the token.
    The token is sound, since [Fernet.decrypt] applied to it gives back
    the compressed bytes; the validator decodes it from base64 once more
    before that call, and it would hand the still compressed bytes to the
    JSON parser, which rejects them. *)
Theorem generated_token_is_not_read_back :
  QRCodeGenerator.__init__ SECRET_KEY = Ok generator /\
  QRCodeValidator.__init__ SECRET_KEY = Ok validator /\
  fst (QRCodeGenerator.generate_qr_data site clock) = Ok payload /\
  QRCodeGenerator.encrypt_site_data generator draw payload = token /\
  QRCodeValidator.decrypt_qr_data validator token = None /\
  exists compressed,
    zlib_compress (json_dumps payload) = Some compressed /\
    fernet_decrypt (QRCodeValidator.cipher validator) token = Some compressed /\
    json_loads compressed = None.
Proof.
  do 5 (split; [run|]).
  eexists. split; [run|]. split; run.
Qed.

(** The constructors on the key of the repository. *)
Lemma key_derivation_agrees_witness :
  exists c,
    QRCodeGenerator.__init__ SECRET_KEY = Ok {| QRCodeGenerator.cipher := c |} /\
    QRCodeValidator.__init__ SECRET_KEY = Ok {| QRCodeValidator.cipher := c |} /\
    QRCodeGenerator.__init__ (SECRET_KEY ++ "")%string = QRCodeGenerator.__init__ SECRET_KEY.
Proof.
  destruct (key_derivation_agrees SECRET_KEY) as (c & Hg & Hv & _ & _ & Hsame).
  exists c. split; [exact Hg|]. split; [exact Hv|].
  apply (Hsame (SECRET_KEY ++ "")%string). reflexivity.
Defined.

(** The sample payload carries the digest of ["S1Alpha10.020.0"], and
    under another name the validator refuses it. *)
Lemma validation_hash_covers_identity_and_location_witness :
  (exists h,
    py_getitem payload "validationHash" = Ok (VStr h) /\
    h = str_take 16 (sha256_hexdigest "S1Alpha10.020.0") /\
    String.length h = 16%nat /\
    QRCodeValidator.validate_site_hash payload = true) /\
  QRCodeValidator.validate_site_hash (with_entry payload "name" (VStr "Beta")) = false.
Proof.
  split.
  - destruct (proj1 validation_hash_covers_identity_and_location site clock
                (snd (QRCodeGenerator.generate_qr_data site clock)) payload)
      as (siteId & name & lat & lng & h & Hid & Hname & Hlat & Hlng & Hh & Heq & Hlen & _ & _ & Hv).
    + run.
    + exists h. split; [exact Hh|]. split; [|split; [exact Hlen | exact Hv]].
      vm_compute in Hid, Hname, Hlat, Hlng.
      injection Hid as <-. injection Hname as <-. injection Hlat as <-. injection Hlng as <-.
      exact Heq.
  - destruct (QRCodeValidator.validate_site_hash (with_entry payload "name" (VStr "Beta")))
      eqn:E; [exfalso | reflexivity].
    apply (proj2 (proj2 (proj2 (proj2 validation_hash_covers_identity_and_location)))) in E.
    destruct E as (siteId & name & lat & lng & Hid & Hname & Hlat & Hlng & Hs).
    vm_compute in Hid, Hname, Hlat, Hlng.
    injection Hid as <-. injection Hname as <-. injection Hlat as <-. injection Hlng as <-.
    vm_compute in Hs. discriminate Hs.
Defined.

(** The two readings of the sample clock are one microsecond apart. *)
Lemma expiry_is_365_days_after_second_reading_witness :
  py_getitem payload "generatedAt" = Ok (VStr (Datetime.isoformat 63929411223000250)) /\
  py_getitem payload "expiresAt" =
    Ok (VStr (Datetime.isoformat (63929411223000251 + Datetime.timedelta_days 365))).
Proof.
  destruct (expiry_is_365_days_after_second_reading site clock
              (snd (QRCodeGenerator.generate_qr_data site clock)) payload)
    as (Hg & He & _ & _).
  - run.
  - split; [exact Hg | exact He].
Defined.

Lemma isoformat_fraction (t : datetime) :
  str_drop 19 (Datetime.isoformat t) =
  let us := (t mod Datetime.us_per_day) mod Datetime.us_per_second in
  if us =? 0 then EmptyString else String "." (Datetime.zpad 6 us).
Proof.
  unfold Datetime.isoformat.
  destruct (Datetime.ord2ymd (t / Datetime.us_per_day)) as [[y m] d].
  reflexivity.
Qed.

Lemma fraction_after_365_days (t : datetime) :
  ((t + Datetime.timedelta_days 365) mod Datetime.us_per_day) mod Datetime.us_per_second =
  (t mod Datetime.us_per_day) mod Datetime.us_per_second.
Proof.
  unfold Datetime.timedelta_days.
  rewrite Z_mod_plus_full. reflexivity.
Qed.

(** C4 as stated fails on the sample run: the payload shows
    2026-11-04T17:47:03.000250 and 2027-11-04T17:47:03.000251, and no
    instant and that instant plus 365 days are written so. *)
Lemma expiry_is_not_365_days_after_generated :
  fst (QRCodeGenerator.generate_qr_data site clock) = Ok payload /\
  ~ expires_365_days_after_generated payload.
Proof.
  split; [run|].
  intros (t & Hg & He).
  assert (Hg' : Datetime.isoformat t = "2026-11-04T17:47:03.000250")
    by (cbn in Hg; congruence).
  assert (He' : Datetime.isoformat (t + Datetime.timedelta_days 365) =
                "2027-11-04T17:47:03.000251")
    by (cbn in He; congruence).
  apply (f_equal (str_drop 19)) in Hg', He'.
  rewrite isoformat_fraction in Hg', He'.
  rewrite fraction_after_365_days in He'.
  cbv zeta in Hg', He'. rewrite Hg' in He'. discriminate He'.
Qed.

(** A valid sealed payload goes through all four checks; the sealed
    JSON text [[1]] passes the first and gets no reason. *)
Lemma validate_checks_in_order_witness :
  fst (QRCodeValidator.validate_qr_code validator sealed_payload clock) =
    Ok (true, Some payload, QRCodeValidator.msg_valid) /\
  QRCodeValidator.validate_qr_code validator sealed_list clock = (Raise AttributeError, clock).
Proof.
  split.
  - destruct (validate_checks_in_order validator sealed_payload clock) as (_ & H & _).
    destruct (H payload (VBool true)) as (_ & _ & _ & Hv); [run | run | run |].
    apply Hv; run.
  - destruct (validate_checks_in_order validator sealed_list clock)
      as (_ & _ & _ & _ & Hraise & _).
    apply (Hraise (VList [VInt 1])); [run | reflexivity | discriminate].
Defined.

(** The JSON text [[1]], sealed under the repository's key. *)
Lemma validate_raises_on_non_object_witness :
  QRCodeValidator.validate_qr_code validator sealed_list clock = (Raise AttributeError, clock).
Proof.
  apply (validate_raises_on_non_object validator sealed_list (VList [VInt 1]) clock).
  - run.
  - reflexivity.
  - discriminate.
Defined.

(** The sample payload with [isActive] set to false: its hash still
    matches and it has not expired. *)
Lemma inactive_short_circuits_witness :
  QRCodeValidator.validate_site_hash inactive_payload = true /\
  QRCodeValidator.validate_qr_code validator sealed_inactive clock =
  (Ok (false, Some inactive_payload, QRCodeValidator.msg_inactive), clock).
Proof.
  split; [run|].
  apply inactive_short_circuits; run.
Defined.

(** The sample payload without its [isActive] entry. *)
Lemma missing_or_falsy_active_is_inactive_witness :
  QRCodeValidator.validate_qr_code validator sealed_unflagged clock =
  (Ok (false, Some unflagged_payload, QRCodeValidator.msg_inactive), clock).
Proof.
  apply missing_or_falsy_active_is_inactive.
  - run.
  - discriminate.
  - left. run.
Defined.

(** C9 as stated fails on the empty object: it decrypts, it has no
    [isActive] key, and the result is the decryption failure. *)
Lemma empty_object_is_a_decryption_failure :
  QRCodeValidator.decrypt_qr_data validator sealed_empty_object = Some (VDict []) /\
  dict_get [] "isActive" = None /\
  QRCodeValidator.validate_qr_code validator sealed_empty_object clock =
    (Ok (false, None, QRCodeValidator.msg_decrypt_failed), clock) /\
  QRCodeValidator.validate_qr_code validator sealed_empty_object clock <>
    (Ok (false, Some (VDict []), QRCodeValidator.msg_inactive), clock).
Proof.
  split; [run|]. split; [reflexivity|].
  assert (H : QRCodeValidator.validate_qr_code validator sealed_empty_object clock =
              (Ok (false, None, QRCodeValidator.msg_decrypt_failed), clock)) by run.
  split; [exact H|]. rewrite H. discriminate.
Qed.

(** The sample payload without its [expiresAt] entry. *)
Lemma unusable_expiry_is_expired_witness :
  QRCodeValidator.check_expiry undated_payload clock = (Ok false, clock) /\
  QRCodeValidator.validate_qr_code validator sealed_undated clock =
  (Ok (false, Some undated_payload, QRCodeValidator.msg_expired), clock).
Proof.
  apply (unusable_expiry_is_expired validator sealed_undated _ (VBool true) clock); run.
Defined.


End Runs.
(* ------------------------------------------------------------------ *)
(** * Further properties *)

(** ** Encoding a site row *)

Section Encoding.

Context {L : PyLib}.

(** Tries every column as the one whose read raised. *)
Ltac failed_read E :=
  first
    [ exists "id"; split; [cbn; tauto | unfold read_field; cbn; rewrite E; reflexivity]
    | exists "name"; split; [cbn; tauto | unfold read_field; cbn; rewrite E; reflexivity]
    | exists "location"; split; [cbn; tauto | unfold read_field; cbn; rewrite E; reflexivity]
    | exists "latitude"; split; [cbn; tauto | unfold read_field; cbn; rewrite E; reflexivity]
    | exists "longitude"; split; [cbn; tauto | unfold read_field; cbn; rewrite E; reflexivity]
    | exists "safe_level"; split; [cbn; tauto | unfold read_field; cbn; rewrite E; reflexivity]
    | exists "warning_level"; split;
      [cbn; tauto | unfold read_field; cbn; rewrite E; reflexivity]
    | exists "danger_level"; split;
      [cbn; tauto | unfold read_field; cbn; rewrite E; reflexivity]
    | exists "geofence_radius"; split;
      [cbn; tauto | unfold read_field; cbn; rewrite E; reflexivity]
    | exists "qr_code"; split; [cbn; tauto | unfold read_field; cbn; rewrite E; reflexivity]
    | exists "is_active"; split; [cbn; tauto | unfold read_field; cbn; rewrite E; reflexivity] ].

(** When [generate_qr_data] raises, either one of its eleven reads raised
    that exception and the clock was not read, or every read went through,
    the clock was read twice and adding 365 days left the range of dates. *)
Lemma generate_qr_data_raise_inv (site_info : value) (w w' : world) (e : exn) :
  QRCodeGenerator.generate_qr_data site_info w = (Raise e, w') ->
  (w' = w /\ exists k, In k required_fields /\ read_field site_info k = Raise e) \/
  (e = OverflowError /\
   w' = World (time_at w) (S (S (reads w))) /\
   Datetime.add (time_at w (S (reads w))) (Datetime.timedelta_days 365) = Raise OverflowError /\
   forall k, In k required_fields -> exists v, read_field site_info k = Ok v).
Proof.
  unfold QRCodeGenerator.generate_qr_data, mbind, lift, now, ret.
  intros H. cbn -[dict_set] in H.
  repeat match type of H with
         | context [match ?r with Ok _ => _ | Raise _ => _ end] =>
             let E := fresh "E" in
             destruct r eqn:E; cbn -[dict_set] in H;
             [ | try (injection H as <- <-; left; split; [reflexivity | failed_read E]) ]
         end.
  - discriminate H.
  - injection H as <- <-. right.
    assert (Ho : e0 = OverflowError).
    { unfold Datetime.add in E10.
      destruct (_ && _) in E10; [discriminate | now injection E10 as <-]. }
    subst e0. repeat split; trivial.
    intros k Hk. cbn in Hk.
    repeat (destruct Hk as [<- | Hk];
            [unfold read_field; cbn;
             first [rewrite E | rewrite E0 | rewrite E1 | rewrite E2 | rewrite E3 | rewrite E4
                   | rewrite E5 | rewrite E6 | rewrite E7 | rewrite E8 | rewrite E9];
             eexists; reflexivity |]).
    destruct Hk.
Qed.

Lemma read_field_lookup (d : list (string * value)) (k : string) :
  In k required_fields -> dict_get d k = None -> read_field (VDict d) k = Raise (KeyError k).
Proof.
  intros Hk Hnone. cbn in Hk.
  repeat (destruct Hk as [<- | Hk];
          [unfold read_field; cbn; rewrite Hnone; reflexivity |]).
  destruct Hk.
Qed.

(** X1. The three outcomes of [generate_qr_data]: a payload, after every
    read went through and the clock was read twice; or the exception of a
    read that raised, with the clock not read; or OverflowError, after
    every read went through and the clock was read twice, when the second
    reading plus 365 days is past the last date. *)
Theorem generate_qr_data_outcomes (site_info : value) (w : world) :
  let after := World (time_at w) (S (S (reads w))) in
  let all_read := forall k, In k required_fields -> exists v, read_field site_info k = Ok v in
  (exists p,
      QRCodeGenerator.generate_qr_data site_info w = (Ok p, after) /\ all_read /\
      exists items, p = VDict items /\ map fst items = payload_keys) \/
  (exists e k,
      QRCodeGenerator.generate_qr_data site_info w = (Raise e, w) /\
      In k required_fields /\ read_field site_info k = Raise e) \/
  (QRCodeGenerator.generate_qr_data site_info w = (Raise OverflowError, after) /\ all_read /\
   Datetime.add (time_at w (S (reads w))) (Datetime.timedelta_days 365) = Raise OverflowError).
Proof.
  intros after all_read.
  destruct (QRCodeGenerator.generate_qr_data site_info w) as [[p|e] w'] eqn:G.
  - left. exists p.
    apply generate_qr_data_inv in G
      as (id & name & location & lat & lng & safe & warning & danger & radius & qr_code &
          is_active & expires & H1 & H2 & H3 & H4 & H5 & H6 & H7 & H8 & H9 & H10 & H11 &
          _ & -> & ->).
    split; [reflexivity|]. split.
    + intros k Hk. cbn in Hk.
      repeat (destruct Hk as [<- | Hk];
              [unfold read_field; cbn;
               first [rewrite H1 | rewrite H2 | rewrite H3 | rewrite H4 | rewrite H5
                     | rewrite H6 | rewrite H7 | rewrite H8 | rewrite H9 | rewrite H10
                     | rewrite H11];
               eexists; reflexivity |]).
      destruct Hk.
    + eexists. split; reflexivity.
  - apply generate_qr_data_raise_inv in G as [[-> (k & Hk & Hr)] | (-> & -> & Hadd & Hall)].
    + right. left. exists e, k. auto.
    + right. right. auto.
Qed.

(** X2. A row that lacks one of the eleven columns is refused: the call
    raises and the clock is not read; it is the KeyError of the column
    when the row lacks [id], the first one read. *)
Theorem generate_qr_data_missing_field (d : list (string * value)) (k : string) (w : world) :
  In k required_fields ->
  dict_get d k = None ->
  (exists e, QRCodeGenerator.generate_qr_data (VDict d) w = (Raise e, w)) /\
  (k = "id" -> QRCodeGenerator.generate_qr_data (VDict d) w = (Raise (KeyError "id"), w)).
Proof.
  intros Hk Hnone. split.
  - destruct (QRCodeGenerator.generate_qr_data (VDict d) w) as [[p|e] w'] eqn:G.
    + exfalso.
      apply generate_qr_data_inv in G
        as (id & name & location & lat & lng & safe & warning & danger & radius & qr_code &
            is_active & expires & H1 & H2 & H3 & H4 & H5 & H6 & H7 & H8 & H9 & H10 & H11 & _).
      cbn in Hk, H1, H2, H3, H4, H5, H6, H7, H8, H9, H10, H11.
      repeat (destruct Hk as [<- | Hk];
              [rewrite Hnone in *; discriminate |]).
      destruct Hk.
    + apply generate_qr_data_raise_inv in G as [[-> _] | (_ & _ & _ & Hall)]; [eauto|].
      exfalso. destruct (Hall k Hk) as [v Hv].
      rewrite (read_field_lookup d k Hk Hnone) in Hv. discriminate.
  - intros ->. unfold QRCodeGenerator.generate_qr_data, mbind, lift.
    cbn [py_getitem]. rewrite Hnone. reflexivity.
Qed.

(** X3. Columns other than the eleven are not looked at: setting one
    changes nothing in what the call does. *)
Theorem generate_qr_data_ignores_other_columns
    (d : list (string * value)) (k : string) (v : value) (w : world) :
  ~ In k required_fields ->
  QRCodeGenerator.generate_qr_data (VDict (dict_set d k v)) w =
  QRCodeGenerator.generate_qr_data (VDict d) w.
Proof.
  intros Hk. unfold QRCodeGenerator.generate_qr_data. cbn [py_getitem].
  rewrite !dict_get_set_other by (intros ->; apply Hk; cbn; tauto).
  reflexivity.
Qed.

(** X4. The wire format: a payload is a dict of exactly eleven entries in
    a fixed order, with text under [siteId], [name], [location], [qrCode]
    and the two timestamps, floats under the two coordinates and the three
    levels, an integer radius, a Boolean [isActive] and a digest of 16
    characters. *)
Theorem generated_payload_contract (site_info : value) (w w' : world) (p : value) :
  QRCodeGenerator.generate_qr_data site_info w = (Ok p, w') ->
  exists siteId name location lat lng safe warning danger radius qrCode isActive
         generatedAt expiresAt validationHash,
    p = VDict
          [ ("siteId", VStr siteId); ("name", VStr name); ("location", VStr location);
            ("coordinates", VDict [("lat", VFloat lat); ("lng", VFloat lng)]);
            ("levels", VDict [("safe", VFloat safe); ("warning", VFloat warning);
                              ("danger", VFloat danger)]);
            ("geofenceRadius", VInt radius); ("qrCode", VStr qrCode);
            ("isActive", VBool isActive);
            ("generatedAt", VStr generatedAt); ("expiresAt", VStr expiresAt);
            ("validationHash", VStr validationHash) ] /\
    String.length validationHash = 16%nat.
Proof.
  intros G.
  apply generate_qr_data_inv in G
    as (id & name & location & lat & lng & safe & warning & danger & radius & qr_code &
        is_active & expires & _ & _ & _ & _ & _ & _ & _ & _ & _ & _ & _ & _ & -> & _).
  unfold payload. do 14 eexists. split; [reflexivity|].
  apply short_digest_shape.
Qed.

(** X5. Two encodings of the same row at different times differ in
    [generatedAt] and [expiresAt] only: every other entry, the validation
    hash among them, is the same. *)
Theorem generated_payloads_differ_in_time_only
    (site_info : value) (w1 w1' w2 w2' : world) (p1 p2 : value) (k : string) :
  QRCodeGenerator.generate_qr_data site_info w1 = (Ok p1, w1') ->
  QRCodeGenerator.generate_qr_data site_info w2 = (Ok p2, w2') ->
  k <> "generatedAt" -> k <> "expiresAt" ->
  py_getitem p1 k = py_getitem p2 k.
Proof.
  intros G1 G2 Hg He.
  apply generate_qr_data_inv in G1
    as (id & name & location & lat & lng & safe & warning & danger & radius & qr_code &
        is_active & expires & H1 & H2 & H3 & H4 & H5 & H6 & H7 & H8 & H9 & H10 & H11 &
        _ & -> & _).
  apply generate_qr_data_inv in G2
    as (id' & name' & location' & lat' & lng' & safe' & warning' & danger' & radius' &
        qr_code' & is_active' & expires' & H1' & H2' & H3' & H4' & H5' & H6' & H7' & H8' &
        H9' & H10' & H11' & _ & -> & _).
  rewrite H1 in H1'; injection H1' as <-. rewrite H2 in H2'; injection H2' as <-.
  rewrite H3 in H3'; injection H3' as <-. rewrite H4 in H4'; injection H4' as <-.
  rewrite H5 in H5'; injection H5' as <-. rewrite H6 in H6'; injection H6' as <-.
  rewrite H7 in H7'; injection H7' as <-. rewrite H8 in H8'; injection H8' as <-.
  rewrite H9 in H9'; injection H9' as <-. rewrite H10 in H10'; injection H10' as <-.
  rewrite H11 in H11'; injection H11' as <-.
  unfold payload. cbn [py_getitem dict_get].
  apply String.eqb_neq in Hg, He. rewrite Hg, He. reflexivity.
Qed.

(** X6. At the end of the calendar: when every read goes through and the
    second clock reading plus 365 days is past 9999-12-31, the call
    raises OverflowError, which none of its handlers catches. *)
Theorem generate_qr_data_overflow (site_info : value) (w : world) :
  (forall k, In k required_fields -> exists v, read_field site_info k = Ok v) ->
  Datetime.max_ordinal * Datetime.us_per_day <=
    time_at w (S (reads w)) + Datetime.timedelta_days 365 ->
  QRCodeGenerator.generate_qr_data site_info w =
    (Raise OverflowError, World (time_at w) (S (S (reads w)))).
Proof.
  intros Hall Hlate.
  destruct (QRCodeGenerator.generate_qr_data site_info w) as [[p|e] w'] eqn:G.
  - exfalso.
    apply generate_qr_data_inv in G
      as (id & name & location & lat & lng & safe & warning & danger & radius & qr_code &
          is_active & expires & _ & _ & _ & _ & _ & _ & _ & _ & _ & _ & _ & Hadd & _).
    unfold Datetime.add in Hadd.
    destruct (_ <? _) eqn:Hlt in Hadd; [apply Z.ltb_lt in Hlt; lia|].
    rewrite andb_false_r in Hadd. discriminate.
  - apply generate_qr_data_raise_inv in G as [[-> (k & Hk & Hr)] | (-> & -> & _)];
      [|reflexivity].
    destruct (Hall k Hk) as [v Hv]. congruence.
Qed.

End Encoding.

(** ** Validating *)

Section Validating.

Context {L : PyLib}.

Import QRCodeValidator.

Lemma short_digest_not_empty (data : string) :
  String.eqb "" (str_take 16 (sha256_hexdigest data)) = false.
Proof.
  destruct (short_digest_shape data) as [Hlen _].
  destruct (str_take 16 (sha256_hexdigest data)); [discriminate Hlen | reflexivity].
Qed.

Lemma validate_site_hash_payload (id name location : value) (lat lng safe warning danger : float)
    (radius : Z) (qr_code is_active : value) (generated expires : datetime) :
  validate_site_hash
    (payload id name location lat lng safe warning danger radius qr_code is_active
       generated expires) = true.
Proof. unfold validate_site_hash, payload. cbn. apply String.eqb_refl. Qed.

(** X7. The validator accepts the stored hash exactly when the payload is
    a dict that stores, as text, the hash [create_validation_hash]
    computes for it; where the generator's function raises (a field is
    missing), the validator's returns false. *)
Theorem validate_site_hash_true_iff (d : value) :
  validate_site_hash d = true <->
  exists items h,
    d = VDict items /\
    dict_get items "validationHash" = Some (VStr h) /\
    QRCodeGenerator.create_validation_hash d = Ok h.
Proof.
  rewrite validate_site_hash_text, create_validation_hash_text.
  split.
  - destruct d as [| | | | | |items]; try discriminate.
    cbn [py_get bind]. destruct (hashed_text (VDict items)) as [s|e]; [|discriminate].
    cbn [bind try_except].
    destruct (dict_get items "validationHash") as [[| | | |h| |]|] eqn:Hs; cbn [eq_str];
      try discriminate; try (now rewrite short_digest_not_empty).
    intros H. apply String.eqb_eq in H. subst h. eauto.
  - intros (items & h & -> & Hs & Hh). cbn [py_get]. rewrite Hs. cbn [bind].
    destruct (hashed_text (VDict items)) as [s|e]; [|discriminate].
    cbn [bind try_except eq_str] in *. injection Hh as <-. apply String.eqb_refl.
Qed.

(** X8. From encoding to validation: when the validator decrypts a payload
    that [generate_qr_data] produced, the hash check never fails; the
    result is the inactive one if the row's [is_active] was falsy, and
    otherwise the valid one while the clock is before the second reading
    of the encoding plus 365 days, the expired one from then on. *)
Theorem validate_generated_payload (self : t) (qr_content : string) (site_info : value)
    (w w1 w2 : world) (p : value) :
  QRCodeGenerator.generate_qr_data site_info w = (Ok p, w1) ->
  decrypt_qr_data self qr_content = Some p ->
  let expires := time_at w (S (reads w)) + Datetime.timedelta_days 365 in
  fromisoformat (Datetime.isoformat expires) = Some (Naive expires) ->
  exists is_active,
    py_getitem site_info "is_active" = Ok is_active /\
    validate_qr_code self qr_content w2 =
      if truthy is_active then
        if time_at w2 (reads w2) <? expires
        then (Ok (true, Some p, msg_valid), World (time_at w2) (S (reads w2)))
        else (Ok (false, Some p, msg_expired), World (time_at w2) (S (reads w2)))
      else (Ok (false, Some p, msg_inactive), w2).
Proof.
  intros G Hd expires Hiso.
  apply generate_qr_data_inv in G
    as (id & name & location & lat & lng & safe & warning & danger & radius & qr_code &
        is_active & exp & _ & _ & _ & _ & _ & _ & _ & _ & _ & _ & Ha & Hadd & -> & _).
  apply add_Ok in Hadd. fold expires in Hadd. subst exp.
  exists is_active. split; [exact Ha|].
  unfold validate_qr_code, mbind, lift, ret. rewrite Hd.
  rewrite validate_site_hash_payload.
  unfold payload at 1 2. cbn [truthy negb py_get dict_get String.eqb Ascii.eqb Bool.eqb].
  destruct (truthy is_active); cbn [negb]; [|reflexivity].
  unfold check_expiry, payload, mbind, now, ret.
  cbn [py_get dict_get String.eqb Ascii.eqb Bool.eqb]. rewrite Hiso.
  cbn [time_at reads]. destruct (_ <? _); reflexivity.
Qed.

(** X9. The expiry test is strict: a payload that passes the first three
    checks and whose [expiresAt] parses to a naive instant is valid while
    the clock reads less than that instant, and expired when it reads that
    instant or more; the clock is read once. *)
Theorem expiry_is_strict (self : t) (qr_content : string) (items : list (string * value))
    (a : value) (s : string) (e : datetime) (w : world) :
  decrypt_qr_data self qr_content = Some (VDict items) ->
  dict_get items "isActive" = Some a ->
  truthy a = true ->
  validate_site_hash (VDict items) = true ->
  dict_get items "expiresAt" = Some (VStr s) ->
  fromisoformat s = Some (Naive e) ->
  let current := time_at w (reads w) in
  let after := World (time_at w) (S (reads w)) in
  (current < e ->
   validate_qr_code self qr_content w = (Ok (true, Some (VDict items), msg_valid), after)) /\
  (e <= current ->
   validate_qr_code self qr_content w = (Ok (false, Some (VDict items), msg_expired), after)).
Proof.
  intros Hd Ha Ht Hh Hs Hp current after.
  assert (Hv : validate_qr_code self qr_content w =
               if current <? e
               then (Ok (true, Some (VDict items), msg_valid), after)
               else (Ok (false, Some (VDict items), msg_expired), after)).
  { unfold validate_qr_code, mbind, lift, ret. rewrite Hd.
    destruct items as [|kv r]; [discriminate|].
    cbn [truthy negb py_get]. rewrite Ha, Ht, Hh. cbn [negb].
    unfold check_expiry, mbind, now, ret. cbn [py_get]. rewrite Hs, Hp.
    fold current after. destruct (current <? e); reflexivity. }
  split; intros Hc; rewrite Hv.
  - apply Z.ltb_lt in Hc. now rewrite Hc.
  - apply Z.ltb_ge in Hc. now rewrite Hc.
Qed.

(** X10. An [expiresAt] that carries an offset from UTC parses to an aware
    datetime, which cannot be compared with the naive [datetime.now()]:
    such a payload is reported expired whatever the instant is. *)
Theorem aware_expiry_is_expired (self : t) (qr_content : string)
    (items : list (string * value)) (a : value) (s : string) (e offset : Z) (w : world) :
  decrypt_qr_data self qr_content = Some (VDict items) ->
  dict_get items "isActive" = Some a ->
  truthy a = true ->
  validate_site_hash (VDict items) = true ->
  dict_get items "expiresAt" = Some (VStr s) ->
  fromisoformat s = Some (Aware e offset) ->
  validate_qr_code self qr_content w =
    (Ok (false, Some (VDict items), msg_expired), World (time_at w) (S (reads w))).
Proof.
  intros Hd Ha Ht Hh Hs Hp.
  unfold validate_qr_code, mbind, lift, ret. rewrite Hd.
  destruct items as [|kv r]; [discriminate|].
  cbn [truthy negb py_get]. rewrite Ha, Ht, Hh. cbn [negb].
  unfold check_expiry, mbind, now, ret. cbn [py_get]. rewrite Hs, Hp. reflexivity.
Qed.

(** X11. The response cannot be built from a payload of the generator:
    [get_site_validation_response] asks for [riverName], which
    [generate_qr_data] does not store, and raises its KeyError before the
    clock is read. *)
Theorem response_of_generated_payload_raises (self : t) (site_info : value)
    (w w1 w2 : world) (p : value) :
  QRCodeGenerator.generate_qr_data site_info w = (Ok p, w1) ->
  get_site_validation_response self p w2 = (Raise (KeyError "riverName"), w2).
Proof.
  intros G.
  apply generate_qr_data_inv in G
    as (id & name & location & lat & lng & safe & warning & danger & radius & qr_code &
        is_active & exp & _ & _ & _ & _ & _ & _ & _ & _ & _ & _ & _ & _ & -> & _).
  reflexivity.
Qed.

(** X12. When [get_site_validation_response] returns, the input was a dict
    holding all thirteen keys, the clock was read once, and the response
    reports success, the site's own levels, its radius, its coordinates
    both as the site's position and as the centre of the geofence, and
    the reading of the clock as [validatedAt]. *)
Theorem response_content (self : t) (site_data : value) (w w' : world) (r : value) :
  get_site_validation_response self site_data w = (Ok r, w') ->
  w' = World (time_at w) (S (reads w)) /\
  (forall k, In k response_fields -> exists v, py_getitem site_data k = Ok v) /\
  py_getitem r "success" = Ok (VBool true) /\
  py_getitem r "levels" = py_getitem site_data "levels" /\
  (g <~ py_getitem r "geofence" ;; py_getitem g "radius") =
    py_getitem site_data "geofenceRadius" /\
  (g <~ py_getitem r "geofence" ;; py_getitem g "center") =
    py_getitem site_data "coordinates" /\
  (i <~ py_getitem r "siteInfo" ;; py_getitem i "coordinates") =
    py_getitem site_data "coordinates" /\
  (v <~ py_getitem r "validation" ;; py_getitem v "validatedAt") =
    Ok (VStr (Datetime.isoformat (time_at w (reads w)))).
Proof.
  unfold get_site_validation_response, mbind, lift, now, ret.
  intros H. cbn in H. bind_inv H.
  injection H as <- <-.
  split; [reflexivity|]. split.
  - intros k Hk. cbn in Hk.
    repeat (destruct Hk as [<- | Hk]; [eauto |]). destruct Hk.
  - repeat split; rewrite ?E5, ?E8, ?E9; reflexivity.
Qed.

(** X13. A dict that lacks one of the thirteen keys gets no response: the
    call raises a KeyError. The clock is not read, unless [generatedAt]
    is the one key that is missing. *)
Theorem response_missing_key (self : t) (d : list (string * value)) (k : string) (w : world) :
  In k response_fields ->
  dict_get d k = None ->
  exists k' w',
    get_site_validation_response self (VDict d) w = (Raise (KeyError k'), w') /\
    In k' response_fields /\ dict_get d k' = None /\
    (k' <> "generatedAt" -> w' = w).
Proof.
  intros Hk Hnone.
  unfold get_site_validation_response, mbind, lift, now, ret. cbn [py_getitem].
  repeat match goal with
         | |- context [of_option (dict_get d ?key) _] =>
             let E := fresh "E" in
             destruct (dict_get d key) as [?|] eqn:E; cbn -[response_fields];
             [ | solve [ eexists key, _; split; [reflexivity|]; split; [cbn; tauto|];
                         split; [exact E|]; first [ intros _; reflexivity | congruence ] ] ]
         end.
  exfalso. cbn in Hk.
  repeat (destruct Hk as [<- | Hk]; [congruence |]). destruct Hk.
Qed.

End Validating.

(** ** The geofence, further *)

Section Geofence.

Context {L : PyLib}.

Local Open Scope R_scope.




(** X17. The site's entries are looked up before anything is computed:
    site data without [coordinates], or whose [coordinates] lack [lat] or
    [lng], raise the KeyError of that key whatever the user's coordinates
    are, and [coordinates] that are not a dict raise TypeError. *)
Theorem proximity_lookups_come_first (user_lat user_lng : float) (d : list (string * value)) :
  (dict_get d "coordinates" = None ->
   validate_location_proximity user_lat user_lng (VDict d) = Raise (KeyError "coordinates")) /\
  (forall c k,
      dict_get d "coordinates" = Some (VDict c) ->
      (k = "lat" \/ k = "lng" /\ dict_get c "lat" <> None) ->
      dict_get c k = None ->
      validate_location_proximity user_lat user_lng (VDict d) = Raise (KeyError k)) /\
  (forall v,
      dict_get d "coordinates" = Some v ->
      (forall c, v <> VDict c) ->
      validate_location_proximity user_lat user_lng (VDict d) = Raise TypeError).
Proof.
  unfold validate_location_proximity. cbn [py_getitem]. repeat split.
  - now intros ->.
  - intros c k -> Hk Hnone. cbn [of_option bind py_getitem].
    destruct Hk as [-> | [-> Hlat]].
    + now rewrite Hnone.
    + destruct (dict_get c "lat"); [|congruence]. cbn [of_option bind]. now rewrite Hnone.
  - intros v -> Hv. cbn [of_option bind].
    destruct v as [| | | | | |c]; try reflexivity. now destruct (Hv c).
Qed.


Local Close Scope R_scope.

End Geofence.

(** ** Names of files and labels *)

Section Names.

Context {L : PyLib} {H : Host}.

Lemma str_replace_char_length (old new : ascii) (s : string) :
  String.length (str_replace_char old new s) = String.length s.
Proof. induction s as [|c r IH]; cbn; [reflexivity | now rewrite IH]. Qed.

Lemma safe_name_cons (c : ascii) (r : string) :
  safe_name (String c r) = String (if is_separator c then "_"%char else c) (safe_name r).
Proof.
  unfold safe_name, is_separator. cbn [str_replace_char]. f_equal.
  destruct (Ascii.eqb c "-") eqn:E1; [reflexivity|].
  destruct (Ascii.eqb c "/") eqn:E2; [reflexivity|].
  destruct (Ascii.eqb c backslash) eqn:E3; reflexivity.
Qed.

Lemma safe_name_clean (s : string) :
  str_forall (fun c => negb (is_separator c)) (safe_name s) = true.
Proof.
  induction s as [|c r IH]; [reflexivity|].
  rewrite safe_name_cons. cbn [str_forall]. rewrite IH, andb_true_r.
  destruct (is_separator c) eqn:E; [reflexivity | now rewrite E].
Qed.

Lemma safe_name_of_clean (s : string) :
  str_forall (fun c => negb (is_separator c)) s = true -> safe_name s = s.
Proof.
  induction s as [|c r IH]; [reflexivity|].
  cbn [str_forall]. intros Hs. apply andb_true_iff in Hs as [Hc Hr].
  rewrite safe_name_cons, IH by assumption.
  apply negb_true_iff in Hc. now rewrite Hc.
Qed.

(** X19. The name made from a site id or a QR label has the length of the
    original, holds none of [-], [/] and [\], leaves a name without them
    as it is, and is not changed by a second pass. *)
Theorem safe_name_properties (s : string) :
  String.length (safe_name s) = String.length s /\
  str_forall (fun c => negb (is_separator c)) (safe_name s) = true /\
  (str_forall (fun c => negb (is_separator c)) s = true -> safe_name s = s) /\
  safe_name (safe_name s) = safe_name s.
Proof.
  split; [|split; [|split]].
  - unfold safe_name. now rewrite !str_replace_char_length.
  - apply safe_name_clean.
  - apply safe_name_of_clean.
  - apply safe_name_of_clean, safe_name_clean.
Qed.

Lemma py_len_app (a b : string) : py_len (a ++ b) = (py_len a + py_len b)%nat.
Proof.
  induction a as [|c r IH]; [reflexivity|].
  cbn [append py_len]. destruct (is_continuation c); cbn; now rewrite IH.
Qed.

Lemma py_len_slice (n : nat) (s : string) : py_len (py_slice_to n s) = Nat.min n (py_len s).
Proof.
  revert n. induction s as [|c r IH]; intros n.
  - cbn. now rewrite Nat.min_0_r.
  - cbn [py_slice_to py_len]. destruct (is_continuation c) eqn:E.
    + cbn [py_len]. rewrite E. apply IH.
    + destruct n as [|k]; [reflexivity|]. cbn [py_len]. rewrite E, IH. reflexivity.
Qed.

(** X20. The second line of the label never has more than 40 characters:
    name and location joined by a comma are printed whole when they fit,
    and otherwise as their first 37 characters and three dots. *)
Theorem label_text_fits (name location : value) :
  let whole := (py_str name ++ ", " ++ py_str location)%string in
  (py_len (QRCodeGeneratorIO.label_text name location) <= 40)%nat /\
  ((py_len whole <= 40)%nat -> QRCodeGeneratorIO.label_text name location = whole) /\
  ((40 < py_len whole)%nat ->
   QRCodeGeneratorIO.label_text name location = (py_slice_to 37 whole ++ "...")%string /\
   py_len (QRCodeGeneratorIO.label_text name location) = 40%nat).
Proof.
  intros whole. unfold QRCodeGeneratorIO.label_text. fold whole.
  destruct (40 <? py_len whole)%nat eqn:E.
  - apply Nat.ltb_lt in E.
    assert (Hl : py_len (py_slice_to (40 - 3) whole ++ "...") = 40%nat).
    { rewrite py_len_app, py_len_slice.
      change (py_len "...") with 3%nat. change (40 - 3)%nat with 37%nat. lia. }
    split; [lia|]. split; [lia|]. intros _. split; [reflexivity | exact Hl].
  - apply Nat.ltb_ge in E. split; [exact E|]. split; [reflexivity | lia].
Qed.

End Names.

(** ** Empty cells *)

Section Cells.

Context {L : PyLib}.

Lemma dict_set_app (a b : list (string * value)) (k : string) (v x : value) :
  ~ In k (map fst a) ->
  dict_set (a ++ (k, v) :: b) k x = a ++ (k, x) :: b.
Proof.
  induction a as [|[k' v'] a IH]; intros Hn; cbn.
  - now rewrite String.eqb_refl.
  - destruct (String.eqb k k') eqn:E.
    + apply String.eqb_eq in E. subst. exfalso. apply Hn. now left.
    + rewrite IH; [reflexivity|]. intros Hin. apply Hn. now right.
Qed.

Lemma map_fst_filled (d : list (string * value)) : map fst (map filled d) = map fst d.
Proof.
  induction d as [|[k v] d IH]; [reflexivity|]. cbn. rewrite IH. f_equal.
  unfold filled. cbn. now destruct (isna v).
Qed.

Lemma replace_missing_loop (pre rest : list (string * value)) :
  NoDup (map fst (pre ++ rest)) ->
  fold_left
    (fun acc kv => if isna (snd kv) then dict_set acc (fst kv) (missing_default (fst kv)) else acc)
    rest (map filled pre ++ rest) = map filled (pre ++ rest).
Proof.
  revert pre. induction rest as [|[k v] rest IH]; intros pre Hnd.
  - cbn. now rewrite !app_nil_r.
  - cbn [fold_left fst snd].
    assert (Hk : ~ In k (map fst (map filled pre))).
    { rewrite map_fst_filled. rewrite map_app in Hnd. cbn in Hnd.
      apply NoDup_remove_2 in Hnd. intros Hin. apply Hnd, in_or_app. now left. }
    assert (Hstep : (if isna v
                     then dict_set (map filled pre ++ (k, v) :: rest) k (missing_default k)
                     else map filled pre ++ (k, v) :: rest)
                    = map filled (pre ++ [(k, v)]) ++ rest).
    { rewrite map_app, <- app_assoc. cbn. unfold filled at 2 4. cbn [fst snd].
      destruct (isna v); [now apply dict_set_app | reflexivity]. }
    rewrite Hstep, IH; rewrite <- app_assoc; [reflexivity | exact Hnd].
Qed.

Lemma replace_missing_map (d : list (string * value)) :
  NoDup (map fst d) -> replace_missing d = map filled d.
Proof. intros Hnd. exact (replace_missing_loop [] d Hnd). Qed.

Lemma dict_get_filled (d : list (string * value)) (k : string) :
  dict_get (map filled d) k =
  option_map (fun v => if isna v then missing_default k else v) (dict_get d k).
Proof.
  induction d as [|[k' v] d IH]; [reflexivity|].
  cbn [map]. unfold filled at 1. cbn [fst snd].
  destruct (isna v) eqn:Ev; cbn [dict_get]; destruct (String.eqb k k') eqn:E;
    try exact IH; cbn [option_map]; rewrite ?Ev; try reflexivity.
  apply String.eqb_eq in E. now subst.
Qed.

Lemma missing_default_present (k : string) : isna (missing_default k) = false.
Proof.
  unfold missing_default.
  destruct (existsb (String.eqb k) numeric_columns); [reflexivity|].
  now destruct (String.eqb k "is_active").
Qed.

(** X21. The loop over the cells of a row in [generate_all_qr_codes]
    keeps the columns and their order, leaves no cell missing, does not
    touch a cell that is present, and puts the default of its column in
    place of a missing one. *)
Theorem replace_missing_cells (d : list (string * value)) :
  NoDup (map fst d) ->
  map fst (replace_missing d) = map fst d /\
  (forall k v, dict_get d k = Some v ->
     dict_get (replace_missing d) k = Some (if isna v then missing_default k else v)) /\
  (forall k, dict_get d k = None -> dict_get (replace_missing d) k = None) /\
  (forall k v, dict_get (replace_missing d) k = Some v -> isna v = false).
Proof.
  intros Hnd. rewrite (replace_missing_map d Hnd).
  split; [apply map_fst_filled|]. split; [|split].
  - intros k v Hk. now rewrite dict_get_filled, Hk.
  - intros k Hk. now rewrite dict_get_filled, Hk.
  - intros k v. rewrite dict_get_filled.
    destruct (dict_get d k) as [x|]; [|discriminate]. cbn.
    destruct (isna x) eqn:Ex; intros [= <-]; [apply missing_default_present | exact Ex].
Qed.

(** X22. What an empty cell becomes in the payload. After the loop over
    the cells, a row that [generate_qr_data] accepts is encoded with an
    empty [is_active] cell as an active site, an empty [geofence_radius]
    as a radius of 0, an empty [latitude] or [longitude] as 0.0, and an
    empty [name] as the empty text. *)
Theorem empty_cells_in_payload (d : list (string * value)) (w w' : world) (p : value) :
  NoDup (map fst d) ->
  QRCodeGenerator.generate_qr_data (VDict (replace_missing d)) w = (Ok p, w') ->
  let empty k := exists v, dict_get d k = Some v /\ isna v = true in
  (empty "is_active" -> py_getitem p "isActive" = Ok (VBool true)) /\
  (empty "geofence_radius" -> py_getitem p "geofenceRadius" = Ok (VInt 0)) /\
  (empty "latitude" -> coordinate p "lat" = Ok (VFloat 0%float)) /\
  (empty "longitude" -> coordinate p "lng" = Ok (VFloat 0%float)) /\
  (empty "name" -> py_getitem p "name" = Ok (VStr "")).
Proof.
  intros Hnd G empty.
  assert (Hcell : forall k, empty k ->
            py_getitem (VDict (replace_missing d)) k = Ok (missing_default k)).
  { intros k (v & Hk & Hv). cbn [py_getitem].
    rewrite (replace_missing_map d Hnd), dict_get_filled, Hk. cbn. rewrite Hv. reflexivity. }
  apply generate_qr_data_inv in G
    as (id & name & location & lat & lng & safe & warning & danger & radius & qr_code &
        is_active & expires & _ & H2 & _ & H4 & H5 & _ & _ & _ & H9 & _ & H11 &
        _ & -> & _).
  unfold payload, coordinate. cbn [py_getitem dict_get String.eqb Ascii.eqb Bool.eqb of_option bind].
  split; [|split; [|split; [|split]]]; intros He; apply Hcell in He.
  - rewrite He in H11. injection H11 as <-. reflexivity.
  - rewrite He in H9. cbn in H9. injection H9 as <-. reflexivity.
  - rewrite He in H4. cbn in H4. injection H4 as <-. reflexivity.
  - rewrite He in H5. cbn in H5. injection H5 as <-. reflexivity.
  - rewrite He in H2. injection H2 as <-. reflexivity.
Qed.

End Cells.

(** ** Image files and the export of one site *)

Section Files.

Context {L : PyLib} {H : Host}.

Import QRCodeGeneratorIO.

(** One step of a run on the host: the outcome of an operation of the
    host, or of a step of the program. *)
Ltac io_step Hrun :=
  match type of Hrun with
  | context [io_host ?op ?st] =>
      unfold io_host at 1 in Hrun;
      let r := fresh "r" in let h := fresh "h" in let E := fresh "E" in
      destruct (op (snd st)) as [r h] eqn:E; destruct r as [[]|?];
      cbv beta iota zeta in Hrun; [ | discriminate Hrun ]
  end.

Lemma file_stem_inv (site_info : value) (sid stem : string) :
  file_stem site_info sid = Ok stem ->
  exists q, py_get site_info "qr_code" (VStr "") = Ok (VStr q) /\
            stem = (if String.eqb q "" then "QR_" ++ sid else safe_name q)%string.
Proof.
  unfold file_stem. destruct (py_get site_info "qr_code" (VStr "")) as [v|e]; [|discriminate].
  cbn [bind]. destruct v; try discriminate. cbn [py_safe_name bind].
  intros Hs. exists s. split; [reflexivity|].
  destruct s as [|c r]; [cbn in Hs |- *; congruence|].
  rewrite safe_name_cons in Hs. cbn in Hs. rewrite safe_name_cons. cbn. congruence.
Qed.

Lemma file_stem_clean (site_info : value) (sid stem : string) :
  file_stem site_info sid = Ok stem ->
  str_forall (fun c => negb (is_separator c)) sid = true ->
  stem <> ""%string /\ str_forall (fun c => negb (is_separator c)) stem = true.
Proof.
  intros Hs Hc. apply file_stem_inv in Hs as (q & _ & ->).
  destruct q as [|c r].
  - cbn [String.eqb]. split; [discriminate|]. cbn. exact Hc.
  - cbn [String.eqb]. split; [rewrite safe_name_cons; discriminate | apply safe_name_clean].
Qed.

Lemma io_bind_Done {A B} (m : IO A) (k : A -> IO B) (st st' : world * host) (b : B) :
  io_bind m k st = (Done b, st') ->
  exists a st1, m st = (Done a, st1) /\ k a st1 = (Done b, st').
Proof.
  unfold io_bind. destruct (m st) as [[a|f] st1]; [|discriminate].
  intros Hk. now exists a, st1.
Qed.

Lemma io_py_Done {A} (r : result A) (st st' : world * host) (a : A) :
  io_py r st = (Done a, st') -> r = Ok a /\ st' = st.
Proof. unfold io_py. destruct r; [|discriminate]. intros [= -> ->]. now split. Qed.

Lemma safe_id_inv (site_info : value) (sid : string) :
  (v <~ py_getitem site_info "id" ;; py_safe_name v) = Ok sid ->
  exists id, py_getitem site_info "id" = Ok (VStr id) /\ sid = safe_name id.
Proof.
  destruct (py_getitem site_info "id") as [v|e]; [|discriminate].
  cbn [bind]. destruct v; try discriminate. intros [= <-]. now exists s.
Qed.

Ltac io_inv Hrun :=
  repeat
    (let a := fresh "a" in let st1 := fresh "st" in let E := fresh "E" in
     apply io_bind_Done in Hrun as (a & st1 & E & Hrun)).

Lemma io_host_Done {A} (op : host -> outcome A * host) (st st' : world * host) (a : A) :
  io_host op st = (Done a, st') -> fst st' = fst st.
Proof. unfold io_host. destruct (op (snd st)) as [r h]. now intros [= _ <-]. Qed.

Lemma io_ret_Done {A} (a b : A) (st st' : world * host) :
  io_ret a st = (Done b, st') -> b = a /\ st' = st.
Proof. unfold io_ret. now intros [= -> ->]. Qed.

(** The steps of a run that came to its end. *)
Ltac io_facts :=
  repeat match goal with
  | E : io_host _ _ = (Done _, _) |- _ => apply io_host_Done in E
  | E : io_py _ _ = (Done _, _) |- _ => apply io_py_Done in E as [? ?]
  | E : io_ret _ _ = (Done _, _) |- _ => apply io_ret_Done in E as [? ?]
  end.

Lemma labelled_path (g : QRCodeGenerator.t) (e : entropy) (data site_info : value)
    (st st' : world * host) (f : string) :
  create_qr_code_with_label g e data site_info st = (Done f, st') ->
  exists id stem,
    py_getitem site_info "id" = Ok (VStr id) /\
    file_stem site_info (safe_name id) = Ok stem /\
    f = path_join (path_join QR_OUTPUT_DIR (safe_name id)) (stem ++ ".png") /\
    fst st' = fst st.
Proof.
  unfold create_qr_code_with_label. intros Hrun. io_inv Hrun. io_facts.
  match goal with
  | E : (v <~ py_getitem site_info "id" ;; py_safe_name v) = Ok _ |- _ =>
      apply safe_id_inv in E as (id & Hid & ->)
  end.
  exists id. eexists. subst. repeat split; try eassumption; congruence.
Qed.

Lemma simple_path (g : QRCodeGenerator.t) (e : entropy) (data site_info : value)
    (st st' : world * host) (f : string) :
  create_simple_qr_code g e data site_info st = (Done f, st') ->
  exists id stem,
    py_getitem site_info "id" = Ok (VStr id) /\
    file_stem site_info (safe_name id) = Ok stem /\
    f = path_join (path_join QR_OUTPUT_DIR (safe_name id)) (stem ++ "_simple.png") /\
    fst st' = fst st.
Proof.
  unfold create_simple_qr_code. intros Hrun. io_inv Hrun. io_facts.
  match goal with
  | E : (v <~ py_getitem site_info "id" ;; py_safe_name v) = Ok _ |- _ =>
      apply safe_id_inv in E as (id & Hid & ->)
  end.
  exists id. eexists. subst. repeat split; try eassumption; congruence.
Qed.

(** X23. Where the images go. An image that either renderer stores is a
    file of the directory named after the site id with [-], [/] and [\]
    replaced; its name is the row's QR label with the same replacement,
    or [QR_] and the directory name when the label is absent or empty,
    followed by [.png] for the labelled image and [_simple.png] for the
    plain one. Neither name is empty or holds one of the three
    characters, the id and the label are text, and the clock is not
    read. *)
Theorem image_file_names (g : QRCodeGenerator.t) (e : entropy) (data site_info : value)
    (st st' : world * host) (f : string) (simple : bool) :
  (if simple then create_simple_qr_code g e data site_info st
   else create_qr_code_with_label g e data site_info st) = (Done f, st') ->
  exists id label,
    py_getitem site_info "id" = Ok (VStr id) /\
    py_get site_info "qr_code" (VStr "") = Ok (VStr label) /\
    let stem := (if String.eqb label "" then "QR_" ++ safe_name id else safe_name label)%string in
    f = path_join (path_join QR_OUTPUT_DIR (safe_name id))
          (stem ++ (if simple then "_simple.png" else ".png")) /\
    stem <> ""%string /\
    str_forall (fun c => negb (is_separator c)) (safe_name id) = true /\
    str_forall (fun c => negb (is_separator c)) stem = true /\
    fst st' = fst st.
Proof.
  intros Hrun.
  assert (Hp : exists id stem,
             py_getitem site_info "id" = Ok (VStr id) /\
             file_stem site_info (safe_name id) = Ok stem /\
             f = path_join (path_join QR_OUTPUT_DIR (safe_name id))
                   (stem ++ (if simple then "_simple.png" else ".png")) /\
             fst st' = fst st).
  { destruct simple; [eapply simple_path | eapply labelled_path]; eassumption. }
  destruct Hp as (id & stem & Hid & Hstem & Hf & Hw).
  pose proof (file_stem_clean _ _ _ Hstem (safe_name_clean id)) as [Hne Hcl].
  apply file_stem_inv in Hstem as (label & Hq & ->).
  exists id, label. cbv zeta.
  split; [assumption|]. split; [assumption|]. split; [assumption|].
  split; [assumption|]. split; [apply safe_name_clean|]. split; assumption.
Qed.

Lemma clock_kept_bind {A B} (m : IO A) (k : A -> IO B) :
  clock_kept m -> (forall a, clock_kept (k a)) -> clock_kept (io_bind m k).
Proof.
  intros Hm Hk st. unfold io_bind. specialize (Hm st).
  destruct (m st) as [[a|f] st1]; cbn in Hm |- *; [|assumption].
  rewrite Hk. assumption.
Qed.

Lemma clock_kept_host {A} (op : host -> outcome A * host) : clock_kept (io_host op).
Proof. intros st. unfold io_host. now destruct (op (snd st)). Qed.

Lemma clock_kept_py {A} (r : result A) : clock_kept (io_py r).
Proof. intros st. unfold io_py. now destruct r. Qed.

Lemma clock_kept_ret {A} (a : A) : clock_kept (io_ret a).
Proof. intros st. reflexivity. Qed.

Ltac clock_kept :=
  repeat first
    [ apply clock_kept_bind; [ | intros ? ]
    | apply clock_kept_host
    | apply clock_kept_py
    | apply clock_kept_ret ].

Lemma labelled_keeps_clock (g : QRCodeGenerator.t) (e : entropy) (data site_info : value) :
  clock_kept (create_qr_code_with_label g e data site_info).
Proof. unfold create_qr_code_with_label. clock_kept. Qed.

Lemma simple_keeps_clock (g : QRCodeGenerator.t) (e : entropy) (data site_info : value) :
  clock_kept (create_simple_qr_code g e data site_info).
Proof. unfold create_simple_qr_code. clock_kept. Qed.

(** What [generate_qr_for_site] gives back, and from which steps. *)
Lemma generate_qr_for_site_inv (site_data : value) (g : QRCodeGenerator.t) (e1 e2 : entropy)
    (st st' : world * host) (out : outcome (option string * option value)) :
  generate_qr_for_site site_data g e1 e2 st = (out, st') ->
  out = Done (None, None) \/
  exists id p f w1 st1,
    py_getitem site_data "id" = Ok (VStr id) /\
    QRCodeGenerator.generate_qr_data site_data (fst st) = (Ok p, w1) /\
    out = Done (Some f, Some p) /\
    fst st' = w1 /\
    (create_qr_code_with_label g e1 p site_data (w1, snd st) = (Done f, st1) \/
     exists f0 st0,
       create_qr_code_with_label g e1 p site_data (w1, snd st) = (Failed f0, st0) /\
       create_simple_qr_code g e2 p site_data st0 = (Done f, st1)).
Proof.
  unfold generate_qr_for_site, io_try.
  match goal with
  | |- context [match ?m st with _ => _ end] => destruct (m st) as [[r|x] st2] eqn:Hrun
  end.
  2:{ unfold io_ret. intros [= <- <-]. now left. }
  intros [= <- <-].
  apply io_bind_Done in Hrun as (site_id & st3 & E1 & Hrun).
  apply io_py_Done in E1 as [Hid ->].
  apply io_bind_Done in Hrun as (p & st4 & E2 & Hrun).
  unfold io_clock in E2.
  destruct (QRCodeGenerator.generate_qr_data site_data (fst st)) as [[p'|x] w1] eqn:Hgen;
    [|discriminate].
  injection E2 as -> <-.
  assert (Hexport : forall f st5,
             (safe_site_id <<- io_py (py_safe_name site_id) ;;
              _ <<- io_host (makedirs (path_join QR_OUTPUT_DIR safe_site_id)) ;;
              _ <<- io_host (dump_json
                      (path_join (path_join QR_OUTPUT_DIR safe_site_id)
                         ("site_data_" ++ safe_site_id ++ ".json")) p) ;;
              io_ret (Some f, Some p)) st5 = (Done r, st2) ->
             r = (Some f, Some p) /\ fst st2 = fst st5 /\ exists id, site_id = VStr id).
  { intros f st5 Hx. io_inv Hx. io_facts. subst.
    split; [reflexivity|]. split; [congruence|].
    destruct site_id; try discriminate. now eexists. }
  destruct (create_qr_code_with_label g e1 p site_data (w1, snd st)) as [[f|f0] st5] eqn:Hl.
  - apply Hexport in Hrun as (-> & Hw & id & ->).
    right. exists id, p, f, w1, st5. split; [assumption|]. split; [reflexivity|].
    split; [reflexivity|]. split.
    + pose proof (labelled_keeps_clock g e1 p site_data (w1, snd st)) as Hk.
      rewrite Hl in Hk. cbn in Hk. congruence.
    + now left.
  - destruct (create_simple_qr_code g e2 p site_data st5) as [[f|f1] st6] eqn:Hs.
    + apply Hexport in Hrun as (-> & Hw & id & ->).
      right. exists id, p, f, w1, st6. split; [assumption|]. split; [reflexivity|].
      split; [reflexivity|]. split.
      * pose proof (labelled_keeps_clock g e1 p site_data (w1, snd st)) as Hk.
        rewrite Hl in Hk. pose proof (simple_keeps_clock g e2 p site_data st5) as Hk'.
        rewrite Hs in Hk'. cbn in Hk, Hk'. congruence.
      * right. now exists f0, st5.
    + injection Hrun as <- <-. now left.
Qed.

(** X24. [generate_qr_for_site] never raises, whatever the row, the
    clock and the host do (printing is taken not to fail): it gives back
    a file path together with the payload, or [(None, None)], never one
    without the other. *)
Theorem generate_qr_for_site_never_raises (site_data : value) (g : QRCodeGenerator.t)
    (e1 e2 : entropy) (st : world * host) :
  exists r st',
    generate_qr_for_site site_data g e1 e2 st = (Done r, st') /\
    (r = (None, None) \/ exists f p, r = (Some f, Some p)).
Proof.
  destruct (generate_qr_for_site site_data g e1 e2 st) as [out st'] eqn:Hrun.
  apply generate_qr_for_site_inv in Hrun as [-> | (id & p & f & w1 & st1 & _ & _ & -> & _)].
  - exists (None, None), st'. split; [reflexivity | now left].
  - exists (Some f, Some p), st'. split; [reflexivity | right; now exists f, p].
Qed.

(** X25. A row that [generate_qr_data] rejects is given up before the
    host is touched: the result is [(None, None)], nothing is drawn or
    written, and the clock is as [generate_qr_data] left it. *)
Theorem rejected_row_leaves_host (site_data : value) (g : QRCodeGenerator.t)
    (e1 e2 : entropy) (w w' : world) (h : host) (e : exn) :
  QRCodeGenerator.generate_qr_data site_data w = (Raise e, w') ->
  generate_qr_for_site site_data g e1 e2 (w, h) = (Done (None, None), (w', h)).
Proof.
  intros Hgen. unfold generate_qr_for_site, io_try, io_bind at 1, io_py at 1.
  destruct (py_getitem site_data "id") as [id|x] eqn:Hid.
  - unfold io_bind at 1, io_clock at 1. cbn [fst snd]. rewrite Hgen. reflexivity.
  - unfold QRCodeGenerator.generate_qr_data, mbind, lift in Hgen.
    rewrite Hid in Hgen. injection Hgen as _ <-. reflexivity.
Qed.

(** X26. What a successful call gives back: the payload is the one
    [generate_qr_data] makes of the row at this clock, which is read
    twice and no more; the row's id is text; and the path is that of the
    labelled image or, when the labelled image failed, of the plain one,
    in the directory named after the id. *)
Theorem generate_qr_for_site_result (site_data : value) (g : QRCodeGenerator.t)
    (e1 e2 : entropy) (st st' : world * host) (f : string) (p : value) :
  generate_qr_for_site site_data g e1 e2 st = (Done (Some f, Some p), st') ->
  QRCodeGenerator.generate_qr_data site_data (fst st) = (Ok p, fst st') /\
  reads (fst st') = S (S (reads (fst st))) /\
  exists id stem,
    py_getitem site_data "id" = Ok (VStr id) /\
    file_stem site_data (safe_name id) = Ok stem /\
    (f = path_join (path_join QR_OUTPUT_DIR (safe_name id)) (stem ++ ".png") \/
     f = path_join (path_join QR_OUTPUT_DIR (safe_name id)) (stem ++ "_simple.png")).
Proof.
  intros Hrun.
  apply generate_qr_for_site_inv in Hrun as [[=] | (id & p' & f' & w1 & st1 & Hid & Hgen & Hout & Hw & Hf)].
  injection Hout as <- <-. subst w1.
  split; [assumption|]. split.
  - apply generate_qr_data_inv in Hgen.
    destruct Hgen as (? & ? & ? & ? & ? & ? & ? & ? & ? & ? & ? & ? &
                      _ & _ & _ & _ & _ & _ & _ & _ & _ & _ & _ & _ & _ & Hw).
    rewrite Hw. reflexivity.
  - destruct Hf as [Hl | (f0 & st0 & _ & Hs)].
    + apply labelled_path in Hl as (id' & stem & Hid' & Hstem & Hf & _).
      rewrite Hid in Hid'. injection Hid' as <-. exists id, stem. auto.
    + apply simple_path in Hs as (id' & stem & Hid' & Hstem & Hf & _).
      rewrite Hid in Hid'. injection Hid' as <-. exists id, stem. auto.
Qed.

(** X27. A row whose id is not text, a number for one, gets no QR code,
    even when [generate_qr_data] accepts it and whatever the host does:
    both renderers and the export call [replace] on the id. *)
Theorem id_must_be_text (site_data : value) (g : QRCodeGenerator.t)
    (e1 e2 : entropy) (st : world * host) :
  (forall id, py_getitem site_data "id" <> Ok (VStr id)) ->
  fst (generate_qr_for_site site_data g e1 e2 st) = Done (None, None).
Proof.
  intros Hid.
  destruct (generate_qr_for_site site_data g e1 e2 st) as [out st'] eqn:Hrun.
  apply generate_qr_for_site_inv in Hrun as [-> | (id & ? & ? & ? & ? & Hid' & _)].
  - reflexivity.
  - now apply Hid in Hid'.
Qed.

(** *** The run over the table *)

Lemma process_row_inv (g : QRCodeGenerator.t) (dr : entropy * entropy)
    (row : list (string * value)) (t t' : tally) (st st' : world * host) :
  process_row g dr row t st = (Done t', st') ->
  exists site_id r,
    py_getitem (VDict (replace_missing row)) "id" = Ok site_id /\
    fst (generate_qr_for_site (VDict (replace_missing row)) g (fst dr) (snd dr) st) = Done r /\
    ((successful t' = S (successful t) /\ failed t' = failed t /\
      failed_sites t' = failed_sites t /\ exists f p, r = (Some f, Some p)) \/
     (successful t' = successful t /\ failed t' = S (failed t) /\
      failed_sites t' = failed_sites t ++ [site_id] /\
      (r = (None, None) \/ exists f p, r = (Some f, Some p) /\
                                       truthy (VStr f) && truthy p = false))).
Proof.
  unfold process_row. intros Hrun.
  apply io_bind_Done in Hrun as (site_id & st1 & E1 & Hrun).
  apply io_py_Done in E1 as [Hid ->].
  apply io_bind_Done in Hrun as (? & st2 & E2 & Hrun). apply io_py_Done in E2 as [_ ->].
  apply io_bind_Done in Hrun as (? & st3 & E3 & Hrun). apply io_py_Done in E3 as [_ ->].
  apply io_bind_Done in Hrun as (? & st4 & E4 & Hrun). apply io_py_Done in E4 as [_ ->].
  apply io_bind_Done in Hrun as (? & st5 & E5 & Hrun). apply io_py_Done in E5 as [_ ->].
  apply io_bind_Done in Hrun as (r & st6 & E6 & Hrun).
  apply io_ret_Done in Hrun as [-> ->].
  exists site_id, r. split; [exact Hid|]. split; [now rewrite E6|].
  destruct (generate_qr_for_site_inv _ _ _ _ _ _ _ E6)
    as [[= ->] | (id & p & f & w1 & st7 & _ & _ & [= ->] & _)].
  - right. cbn. auto.
  - destruct (truthy (VStr f) && truthy p) eqn:Eok.
    + left. cbn. eauto 6.
    + right. cbn. split; [reflexivity|]. split; [reflexivity|]. split; [reflexivity|].
      right. now exists f, p.
Qed.

Lemma process_rows_counts (g : QRCodeGenerator.t) (draws : nat -> entropy * entropy)
    (rows : list (list (string * value))) :
  forall (n : nat) (t t' : tally) (st st' : world * host),
    process_rows g draws n rows t st = (Done t', st') ->
    (successful t' + failed t' = successful t + failed t + List.length rows)%nat /\
    (List.length (failed_sites t') + failed t = List.length (failed_sites t) + failed t')%nat /\
    (forall v, In v (failed_sites t) -> In v (failed_sites t')).
Proof.
  induction rows as [|row rest IH]; intros n t t' st st' Hrun.
  - apply io_ret_Done in Hrun as [-> _]. cbn. split; [lia|]. split; [lia | auto].
  - cbn [process_rows] in Hrun.
    apply io_bind_Done in Hrun as (t1 & st1 & E & Hrun).
    apply IH in Hrun as (Hsum & Hlen & Hin).
    apply process_row_inv in E as (site_id & r & _ & _ & Hcase).
    cbn [List.length].
    destruct Hcase as [(Hs & Hf & Hl & _) | (Hs & Hf & Hl & _)];
      rewrite Hs, Hf in *; rewrite Hl in *.
    + split; [lia|]. split; [lia | auto].
    + rewrite length_app in Hlen. cbn in Hlen.
      split; [lia|]. split; [lia|].
      intros v Hv. apply Hin, in_or_app. now left.
Qed.

(** X28. The counters of the run: when the loop over the rows comes to
    its end, every row was counted once, as successful or as failed, and
    the list of failed sites has one entry for each failure. *)
Theorem tally_counts_every_row (g : QRCodeGenerator.t) (draws : nat -> entropy * entropy)
    (rows : list (list (string * value))) (t : tally) (st st' : world * host) :
  process_rows g draws 0 rows {| successful := 0; failed := 0; failed_sites := [] |} st =
    (Done t, st') ->
  (successful t + failed t = List.length rows)%nat /\
  List.length (failed_sites t) = failed t.
Proof.
  intros Hrun. apply process_rows_counts in Hrun as (Hsum & Hlen & _).
  cbn in Hsum, Hlen. split; lia.
Qed.

(** The columns the loop prints before it encodes a row. *)
Lemma process_row_missing_column (g : QRCodeGenerator.t) (dr : entropy * entropy)
    (row : list (string * value)) (t : tally) (st : world * host) (k : string) :
  NoDup (map fst row) ->
  In k ["id"; "name"; "location"; "river_name"; "state"]%string ->
  dict_get row k = None ->
  exists f, process_row g dr row t st = (Failed f, st).
Proof.
  intros Hnd Hk Hnone.
  assert (Hmiss : py_getitem (VDict (replace_missing row)) k = Raise (KeyError k)).
  { cbn [py_getitem]. rewrite (replace_missing_map row Hnd), dict_get_filled, Hnone.
    reflexivity. }
  unfold process_row.
  repeat match goal with
  | |- exists f, io_bind (io_py ?r) _ st = _ =>
      unfold io_bind at 1, io_py at 1;
      destruct r as [?|?] eqn:?; [ | eexists; reflexivity ]
  end.
  exfalso. cbn in Hk.
  repeat (destruct Hk as [<- | Hk]; [congruence|]). exact Hk.
Qed.

(** X29. A table that lacks one of the columns [id], [name], [location],
    [river_name] and [state] gets nothing: the run ends at its first
    row, before any image, export or summary is written and without
    reading the clock, although [generate_qr_data] asks for neither
    [river_name] nor [state]. *)
Theorem table_without_display_column (draws : nat -> entropy * entropy) (w : world)
    (h h1 h2 : host) (row : list (string * value)) (rest : list (list (string * value)))
    (k : string) :
  makedirs QR_OUTPUT_DIR h = (Done tt, h1) ->
  read_csv CSV_FILE h1 = (Done (row :: rest), h2) ->
  NoDup (map fst row) ->
  In k ["id"; "name"; "location"; "river_name"; "state"]%string ->
  dict_get row k = None ->
  generate_all_qr_codes draws (w, h) = (Done tt, (w, h2)).
Proof.
  intros Hmk Hcsv Hnd Hk Hnone.
  unfold generate_all_qr_codes, io_try.
  unfold io_bind at 1, io_host at 1. cbn [fst snd]. rewrite Hmk.
  unfold io_bind at 1, io_host at 1. cbn [fst snd]. rewrite Hcsv.
  unfold io_bind at 1, io_py at 1.
  destruct (QRCodeGenerator.__init__ Sample.SECRET_KEY) as [g|e]; [|reflexivity].
  unfold io_bind at 1. cbn [process_rows]. unfold io_bind at 1.
  destruct (process_row_missing_column g (draws 0%nat) row
              {| successful := 0; failed := 0; failed_sites := [] |} (w, h2) k Hnd Hk Hnone)
    as [f ->].
  reflexivity.
Qed.

Lemma process_rows_failed_id (g : QRCodeGenerator.t) (draws : nat -> entropy * entropy)
    (rows : list (list (string * value))) (row : list (string * value)) (v : value) :
  In row rows ->
  py_getitem (VDict (replace_missing row)) "id" = Ok v ->
  (forall s, v <> VStr s) ->
  forall (n : nat) (t t' : tally) (st st' : world * host),
    process_rows g draws n rows t st = (Done t', st') ->
    In v (failed_sites t').
Proof.
  intros Hin Hid Hv. induction rows as [|row' rest IH]; [contradiction|].
  intros n t t' st st' Hrun. cbn [process_rows] in Hrun.
  apply io_bind_Done in Hrun as (t1 & st1 & E & Hrun).
  destruct Hin as [-> | Hin]; [|eapply IH; eassumption].
  apply process_rows_counts in Hrun as (_ & _ & Hkeep). apply Hkeep.
  pose proof E as E'.
  apply process_row_inv in E as (site_id & r & Hid' & Hr & Hcase).
  rewrite Hid in Hid'. injection Hid' as <-.
  destruct Hcase as [(_ & _ & _ & f & p & ->) | (_ & _ & -> & _)].
  - exfalso.
    destruct (generate_qr_for_site (VDict (replace_missing row)) g
                (fst (draws n)) (snd (draws n)) st) as [out st2] eqn:Eg.
    cbn in Hr. subst out.
    apply generate_qr_for_site_inv in Eg
      as [[=] | (id & ? & ? & ? & ? & Hid'' & _)].
    rewrite Hid in Hid''. injection Hid'' as ->. now apply (Hv id).
  - apply in_or_app. right. now left.
Qed.

Lemma py_join_non_text (sep : string) (l : list value) (v : value) :
  In v l -> (forall s, v <> VStr s) -> py_join sep l = Raise TypeError.
Proof.
  intros Hin Hv. induction l as [|x rest IH]; [contradiction|].
  destruct x; try reflexivity.
  destruct Hin as [<- | Hin]; [exfalso; exact (Hv s eq_refl)|].
  cbn [py_join]. destruct rest as [|y rest']; [contradiction|].
  rewrite (IH Hin). reflexivity.
Qed.

Lemma init_repository_key : QRCodeGenerator.__init__ Sample.SECRET_KEY = Ok Sample.generator.
Proof. vm_compute. reflexivity. Qed.

(** X30. A row whose id is not text costs the run its summary: the row
    fails, its id is put on the list of failed sites, and joining that
    list for the report raises TypeError, which ends the run before the
    clock is read and the summary is written. *)
Theorem non_text_id_loses_summary (draws : nat -> entropy * entropy) (w : world)
    (h h1 h2 : host) (rows : list (list (string * value))) (row : list (string * value))
    (v : value) (t : tally) (st : world * host) :
  makedirs QR_OUTPUT_DIR h = (Done tt, h1) ->
  read_csv CSV_FILE h1 = (Done rows, h2) ->
  process_rows Sample.generator draws 0 rows
    {| successful := 0; failed := 0; failed_sites := [] |} (w, h2) = (Done t, st) ->
  In row rows ->
  py_getitem (VDict (replace_missing row)) "id" = Ok v ->
  (forall s, v <> VStr s) ->
  In v (failed_sites t) /\
  write_summary (List.length rows) t st = (Failed (PyExn TypeError), st) /\
  generate_all_qr_codes draws (w, h) = (Done tt, st).
Proof.
  intros Hmk Hcsv Hloop Hin Hid Hv.
  assert (Hf : In v (failed_sites t)).
  { eapply process_rows_failed_id; eassumption. }
  assert (Hw : write_summary (List.length rows) t st = (Failed (PyExn TypeError), st)).
  { unfold write_summary, io_bind at 1, io_py at 1.
    destruct (failed_sites t) as [|x l] eqn:El; [contradiction|].
    cbn [truthy]. rewrite (py_join_non_text ", " (x :: l) v Hf Hv). reflexivity. }
  split; [exact Hf|]. split; [exact Hw|].
  unfold generate_all_qr_codes, io_try.
  unfold io_bind at 1, io_host at 1. cbn [fst snd]. rewrite Hmk.
  unfold io_bind at 1, io_host at 1. cbn [fst snd]. rewrite Hcsv.
  unfold io_bind at 1, io_py at 1. rewrite init_repository_key.
  unfold io_bind at 1. rewrite Hloop, Hw. reflexivity.
Qed.

End Files.

(** ** The further statements on sample inputs *)

Section MoreRuns.

Import Sample Cases.

#[local] Existing Instance Reference.lib.
#[local] Existing Instance disk.

Ltac run := vm_compute; reflexivity.

(** The empty row lacks [id]. *)
Lemma generate_qr_data_missing_field_witness :
  QRCodeGenerator.generate_qr_data (VDict []) clock = (Raise (KeyError "id"), clock).
Proof.
  apply (generate_qr_data_missing_field [] "id" clock); [left; reflexivity | reflexivity | reflexivity].
Defined.

(** The sample row in another state. *)
Lemma generate_qr_data_ignores_other_columns_witness :
  QRCodeGenerator.generate_qr_data (VDict (dict_set (items site) "state" (VStr "Goa"))) clock =
  QRCodeGenerator.generate_qr_data (VDict (items site)) clock.
Proof.
  apply (generate_qr_data_ignores_other_columns (items site) "state" (VStr "Goa") clock).
  cbn. intuition discriminate.
Defined.

(** The sample payload. *)
Lemma generated_payload_contract_witness :
  exists h, py_getitem payload "validationHash" = Ok (VStr h) /\ String.length h = 16%nat.
Proof.
  destruct (generated_payload_contract site clock
              (snd (QRCodeGenerator.generate_qr_data site clock)) payload)
    as (siteId & name & location & lat & lng & safe & warning & danger & radius & qrCode &
        isActive & generatedAt & expiresAt & h & Hp & Hlen).
  - run.
  - exists h. split; [rewrite Hp; reflexivity | exact Hlen].
Defined.

(** The sample row encoded one reading of the clock later. *)
Lemma generated_payloads_differ_in_time_only_witness :
  py_getitem payload "validationHash" =
  py_getitem (unwrap (fst (QRCodeGenerator.generate_qr_data site (World (time_at clock) 1))) VNone)
    "validationHash".
Proof.
  apply (generated_payloads_differ_in_time_only site
           clock (snd (QRCodeGenerator.generate_qr_data site clock))
           (World (time_at clock) 1)
           (snd (QRCodeGenerator.generate_qr_data site (World (time_at clock) 1)))).
  - run.
  - run.
  - discriminate.
  - discriminate.
Defined.

(** The sample row on the last day of the calendar. *)
Lemma generate_qr_data_overflow_witness :
  fst (QRCodeGenerator.generate_qr_data site last_day) = Raise OverflowError.
Proof.
  rewrite (generate_qr_data_overflow site last_day); [reflexivity | |].
  - intros k Hk. cbn in Hk.
    repeat (destruct Hk as [<- | Hk]; [eexists; vm_compute; reflexivity|]).
    contradiction.
  - vm_compute. discriminate.
Defined.

(** The sample payload, sealed for the validator, is valid at the sample
    clock. *)
Lemma validate_generated_payload_witness :
  QRCodeValidator.validate_qr_code validator sealed_payload clock =
  (Ok (true, Some payload, QRCodeValidator.msg_valid), World (time_at clock) 1).
Proof.
  destruct (validate_generated_payload validator sealed_payload site clock
              (snd (QRCodeGenerator.generate_qr_data site clock)) clock payload)
    as (is_active & Ha & Hv).
  - run.
  - run.
  - run.
  - vm_compute in Ha. injection Ha as <-. rewrite Hv. run.
Defined.

(** The sample payload expires one microsecond and 365 days after the
    sample clock's first reading. *)
Lemma expiry_is_strict_witness :
  QRCodeValidator.validate_qr_code validator sealed_payload clock =
  (Ok (true, Some payload, QRCodeValidator.msg_valid), World (time_at clock) 1).
Proof.
  apply (expiry_is_strict validator sealed_payload (items payload) (VBool true)
           "2027-11-04T17:47:03.000251"
           (63929411223000251 + Datetime.timedelta_days 365) clock);
    run.
Defined.

(** The sample payload with an expiry at +05:30. *)
Lemma aware_expiry_is_expired_witness :
  QRCodeValidator.validate_qr_code validator sealed_aware clock =
  (Ok (false, Some aware_payload, QRCodeValidator.msg_expired), World (time_at clock) 1).
Proof.
  apply (aware_expiry_is_expired validator sealed_aware (items aware_payload) (VBool true)
           "2027-11-04T17:47:03+05:30"
           (63929411223000251 + Datetime.timedelta_days 365 - 251) 330 clock);
    run.
Defined.

(** The sample payload has no [riverName]. *)
Lemma response_of_generated_payload_raises_witness :
  QRCodeValidator.get_site_validation_response validator payload clock =
  (Raise (KeyError "riverName"), clock).
Proof.
  apply (response_of_generated_payload_raises validator site clock
           (snd (QRCodeGenerator.generate_qr_data site clock)) clock payload).
  run.
Defined.

(** A record with all thirteen keys. *)
Lemma response_content_witness :
  exists r,
    fst (QRCodeValidator.get_site_validation_response validator site_record clock) = Ok r /\
    (g <~ py_getitem r "geofence" ;; py_getitem g "radius") = Ok (VInt 100) /\
    (v <~ py_getitem r "validation" ;; py_getitem v "validatedAt") =
      Ok (VStr "2026-11-04T17:47:03.000250").
Proof.
  destruct (QRCodeValidator.get_site_validation_response validator site_record clock)
    as [[r|e] w'] eqn:E; [|vm_compute in E; discriminate E].
  destruct (response_content validator site_record clock w' r E)
    as (_ & _ & _ & _ & Hr & _ & _ & Hv).
  exists r. split; [reflexivity|]. split; [rewrite Hr; reflexivity | rewrite Hv; run].
Defined.

(** The sample payload as site data: [riverName] is the first key it
    lacks. *)
Lemma response_missing_key_witness :
  exists k w',
    QRCodeValidator.get_site_validation_response validator payload clock =
      (Raise (KeyError k), w') /\
    dict_get (items payload) k = None.
Proof.
  destruct (response_missing_key validator (items payload) "district" clock)
    as (k & w' & Hr & _ & Hk & _).
  - cbn. auto 10.
  - reflexivity.
  - exists k, w'. split; [exact Hr | exact Hk].
Defined.


(** Site data without coordinates, and with coordinates that are text. *)
Lemma proximity_lookups_come_first_witness :
  validate_location_proximity 10%float 20%float (VDict []) = Raise (KeyError "coordinates") /\
  validate_location_proximity 10%float 20%float (VDict [("coordinates", VStr "10,20")]) =
    Raise TypeError.
Proof.
  split.
  - apply (proj1 (proximity_lookups_come_first 10%float 20%float [])). reflexivity.
  - apply (proj2 (proj2 (proximity_lookups_come_first 10%float 20%float
                           [("coordinates", VStr "10,20")])) (VStr "10,20")).
    + reflexivity.
    + discriminate.
Defined.


(** The labelled image of the sample site. *)
Lemma image_file_names_witness :
  fst (QRCodeGeneratorIO.create_qr_code_with_label generator draw payload site start) =
  Done "qr_codes/S1/Q1.png".
Proof.
  destruct (QRCodeGeneratorIO.create_qr_code_with_label generator draw payload site start)
    as [[f|x] st'] eqn:E; [|vm_compute in E; discriminate E].
  destruct (image_file_names generator draw payload site start st' f false E)
    as (id & label & Hid & Hlabel & Hf & _).
  vm_compute in Hid, Hlabel. injection Hid as <-. injection Hlabel as <-.
  rewrite Hf. reflexivity.
Defined.

(** The sample row without its latitude. *)
Lemma rejected_row_leaves_host_witness :
  generate_qr_for_site (without_entry site "latitude") generator draw draw start =
  (Done (None, None), start).
Proof.
  apply (rejected_row_leaves_host (without_entry site "latitude") generator draw draw
           clock clock (snd start) (KeyError "latitude")).
  run.
Defined.

(** The sample row on a host where everything goes through. *)
Lemma generate_qr_for_site_result_witness :
  fst (generate_qr_for_site site generator draw draw start) =
    Done (Some "qr_codes/S1/Q1.png", Some payload) /\
  QRCodeGenerator.generate_qr_data site clock = (Ok payload, World (time_at clock) 2).
Proof.
  assert (E : generate_qr_for_site site generator draw draw start =
              (Done (Some "qr_codes/S1/Q1.png", Some payload),
               snd (generate_qr_for_site site generator draw draw start))) by run.
  split; [rewrite E; reflexivity|].
  destruct (generate_qr_for_site_result site generator draw draw start _ _ _ E)
    as (Hgen & _ & _).
  etransitivity; [exact Hgen | run].
Defined.

(** The sample row with the number 7 for its id: it is encoded, and no
    image is made. *)
Lemma id_must_be_text_witness :
  (exists p, fst (QRCodeGenerator.generate_qr_data numbered_site clock) = Ok p) /\
  fst (generate_qr_for_site numbered_site generator draw draw start) = Done (None, None).
Proof.
  split; [eexists; run|].
  apply (id_must_be_text numbered_site generator draw draw start).
  intros id. vm_compute. discriminate.
Defined.

Lemma sparse_row_columns : NoDup (map fst sparse_row).
Proof.
  repeat (constructor; [cbn; intuition discriminate|]). constructor.
Qed.

(** The sparse row: its empty name becomes the empty text, its text id
    stays. *)
Lemma replace_missing_cells_witness :
  dict_get (replace_missing sparse_row) "name" = Some (VStr "") /\
  dict_get (replace_missing sparse_row) "id" = Some (VStr "S1") /\
  map fst (replace_missing sparse_row) = map fst sparse_row.
Proof.
  destruct (replace_missing_cells sparse_row sparse_row_columns) as (Hkeys & Hget & _ & _).
  split; [exact (Hget "name" VNone eq_refl)|].
  split; [exact (Hget "id" (VStr "S1") eq_refl) | exact Hkeys].
Defined.

(** The sparse row is encoded as an active site with radius 0 at
    latitude 0.0. *)
Lemma empty_cells_in_payload_witness :
  exists p,
    fst (QRCodeGenerator.generate_qr_data (VDict (replace_missing sparse_row)) clock) = Ok p /\
    py_getitem p "isActive" = Ok (VBool true) /\
    py_getitem p "geofenceRadius" = Ok (VInt 0) /\
    coordinate p "lat" = Ok (VFloat 0%float).
Proof.
  destruct (QRCodeGenerator.generate_qr_data (VDict (replace_missing sparse_row)) clock)
    as [[p|e] w'] eqn:E; [|vm_compute in E; discriminate E].
  destruct (empty_cells_in_payload sparse_row clock w' p sparse_row_columns E)
    as (Ha & Hr & Hlat & _ & _).
  exists p. split; [reflexivity|]. split; [|split].
  - apply Ha. exists (VFloat nan). split; reflexivity.
  - apply Hr. exists (VFloat nan). split; reflexivity.
  - apply Hlat. exists (VFloat nan). split; reflexivity.
Defined.

(** The sample row twice. *)
Lemma tally_counts_every_row_witness :
  exists t,
    fst (process_rows generator draws 0 [items site; items site]
           {| successful := 0; failed := 0; failed_sites := [] |} start) = Done t /\
    (successful t + failed t = 2)%nat.
Proof.
  destruct (process_rows generator draws 0 [items site; items site]
              {| successful := 0; failed := 0; failed_sites := [] |} start)
    as [[t|f] st] eqn:E; [|vm_compute in E; discriminate E].
  exists t. split; [reflexivity|].
  exact (proj1 (tally_counts_every_row generator draws _ t start st E)).
Defined.

(** A table without the river: the host is left after the table was
    read. *)
Lemma table_without_display_column_witness :
  generate_all_qr_codes draws (fresh riverless_table) =
  (Done tt, (clock, prepared riverless_table)).
Proof.
  apply (table_without_display_column draws clock
           (untouched riverless_table) (prepared riverless_table) (prepared riverless_table)
           (items (without_entry site "river_name")) [] "river_name").
  - reflexivity.
  - reflexivity.
  - repeat (constructor; [cbn; intuition discriminate|]). constructor.
  - cbn. auto.
  - reflexivity.
Defined.

(** The table with the numbered row: the run ends where its loop
    ended, with one site generated and no summary. *)
Lemma non_text_id_loses_summary_witness :
  snd (generate_all_qr_codes draws (fresh numbered_table)) =
  snd (process_rows generator draws 0 numbered_table
         {| successful := 0; failed := 0; failed_sites := [] |}
         (clock, prepared numbered_table)).
Proof.
  destruct (process_rows generator draws 0 numbered_table
              {| successful := 0; failed := 0; failed_sites := [] |}
              (clock, prepared numbered_table))
    as [[t|f] st] eqn:E; [|vm_compute in E; discriminate E].
  destruct (non_text_id_loses_summary draws clock
              (untouched numbered_table) (prepared numbered_table) (prepared numbered_table)
              numbered_table (items numbered_site) (VInt 7) t st)
    as (_ & _ & Hall).
  - reflexivity.
  - reflexivity.
  - exact E.
  - right. left. reflexivity.
  - reflexivity.
  - discriminate.
  - unfold fresh. rewrite Hall. reflexivity.
Defined.

End MoreRuns.
